(** * Daily Agent KPI pipeline ([src/app.py], class [Pipeline])

    A shallow embedding of the aggregation pipeline of the KPI generator and
    the properties of its specification.

    The pipeline is written against pandas.  The parts of pandas that the
    pipeline calls are modelled here as far as the pipeline depends on them:
    - a cell holds a Python object ([value]); a column is a [Series] with a
      declared [dtype]; a [DataFrame] is an ordered list of labelled columns;
    - what pandas does with floating-point numbers, with date strings, with
      the text form of a timestamp and with the [sum] reducer is kept behind
      the interfaces [Scalars] and [Pandas];
    - the mutable [Pipeline] object is threaded explicitly, and a raised
      exception is a [Raise] result that keeps the state reached so far.

    Conventions:
    - pandas is taken as in its 1.x and 2.x releases: [astype(str)] turns a
      missing value into the text "nan" ("NaT" in a datetime column),
      [groupby] leaves out the rows whose key holds a missing value,
      [drop_duplicates] and [merge] take two missing keys as equal, and
      [pd.to_datetime] raises on a value it cannot read;
    - strings are byte strings, and [lower] and [strip] act on the ASCII
      range; the texts the pipeline compares with ("yes", "no show", "off",
      "pass", "fail") and the column names it uses are ASCII;
    - a column of integers that receives missing values in a merge is stored
      by pandas as floats; the model keeps the integers, a count of 1 and a
      count of 1.0 being the same count;
    - of the Streamlit page around the class, only the two [except]
      clauses around the call of [build_db] are modelled. *)

From Stdlib Require Import ZArith List String Ascii Bool Lia DecimalString.
From stdpp Require Import base decidable option list gmap strings.

Open Scope string_scope.
Open Scope list_scope.
Open Scope Z_scope.

(** ** Python strings *)

Module Py.

Definition lower_ascii (c : ascii) : ascii :=
  let n := nat_of_ascii c in
  if (65 <=? n)%nat && (n <=? 90)%nat then ascii_of_nat (n + 32) else c.

(** [str.lower()] on the ASCII range. *)
Fixpoint lower (s : string) : string :=
  match s with
  | EmptyString => EmptyString
  | String c s' => String (lower_ascii c) (lower s')
  end.

(** The ASCII characters [str.strip()] removes: TAB, LF, VT, FF, CR, the
    separators FS, GS, RS, US and the space. *)
Definition is_space (c : ascii) : bool :=
  let n := nat_of_ascii c in
  ((9 <=? n)%nat && (n <=? 13)%nat) || ((28 <=? n)%nat && (n <=? 32)%nat).

Fixpoint lstrip (s : string) : string :=
  match s with
  | EmptyString => EmptyString
  | String c s' => if is_space c then lstrip s' else s
  end.

Fixpoint rstrip (s : string) : string :=
  match s with
  | EmptyString => EmptyString
  | String c s' =>
      match rstrip s' with
      | EmptyString => if is_space c then EmptyString else String c EmptyString
      | r => String c r
      end
  end.

Definition strip (s : string) : string := rstrip (lstrip s).

(** [str(n)] for a Python [int]. *)
Definition str_int (n : Z) : string := NilZero.string_of_int (Z.to_int n).

(** [sep.join(l)]. *)
Definition join (sep : string) (l : list string) : string := String.concat sep l.

(** Two decimal digits, zero padded ([%m], [%d]). *)
Definition pad2 (n : Z) : string :=
  if n <? 10 then "0" +:+ str_int n else str_int n.

(** Four decimal digits, zero padded ([%Y] for the years 0..9999). *)
Definition pad4 (n : Z) : string :=
  if n <? 10 then "000" +:+ str_int n
  else if n <? 100 then "00" +:+ str_int n
  else if n <? 1000 then "0" +:+ str_int n
  else str_int n.

End Py.

(** ** Exceptions and results *)

Inductive exn :=
| ValueError (msg : string)
| KeyError (msg : string)
| TypeError (msg : string)
| AttributeError (msg : string).

Inductive result (A : Type) :=
| Ok (a : A)
| Raise (e : exn).
Arguments Ok {A} a.
Arguments Raise {A} e.

#[global] Instance result_ret : MRet result := @Ok.
#[global] Instance result_bind : MBind result := fun A B f m =>
  match m with
  | Ok a => f a
  | Raise e => Raise e
  end.

(** Run [f] over a list from left to right, stopping at the first exception. *)
Fixpoint for_each {A B} (f : A -> result B) (l : list A) : result (list B) :=
  match l with
  | [] => Ok []
  | x :: l' =>
      match f x with
      | Raise e => Raise e
      | Ok y =>
          match for_each f l' with
          | Raise e => Raise e
          | Ok ys => Ok (y :: ys)
          end
      end
  end.

(** ** Timestamps

    A pandas [Timestamp] is a count of nanoseconds since 1970-01-01. *)

Module Time.

Definition ns_per_day : Z := 86400 * 1000000000.

Definition int64_min : Z := - 2 ^ 63.
Definition int64_max : Z := 2 ^ 63 - 1.

(** Day number (days since 1970-01-01) to (year, month, day) in the
    proleptic Gregorian calendar. *)
Definition civil_from_days (d : Z) : Z * Z * Z :=
  let z := d + 719468 in
  let era := z / 146097 in
  let doe := z - era * 146097 in
  let yoe := (doe - doe / 1460 + doe / 36524 - doe / 146096) / 365 in
  let y := yoe + era * 400 in
  let doy := doe - (365 * yoe + yoe / 4 - yoe / 100) in
  let mp := (5 * doy + 2) / 153 in
  let dd := doy - (153 * mp + 2) / 5 + 1 in
  let m := if mp <? 10 then mp + 3 else mp - 9 in
  (if m <=? 2 then y + 1 else y, m, dd).

(** (year, month, day) to day number. *)
Definition days_from_civil (y m d : Z) : Z :=
  let y' := if m <=? 2 then y - 1 else y in
  let era := y' / 400 in
  let yoe := y' - era * 400 in
  let mp := if m <=? 2 then m + 9 else m - 3 in
  let doy := (153 * mp + 2) / 5 + d - 1 in
  let doe := yoe * 365 + yoe / 4 - yoe / 100 + doy in
  era * 146097 + doe - 719468.

(** [Timestamp.strftime('%Y-%m-%d')]. *)
Definition strftime_ymd (t : Z) : string :=
  let '(y, m, d) := civil_from_days (t / ns_per_day) in
  Py.pad4 y +:+ "-" +:+ Py.pad2 m +:+ "-" +:+ Py.pad2 d.

End Time.

(** ** Python scalars

    What Python and pandas do with a floating-point number, with the text of
    a timestamp and with a date written as text is not modelled; the
    pipeline only needs the following operations on them. *)

Class Scalars (F : Type) := {
  float_eq_dec :: EqDecision F;
  (** [float(n)] *)
  float_of_int : Z -> F;
  (** [repr(x)], the digits [str] gives for a float *)
  float_repr : F -> string;
  (** [x == n] for an integer [n] *)
  float_eqb : F -> Z -> bool;
  (** [int(x)], rounding toward zero *)
  float_to_int : F -> Z;
  (** [str(t)] for a [Timestamp] *)
  timestamp_repr : Z -> string;
  (** the string parser of [pd.to_datetime]: [None] when the text is not a
      date, [Some None] when it reads as [NaT] *)
  parse_datetime : string -> option (option Z);
  (** the number parser of the spreadsheet reader, on a text that is not an
      integer literal: [None] when the text is not a number *)
  parse_float : string -> option F;
}.

(** ** Values, series and frames *)

(** A cell of a frame.  [VNaN] is the missing value ([NaN], or [NaT] in a
    datetime column); a float that is not missing is a [VFloat]. *)
Inductive value {F : Type} :=
| VNaN
| VInt (n : Z)
| VFloat (x : F)
| VStr (s : string)
| VBool (b : bool)
| VTime (t : Z).
Arguments value F : clear implicits.

Inductive dtype := int64 | float64 | bool_ | object_ | datetime64.

#[global] Instance dtype_eq_dec : EqDecision dtype.
Proof. solve_decision. Defined.

(** [pd.api.types.is_numeric_dtype] *)
Definition is_numeric_dtype (d : dtype) : bool :=
  match d with
  | int64 | float64 | bool_ => true
  | object_ | datetime64 => false
  end.

Record Series {F : Type} := mkSeries { s_dtype : dtype; s_values : list (value F) }.
Arguments Series F : clear implicits.
Arguments mkSeries {F} s_dtype s_values.

(** The columns of a frame in order, each with its label.  A label is a
    Python object: a header cell that holds a number gives a number. *)
Record DataFrame {F : Type} := mkFrame { df_columns : list (value F * Series F) }.
Arguments DataFrame F : clear implicits.
Arguments mkFrame {F} df_columns.

(** The join key of a row: its [date] and its [agentmis]. *)
Definition key (F : Type) : Type := value F * value F.

(** A frame whose first two columns are [date] and [agentmis]: the base
    table and the per-sheet aggregates.  Each row holds its key and one
    value per metric column. *)
Record Table {F : Type} := mkTable {
  metric_cols : list string;
  rows : list (key F * list (value F))
}.
Arguments Table F : clear implicits.
Arguments mkTable {F} metric_cols rows.

(** [drop_duplicates()]: the first occurrence of every element is kept. *)
Fixpoint drop_duplicates_from {A} `{EqDecision A} (seen l : list A) : list A :=
  match l with
  | [] => []
  | x :: l' =>
      if decide (x ∈ seen) then drop_duplicates_from seen l'
      else x :: drop_duplicates_from (x :: seen) l'
  end.

Definition drop_duplicates {A} `{EqDecision A} (l : list A) : list A :=
  drop_duplicates_from [] l.

Section Frames.
Context {F : Type} `{Scalars F}.

#[global] Instance value_eq_dec : EqDecision (value F).
Proof. solve_decision. Defined.

Definition isna (v : value F) : bool :=
  match v with VNaN => true | _ => false end.

Definition notna (v : value F) : bool := negb (isna v).

(** [len(df)] *)
Definition len (df : DataFrame F) : nat :=
  match df_columns df with
  | [] => 0%nat
  | (_, s) :: _ => length (s_values s)
  end.

Definition has_label (c : string) (p : value F * Series F) : bool :=
  bool_decide (p.1 = VStr c).

(** [c in df.columns] *)
Definition contains (df : DataFrame F) (c : string) : bool :=
  existsb (has_label c) (df_columns df).

(** [df[c]] for a column that the pipeline uses as a series.  With a label
    that occurs twice pandas hands back a frame, and every use the pipeline
    makes of it raises; the model raises at the access. *)
Definition getitem (df : DataFrame F) (c : string) : result (Series F) :=
  match filter (fun p => has_label c p = true) (df_columns df) with
  | [] => Raise (KeyError c)
  | [p] => Ok p.2
  | _ => Raise (ValueError ("duplicate column " +:+ c))
  end.

(** [df[c] = s] for a label that is present. *)
Definition setitem (df : DataFrame F) (c : string) (s : Series F) : DataFrame F :=
  mkFrame (map (fun p => if has_label c p then (p.1, s) else p) (df_columns df)).

(** [df.columns = labels] *)
Definition set_columns (df : DataFrame F) (labels : list (value F)) : DataFrame F :=
  mkFrame (zip labels (map snd (df_columns df))).

(** The text [astype(str)] gives for one cell of a column of dtype [d]. *)
Definition str_value (d : dtype) (v : value F) : string :=
  match v with
  | VNaN => match d with datetime64 => "NaT" | _ => "nan" end
  | VInt n => Py.str_int n
  | VFloat x => float_repr x
  | VStr s => s
  | VBool true => "True"
  | VBool false => "False"
  | VTime t => timestamp_repr t
  end.

(** [s.astype(str)] *)
Definition astype_str (s : Series F) : Series F :=
  mkSeries object_ (map (fun v => VStr (str_value (s_dtype s) v)) (s_values s)).

(** [s.astype(str).str.lower()], as the list of its texts. *)
Definition str_lower (s : Series F) : list string :=
  map (fun v => Py.lower (str_value (s_dtype s) v)) (s_values s).

(** A count of nanoseconds as a timestamp: the least 64-bit integer is
    [NaT], anything outside 64 bits is out of bounds. *)
Definition timestamp_of_ns (n : Z) : result (value F) :=
  if n =? Time.int64_min then Ok VNaN
  else if (Time.int64_min <? n) && (n <=? Time.int64_max) then Ok (VTime n)
  else Raise (ValueError "Out of bounds nanosecond timestamp").

(** [pd.to_datetime] on one cell, with the default [errors='raise']. *)
Definition to_datetime_value (v : value F) : result (value F) :=
  match v with
  | VNaN => Ok VNaN
  | VTime t => Ok (VTime t)
  | VInt n => timestamp_of_ns n
  | VFloat x => timestamp_of_ns (float_to_int x)
  | VStr s =>
      match parse_datetime s with
      | Some (Some t) => Ok (VTime t)
      | Some None => Ok VNaN
      | None => Raise (ValueError ("Unknown datetime string format, unable to parse: " +:+ s))
      end
  | VBool _ => Raise (TypeError "<class 'bool'> is not convertible to datetime")
  end.

(** [pd.to_datetime(s)] *)
Definition to_datetime (s : Series F) : result (Series F) :=
  vs ← for_each to_datetime_value (s_values s);
  Ok (mkSeries datetime64 vs).

(** [df[['date','agentmis']]], as the list of the rows' keys. *)
Definition keys_of (df : DataFrame F) : result (list (key F)) :=
  d ← getitem df "date";
  a ← getitem df "agentmis";
  Ok (zip (s_values d) (s_values a)).

(** The keys of the groups of [groupby(['date','agentmis'])]: with the
    default [dropna=True] a row whose key holds a missing value belongs to
    no group.  pandas sorts the groups by key; the pipeline only looks the
    groups up by key (in a merge), so the model keeps the order of first
    occurrence. *)
Definition group_keys (ks : list (key F)) : list (key F) :=
  drop_duplicates (filter (fun k => notna k.1 && notna k.2 = true) ks).

(** The part of column [s] that lies in the group of key [k]; it keeps the
    dtype of the column. *)
Definition group (ks : list (key F)) (k : key F) (s : Series F) : Series F :=
  mkSeries (s_dtype s)
    (map snd (filter (fun p => bool_decide (p.1 = k) = true) (zip ks (s_values s)))).

(** A named aggregation [out=(src, f)]. *)
Definition named_agg : Type := string * string * (Series F -> result (value F)).

(** [df.groupby(['date','agentmis']).agg(out=(src, f), ...).reset_index()] *)
Definition groupby_agg (df : DataFrame F) (spec : list named_agg) : result (Table F) :=
  ks ← keys_of df;
  cols ← for_each (fun a : named_agg => s ← getitem df a.1.2; Ok (s, a.2)) spec;
  rs ← for_each (fun k =>
          ms ← for_each (fun c : Series F * (Series F -> result (value F)) =>
                           c.2 (group ks k c.1)) cols;
          Ok (k, ms)) (group_keys ks);
  Ok (mkTable (map (fun a : named_agg => a.1.1) spec) rs).

(** [left.merge(right, on=['date','agentmis'], how='left')]: every row of
    [left] in order, once per row of [right] with the same key, and once
    with missing values when there is none.  Equal missing keys match.
    (The metric names of the two sides never overlap in the pipeline, so
    no suffix is added.) *)
Definition merge_left (left right : Table F) : Table F :=
  mkTable (metric_cols left ++ metric_cols right)
    (flat_map (fun l : key F * list (value F) =>
       match filter (fun r : key F * list (value F) => bool_decide (r.1 = l.1) = true) (rows right) with
       | [] => [(l.1, l.2 ++ replicate (length (metric_cols right)) VNaN)]
       | hits => map (fun r : key F * list (value F) => (l.1, l.2 ++ r.2)) hits
       end) (rows left)).

(** [df.columns] of a table. *)
Definition columns (t : Table F) : list string :=
  "date" :: "agentmis" :: metric_cols t.

(** [fillna(0)] on one cell. *)
Definition fillna0 (v : value F) : value F :=
  match v with VNaN => VInt 0 | _ => v end.

(** [t[cols] = t[cols].fillna(0)] *)
Definition fillna_cols (t : Table F) (cols : list string) : Table F :=
  mkTable (metric_cols t)
    (map (fun r : key F * list (value F) =>
            (r.1, zip_with (fun c v => if bool_decide (c ∈ cols) then fillna0 v else v)
                           (metric_cols t) r.2)) (rows t)).

Fixpoint assoc (c : string) (l : list (string * value F)) : option (value F) :=
  match l with
  | [] => None
  | p :: l' => if decide (p.1 = c) then Some p.2 else assoc c l'
  end.

(** The cell of row [r] in the metric column [c]. *)
Definition cell (t : Table F) (r : key F * list (value F)) (c : string) : option (value F) :=
  assoc c (zip (metric_cols t) r.2).

End Frames.

(** ** The pandas entry points the pipeline calls *)

Class Pandas (F File : Type) := {
  (** [pd.ExcelFile(file).sheet_names] *)
  sheet_names : File -> list string;
  (** [pd.read_excel(file, sheet_name=name)] *)
  read_excel : File -> string -> result (DataFrame F);
  (** the reducer ['sum'] of a named aggregation, on one group *)
  series_sum : Series F -> result (value F);
}.

(** ** The pipeline *)

Section Pipeline.
Context {F File : Type} `{Scalars F} `{Pandas F File}.

#[local] Abbreviation Value := (value F).
#[local] Abbreviation Row := (key F * list (value F))%type.

(** The attributes of a [Pipeline] object; [None] is Python's [None]. *)
Record Pipeline := mkPipeline {
  file : File;
  cho : option (DataFrame F);
  cht : option (DataFrame F);
  chd : option (DataFrame F);
  che : option (DataFrame F);
  base : option (Table F);
  stats : gmap string Value
}.

(** [Pipeline(file)] *)
Definition init (f : File) : Pipeline :=
  mkPipeline f None None None None None ∅.

(** A method body: it runs on the object and leaves it changed, also when
    it raises. *)
Definition M (A : Type) : Type := Pipeline -> result A * Pipeline.

#[global] Instance M_ret : MRet M := fun A a self => (Ok a, self).
#[global] Instance M_bind : MBind M := fun A B f m self =>
  match m self with
  | (Ok a, self') => f a self'
  | (Raise e, self') => (Raise e, self')
  end.

Definition lift {A} (r : result A) : M A := fun self => (r, self).

(** Using an attribute that is to hold a frame: on [None] the use raises
    [e]. *)
Definition get_frame {A} (attr : Pipeline -> option A) (e : exn) : M A := fun self =>
  match attr self with
  | Some a => (Ok a, self)
  | None => (Raise e, self)
  end.

(** What Python raises for [len(None)], [None[...]] and [None.name]. *)
Definition no_len : exn := TypeError "object of type 'NoneType' has no len()".
Definition not_subscriptable : exn := TypeError "'NoneType' object is not subscriptable".
Definition no_attribute (name : string) : exn :=
  AttributeError ("'NoneType' object has no attribute '" +:+ name +:+ "'").

Definition set_cho (df : DataFrame F) : M unit := fun self =>
  (Ok (), mkPipeline (file self) (Some df) (cht self) (chd self) (che self) (base self) (stats self)).
Definition set_cht (df : DataFrame F) : M unit := fun self =>
  (Ok (), mkPipeline (file self) (cho self) (Some df) (chd self) (che self) (base self) (stats self)).
Definition set_chd (df : DataFrame F) : M unit := fun self =>
  (Ok (), mkPipeline (file self) (cho self) (cht self) (Some df) (che self) (base self) (stats self)).
Definition set_che (df : DataFrame F) : M unit := fun self =>
  (Ok (), mkPipeline (file self) (cho self) (cht self) (chd self) (Some df) (base self) (stats self)).
Definition set_base (t : Table F) : M unit := fun self =>
  (Ok (), mkPipeline (file self) (cho self) (cht self) (chd self) (che self) (Some t) (stats self)).
(** [self.stats[k] = v] *)
Definition set_stat (k : string) (v : Value) : M unit := fun self =>
  (Ok (), mkPipeline (file self) (cho self) (cht self) (chd self) (che self) (base self)
            (<[k := v]> (stats self))).

(** *** [standardize] *)

Definition normalize_label (c : Value) : result Value :=
  match c with
  | VStr s => Ok (VStr (Py.strip (Py.lower s)))
  | _ => Raise (AttributeError "object has no attribute 'lower'")
  end.

Definition standardize (df : DataFrame F) : result (DataFrame F) :=
  labels ← for_each normalize_label (map fst (df_columns df));
  let df := set_columns df labels in
  df ← (if contains df "date"
        then s ← getitem df "date"; s' ← to_datetime s; Ok (setitem df "date" s')
        else Ok df);
  df ← (if contains df "agentmis"
        then s ← getitem df "agentmis"; Ok (setitem df "agentmis" (astype_str s))
        else Ok df);
  Ok df.

(** *** [count_fail] *)

Fixpoint count_true (l : list bool) : nat :=
  match l with
  | [] => 0%nat
  | b :: l' => if b then S (count_true l') else count_true l'
  end.

(** [mask.sum()] for a series of booleans. *)
Definition sum_bool (l : list bool) : Value := VInt (Z.of_nat (count_true l)).

(** [(series.astype(str).str.lower() == target).sum()] *)
Definition count_eq (target : string) (series : Series F) : result Value :=
  Ok (sum_bool (map (fun s => bool_decide (s = target)) (str_lower series))).

Definition count_fail (series : Series F) : result Value :=
  count_eq "fail" series.

(** *** [validate_sheets] *)

Definition required_sheets : list string := ["CHO"; "CHT"; "CHD"; "CHE"].

Definition missing_sheets (available : list string) : list string :=
  filter (fun s => s ∉ available) required_sheets.

Definition validate_sheets : M bool := fun self =>
  let available_sheets := sheet_names (file self) in
  match missing_sheets available_sheets with
  | [] => (Ok true, self)
  | missing =>
      (Raise (ValueError ("Missing required sheets: " +:+ Py.join ", " missing)), self)
  end.

(** *** [load_sheets] *)

Definition load (name : string) : M (DataFrame F) := fun self =>
  (read_excel (file self) name ≫= standardize, self).

Definition load_sheets : M unit :=
  _ ← validate_sheets;
  df ← load "CHO"; set_cho df;;
  df ← load "CHT"; set_cht df;;
  df ← load "CHD"; set_chd df;;
  df ← load "CHE"; set_che df;;
  df ← get_frame cho no_len; set_stat "cho_rows" (VInt (Z.of_nat (len df)));;
  df ← get_frame cht no_len; set_stat "cht_rows" (VInt (Z.of_nat (len df)));;
  df ← get_frame chd no_len; set_stat "chd_rows" (VInt (Z.of_nat (len df)));;
  df ← get_frame che no_len; set_stat "che_rows" (VInt (Z.of_nat (len df))).

(** *** [build_base] *)

(** [s.nunique()]: the number of distinct values that are not missing. *)
Definition nunique (vs : list Value) : nat :=
  length (drop_duplicates (filter (fun v => notna v = true) vs)).

Definition timestamps (vs : list Value) : list Z :=
  omap (fun v => match v with VTime t => Some t | _ => None end) vs.

(** [s.min()] and [s.max()] of a datetime column: missing values are
    skipped, and the result is [NaT] when nothing is left. *)
Definition series_min (vs : list Value) : Value :=
  match timestamps vs with
  | [] => VNaN
  | t :: ts => VTime (foldr Z.min t ts)
  end.

Definition series_max (vs : list Value) : Value :=
  match timestamps vs with
  | [] => VNaN
  | t :: ts => VTime (foldr Z.max t ts)
  end.

(** [v.strftime('%Y-%m-%d')] *)
Definition strftime (v : Value) : result string :=
  match v with
  | VTime t => Ok (Time.strftime_ymd t)
  | _ => Raise (ValueError "NaTType does not support strftime")
  end.

Definition table_dates (t : Table F) : list Value := map (fun r : Row => r.1.1) (rows t).
Definition table_agents (t : Table F) : list Value := map (fun r : Row => r.1.2) (rows t).

(** [pd.concat([...]).drop_duplicates().reset_index(drop=True)] on the key
    columns: the first occurrence of every key, and no metric column yet. *)
Definition base_table (ks : list (key F)) : Table F :=
  mkTable [] (map (fun k => (k, [])) (drop_duplicates ks)).

Definition build_base : M unit :=
  df1 ← get_frame cho not_subscriptable; k1 ← lift (keys_of df1);
  df2 ← get_frame cht not_subscriptable; k2 ← lift (keys_of df2);
  df3 ← get_frame chd not_subscriptable; k3 ← lift (keys_of df3);
  df4 ← get_frame che not_subscriptable; k4 ← lift (keys_of df4);
  set_base (base_table (k1 ++ k2 ++ k3 ++ k4));;
  b ← get_frame base not_subscriptable;
  set_stat "unique_agents" (VInt (Z.of_nat (nunique (table_agents b))));;
  b ← get_frame base not_subscriptable;
  start ← lift (strftime (series_min (table_dates b)));
  stop ← lift (strftime (series_max (table_dates b)));
  set_stat "date_range" (VStr (start +:+ " to " +:+ stop));;
  b ← get_frame base no_len;
  set_stat "total_records" (VInt (Z.of_nat (length (rows b)))).

(** *** The four aggregators *)

(** [self.base = self.base.merge(agg, on=['date','agentmis'], how='left')] *)
Definition merge_into_base (agg : Table F) : M unit :=
  b ← get_frame base (no_attribute "merge"); set_base (merge_left b agg).

(** [(~x.astype(str).str.lower().isin(['off'])).sum()] *)
Definition count_not_in (targets : list string) (x : Series F) : result Value :=
  Ok (sum_bool (map (fun s => negb (bool_decide (s ∈ targets))) (str_lower x))).

Definition cho_spec : list (@named_agg F) :=
  [ ("absent", "status", count_eq "no show");
    ("scheduled", "status", count_not_in ["off"]) ].

Definition aggregate_cho : M unit :=
  df ← get_frame cho (no_attribute "copy");
  agg ← lift (groupby_agg df cho_spec);
  merge_into_base agg.

Definition cht_spec : list (@named_agg F) :=
  [ ("ans_vol", "ans_vol", series_sum);
    ("aht_min", "aht", series_sum);
    ("art_min", "art", series_sum) ].

Definition aggregate_cht : M unit :=
  df ← get_frame cht (no_attribute "copy");
  agg ← lift (groupby_agg df cht_spec);
  merge_into_base agg.

(** The reducer ['count']: the number of values that are not missing. *)
Definition series_count (x : Series F) : result Value :=
  Ok (VInt (Z.of_nat (length (filter (fun v => notna v = true) (s_values x))))).

(** [v == n] for a cell of a numeric column and an integer [n]. *)
Definition value_eqb (v : Value) (n : Z) : bool :=
  match v with
  | VInt m => m =? n
  | VFloat x => float_eqb x n
  | VBool b => Z.b2z b =? n
  | _ => false
  end.

(** [x.isin(ns)] on one cell. *)
Definition isin (ns : list Z) (v : Value) : bool := existsb (value_eqb v) ns.

Definition csat (x : Series F) : result Value :=
  if is_numeric_dtype (s_dtype x)
  then Ok (VInt (Z.of_nat (length (filter (fun v => isin [4; 5] v = true) (s_values x)))))
  else Ok (VInt 0).

Definition dsat (x : Series F) : result Value :=
  if is_numeric_dtype (s_dtype x)
  then Ok (VInt (Z.of_nat (length (filter (fun v => value_eqb v 1 = true) (s_values x)))))
  else Ok (VInt 0).

(** [(x.astype(str).str.lower() != target).sum()] *)
Definition count_ne (target : string) (x : Series F) : result Value :=
  Ok (sum_bool (map (fun s => negb (bool_decide (s = target))) (str_lower x))).

Definition chd_spec : list (@named_agg F) :=
  [ ("surveyed_count", "score", series_count);
    ("solved_count", "sloved", count_eq "yes");
    ("not_solved_count", "sloved", count_ne "yes");
    ("csat_count", "score", csat);
    ("dsat_count", "score", dsat) ].

Definition aggregate_chd : M unit :=
  df ← get_frame chd (no_attribute "copy");
  agg ← lift (groupby_agg df chd_spec);
  merge_into_base agg.

Definition che_spec : list (@named_agg F) :=
  [ ("evaluated_count", "final", series_count);
    ("pass_eval_count", "final", count_eq "pass");
    ("fail_eval_count", "final", count_eq "fail");
    ("rc1_fail", "rc1", count_fail);
    ("rc2_fail", "rc2", count_fail);
    ("rc_fail", "rc", count_fail);
    ("bc_fail", "bc", count_fail);
    ("cc_fail", "cc", count_fail) ].

Definition aggregate_che : M unit :=
  df ← get_frame che (no_attribute "copy");
  agg ← lift (groupby_agg df che_spec);
  merge_into_base agg.

(** *** [build_db] *)

Definition build_db : M (Table F) :=
  load_sheets;;
  build_base;;
  aggregate_cho;;
  aggregate_cht;;
  aggregate_chd;;
  aggregate_che;;
  b ← get_frame base (no_attribute "columns");
  let metric_cols := filter (fun c => c ∉ ["date"; "agentmis"]) (columns b) in
  let b := fillna_cols b metric_cols in
  set_base b;;
  mret b.

(** *** Calling the pipeline *)

(** The Python objects a call of the pipeline can evaluate to; [PyPair] is a
    tuple of two objects. *)
Inductive pyobj :=
| PyNone
| PyFrame (t : Table F)
| PyDict (d : gmap string Value)
| PyPair (a b : pyobj).

(** The value of [Pipeline(file).build_db()]: the object [build_db]
    returns, which is [self.base]. *)
Definition call_build_db (f : File) : result pyobj :=
  match build_db (init f) with
  | (Ok t, _) => Ok (PyFrame t)
  | (Raise e, _) => Raise e
  end.

End Pipeline.


(** ** Notions used to state the properties *)

Section Derived.
Context {F : Type} `{Scalars F}.

#[local] Abbreviation Value := (value F).
#[local] Abbreviation Row := (key F * list (value F))%type.

(** The metric values a left merge appends to a row of key [k]. *)
Definition metrics_at (agg : Table F) (k : key F) : list Value :=
  match filter (fun r : Row => bool_decide (r.1 = k) = true) (rows agg) with
  | [] => replicate (length (metric_cols agg)) VNaN
  | r :: _ => r.2
  end.

(** The statistics [load_sheets] records. *)
Definition loaded_stats (d1 d2 d3 d4 : DataFrame F) (st : gmap string Value) : gmap string Value :=
  <["che_rows" := VInt (Z.of_nat (len d4))]>
    (<["chd_rows" := VInt (Z.of_nat (len d3))]>
      (<["cht_rows" := VInt (Z.of_nat (len d2))]>
        (<["cho_rows" := VInt (Z.of_nat (len d1))]> st))).

(** The statistics [build_base] records. *)
Definition base_stats (b : Table F) (start stop : string) (st : gmap string Value) : gmap string Value :=
  <["total_records" := VInt (Z.of_nat (length (rows b)))]>
    (<["date_range" := VStr (start +:+ " to " +:+ stop)]>
      (<["unique_agents" := VInt (Z.of_nat (nunique (table_agents b)))]> st)).

(** The metric columns of the final table. *)
Definition all_metric_cols : list string :=
  [ "absent"; "scheduled";
    "ans_vol"; "aht_min"; "art_min";
    "surveyed_count"; "solved_count"; "not_solved_count"; "csat_count"; "dsat_count";
    "evaluated_count"; "pass_eval_count"; "fail_eval_count";
    "rc1_fail"; "rc2_fail"; "rc_fail"; "bc_fail"; "cc_fail" ].

(** The table before the final [fillna]: the base with the four aggregates
    merged in. *)
Definition merged (ks : list (key F)) (a1 a2 a3 a4 : Table F) : Table F :=
  merge_left (merge_left (merge_left (merge_left (base_table ks) a1) a2) a3) a4.

(** The metric values of key [k] after the four merges. *)
Definition final_metrics (a1 a2 a3 a4 : Table F) (k : key F) : list Value :=
  metrics_at a1 k ++ metrics_at a2 k ++ metrics_at a3 k ++ metrics_at a4 k.

Definition spec_names (spec : list (@named_agg F)) : list string :=
  map (fun a : named_agg => a.1.1) spec.


(** A frame without data rows. *)
Definition no_rows (df : DataFrame F) : Prop :=
  Forall (fun c : Value * Series F => s_values c.2 = []) (df_columns df).

End Derived.

(** ** Reading a workbook

    What [pd.read_excel] makes of the cells of a worksheet when no [dtype]
    is given, as the pipeline calls it.  The reader hands the cells of each
    column to the type inference of pandas' Python parser: texts that stand
    for a missing value become [NaN]; a column in which every cell is a
    number, a boolean, a missing value or a text that reads as a number
    becomes a numeric column; every other column keeps its objects. *)

Module Excel.
Section Excel.
Context {F : Type} `{Scalars F}.

#[local] Abbreviation Value := (value F).

(** A worksheet, column by column: the header cell and the cells below it.
    An empty cell is [VNaN]. *)
Definition Sheet : Type := list (Value * list Value).

(** A workbook: its worksheets by name, in order. *)
Definition Workbook : Type := list (string * Sheet).

(** The texts the reader takes for a missing value (pandas' default
    [na_values]). *)
Definition na_values : list string :=
  [ ""; "#N/A"; "#N/A N/A"; "#NA"; "-1.#IND"; "-1.#QNAN"; "-NaN"; "-nan";
    "1.#IND"; "1.#QNAN"; "<NA>"; "N/A"; "NA"; "NULL"; "NaN"; "None";
    "n/a"; "nan"; "null" ].

Definition digit (c : ascii) : option Z :=
  let n := nat_of_ascii c in
  if (48 <=? n)%nat && (n <=? 57)%nat then Some (Z.of_nat (n - 48)) else None.

Fixpoint digits_from (acc : Z) (s : string) : option Z :=
  match s with
  | EmptyString => Some acc
  | String c s' =>
      match digit c with
      | Some d => digits_from (10 * acc + d) s'
      | None => None
      end
  end.

(** A run of one or more decimal digits. *)
Definition parse_digits (s : string) : option Z :=
  match s with
  | EmptyString => None
  | _ => digits_from 0 s
  end.

(** An integer literal: digits with an optional sign. *)
Definition parse_int (s : string) : option Z :=
  match s with
  | String "-"%char s' => Z.opp <$> parse_digits s'
  | String "+"%char s' => parse_digits s'
  | _ => parse_digits s
  end.

Definition in_int64 (n : Z) : bool :=
  (Time.int64_min <=? n) && (n <=? Time.int64_max).

(** What the numeric conversion sees in one cell. *)
Inductive numeric :=
| NNull
| NInt (n : Z)
| NFloat (x : F)
| NBool (b : bool).

(** The numeric reading of a cell, if it has one.  (An integer outside 64
    bits is taken as not convertible.) *)
Definition to_numeric (v : Value) : option numeric :=
  match v with
  | VNaN => Some NNull
  | VInt n => if in_int64 n then Some (NInt n) else None
  | VFloat x => Some (NFloat x)
  | VBool b => Some (NBool b)
  | VStr s =>
      if bool_decide (s ∈ na_values) then Some NNull
      else match parse_int s with
           | Some n => if in_int64 n then Some (NInt n) else None
           | None => NFloat <$> parse_float s
           end
  | VTime _ => None
  end.

Definition is_null (n : numeric) : bool := match n with NNull => true | _ => false end.
Definition is_float (n : numeric) : bool := match n with NFloat _ => true | _ => false end.
Definition is_int (n : numeric) : bool := match n with NInt _ => true | _ => false end.

Definition as_float (n : numeric) : Value :=
  match n with
  | NNull => VNaN
  | NInt n => VFloat (float_of_int n)
  | NFloat x => VFloat x
  | NBool b => VFloat (float_of_int (Z.b2z b))
  end.

Definition as_int (n : numeric) : Value :=
  match n with
  | NInt n => VInt n
  | NBool b => VInt (Z.b2z b)
  | NFloat x => VFloat x
  | NNull => VNaN
  end.

Definition as_bool (n : numeric) : Value :=
  match n with
  | NBool b => VBool b
  | _ => as_int n
  end.

(** A numeric column: floats as soon as a float or a missing value was
    seen, else integers as soon as an integer was seen, else booleans. *)
Definition numeric_series (ns : list numeric) : Series F :=
  if existsb (fun n => is_null n || is_float n) ns then mkSeries float64 (map as_float ns)
  else if existsb is_int ns then mkSeries int64 (map as_int ns)
  else mkSeries bool_ (map as_bool ns).

(** A missing-value text in a column of objects becomes [NaN]. *)
Definition sanitize (v : Value) : Value :=
  match v with
  | VStr s => if bool_decide (s ∈ na_values) then VNaN else v
  | _ => v
  end.

Definition true_values : list string := ["True"; "TRUE"; "true"].
Definition false_values : list string := ["False"; "FALSE"; "false"].

(** The boolean reading of an object, if it has one. *)
Definition to_bool (v : Value) : option Value :=
  match v with
  | VBool b => Some (VBool b)
  | VNaN => Some VNaN
  | VStr s =>
      if bool_decide (s ∈ true_values) then Some (VBool true)
      else if bool_decide (s ∈ false_values) then Some (VBool false)
      else None
  | _ => None
  end.

Definition is_time_or_na (v : Value) : bool :=
  match v with VTime _ | VNaN => true | _ => false end.

Definition is_time (v : Value) : bool :=
  match v with VTime _ => true | _ => false end.

(** A column of objects: booleans when every object reads as one (and none
    is missing), timestamps when every object is one or is missing, and
    the objects as they are otherwise. *)
Definition object_series (vs : list Value) : Series F :=
  match mapM to_bool vs with
  | Some bs => if existsb isna bs then mkSeries object_ bs else mkSeries bool_ bs
  | None =>
      if forallb is_time_or_na vs && existsb is_time vs then mkSeries datetime64 vs
      else mkSeries object_ vs
  end.

(** The column pandas makes of the cells below a header.  (For a sheet
    without data rows the columns are empty and of dtype [object].) *)
Definition infer (cells : list Value) : Series F :=
  match cells with
  | [] => mkSeries object_ []
  | _ =>
      match mapM to_numeric cells with
      | Some ns => numeric_series ns
      | None => object_series (map sanitize cells)
      end
  end.

Definition parse_sheet (sh : Sheet) : DataFrame F :=
  mkFrame (map (fun c : Value * list Value => (c.1, infer c.2)) sh).

Fixpoint find_sheet (name : string) (wb : Workbook) : option Sheet :=
  match wb with
  | [] => None
  | s :: wb' => if decide (s.1 = name) then Some s.2 else find_sheet name wb'
  end.

(** pandas over workbooks, for a given [sum] reducer. *)
Definition pandas (sum : Series F -> result Value) : Pandas F Workbook :=
  {| sheet_names := map fst;
     read_excel := fun wb name =>
       match find_sheet name wb with
       | Some sh => Ok (parse_sheet sh)
       | None => Raise (ValueError ("Worksheet named '" +:+ name +:+ "' not found"))
       end;
     series_sum := sum |}.

End Excel.
End Excel.

(** ** A concrete instance

    Decimal numbers stand in for floats, and dates are read in the form
    [YYYY-MM-DD]; the examples below run the pipeline on workbooks over
    this instance. *)

Module Demo.

(** [mantissa / 10 ^ places] *)
Record decimal := mkDec { mantissa : Z; places : nat }.

#[global] Instance decimal_eq_dec : EqDecision decimal.
Proof. solve_decision. Defined.

Definition scale (p : nat) : Z := 10 ^ Z.of_nat p.

Definition dec_of_int (n : Z) : decimal := mkDec n 0.

Definition dec_eqb (x : decimal) (n : Z) : bool :=
  mantissa x =? n * scale (places x).

Definition dec_to_int (x : decimal) : Z :=
  Z.quot (mantissa x) (scale (places x)).

Definition drop_first (s : string) : string :=
  match s with
  | EmptyString => EmptyString
  | String _ s' => s'
  end.

Definition dec_repr (x : decimal) : string :=
  let m := Z.abs (mantissa x) in
  let sign := if mantissa x <? 0 then "-" else "" in
  let frac :=
    match places x with
    | O => "0"
    | p => drop_first (Py.str_int (scale p + m mod scale p))
    end in
  sign +:+ Py.str_int (m / scale (places x)) +:+ "." +:+ frac.

Definition dec_add (x y : decimal) : decimal :=
  let p := Nat.max (places x) (places y) in
  mkDec (mantissa x * scale (p - places x) + mantissa y * scale (p - places y)) p.

Fixpoint split_at_dot (s : string) : option (string * string) :=
  match s with
  | EmptyString => None
  | String "."%char s' => Some (EmptyString, s')
  | String c s' =>
      match split_at_dot s' with
      | Some (a, b) => Some (String c a, b)
      | None => None
      end
  end.

(** A decimal literal [digits.digits] with an optional minus sign. *)
Definition parse_dec (s : string) : option decimal :=
  let '(neg, body) :=
    match s with
    | String "-"%char s' => (true, s')
    | _ => (false, s)
    end in
  match split_at_dot body with
  | Some (a, b) =>
      match Excel.parse_digits a, Excel.parse_digits b with
      | Some ip, Some fp =>
          let m := ip * scale (String.length b) + fp in
          Some (mkDec (if neg then - m else m) (String.length b))
      | _, _ => None
      end
  | None => None
  end.

(** A date [YYYY-MM-DD], or [NaT]. *)
Definition parse_iso_date (s : string) : option (option Z) :=
  if bool_decide (s = "NaT") then Some None
  else if (String.length s =? 10)%nat
          && bool_decide (substring 4 1 s = "-") && bool_decide (substring 7 1 s = "-")
  then
    match Excel.parse_digits (substring 0 4 s),
          Excel.parse_digits (substring 5 2 s),
          Excel.parse_digits (substring 8 2 s) with
    | Some y, Some m, Some d =>
        if (1 <=? m) && (m <=? 12) && (1 <=? d) && (d <=? 31)
        then Some (Some (Time.days_from_civil y m d * Time.ns_per_day))
        else None
    | _, _, _ => None
    end
  else None.

(** [YYYY-MM-DD HH:MM:SS] *)
Definition time_repr (t : Z) : string :=
  let s := (t mod Time.ns_per_day) / 1000000000 in
  Time.strftime_ymd t +:+ " " +:+ Py.pad2 (s / 3600) +:+ ":"
    +:+ Py.pad2 (s / 60 mod 60) +:+ ":" +:+ Py.pad2 (s mod 60).

#[global] Instance scalars : Scalars decimal :=
  {| float_of_int := dec_of_int;
     float_repr := dec_repr;
     float_eqb := dec_eqb;
     float_to_int := dec_to_int;
     timestamp_repr := time_repr;
     parse_datetime := parse_iso_date;
     parse_float := parse_dec |}.

Definition as_decimal (v : value decimal) : option decimal :=
  match v with
  | VInt n => Some (dec_of_int n)
  | VFloat x => Some x
  | VBool b => Some (dec_of_int (Z.b2z b))
  | _ => None
  end.

(** The ['sum'] of a numeric column: missing values are skipped; an
    integer or boolean column sums to an integer.  A column of another
    dtype is refused. *)
Definition sum (x : Series decimal) : result (value decimal) :=
  let total := foldr dec_add (dec_of_int 0) (omap as_decimal (s_values x)) in
  match s_dtype x with
  | int64 | bool_ => Ok (VInt (dec_to_int total))
  | float64 => Ok (VFloat total)
  | object_ | datetime64 => Raise (TypeError "unsupported operand type(s) for +")
  end.

#[global] Instance pandas : Pandas decimal (@Excel.Workbook decimal) := Excel.pandas sum.

Definition V := value decimal.

Definition day (y m d : Z) : V := VTime (Time.days_from_civil y m d * Time.ns_per_day).

Definition cho_sheet : @Excel.Sheet decimal :=
  [ (VStr "Date", [day 2024 1 1; day 2024 1 2; day 2024 1 2]);
    (VStr "AgentMIS", [VStr "A1"; VStr "A2"; VStr "A2"]);
    (VStr "Status", [VStr "No Show"; VNaN; VStr "OFF"]) ].

Definition cht_sheet : @Excel.Sheet decimal :=
  [ (VStr " date", [day 2024 1 1; VStr "2024-01-03"]);
    (VStr "agentmis", [VStr "A1"; VInt 7]);
    (VStr "ans_vol", [VInt 12; VInt 30]);
    (VStr "aht", [VFloat (mkDec 35 1); VInt 4]);
    (VStr "art", [VInt 1; VNaN]) ].

Definition chd_sheet : @Excel.Sheet decimal :=
  [ (VStr "date", [day 2024 1 2; day 2024 1 2]);
    (VStr "agentmis", [VStr "A2"; VStr "A2"]);
    (VStr "score", [VInt 5; VInt 1]);
    (VStr "sloved", [VStr "Yes"; VStr "No"]) ].

Definition che_sheet : @Excel.Sheet decimal :=
  [ (VStr "date", [day 2024 1 1]);
    (VStr "agentmis", [VStr "A1"]);
    (VStr "final", [VStr "Pass"]);
    (VStr "rc1", [VStr "pass"]);
    (VStr "rc2", [VStr "FAIL"]);
    (VStr "rc", [VStr "pass"]);
    (VStr "bc", [VStr "pass"]);
    (VStr "cc", [VNaN]) ].

(** A workbook with the four sheets.  [CHO] has a row without status and
    a day off for agent A2; [CHD] holds the two survey rows of agent A2 on
    2024-01-02; agent 7 appears in [CHT] only. *)
Definition workbook : @Excel.Workbook decimal :=
  [ ("CHO", cho_sheet); ("CHT", cht_sheet); ("CHD", chd_sheet); ("CHE", che_sheet) ].

(** The table the pipeline is to return for [workbook]. *)
Definition expected : Table decimal :=
  mkTable
    [ "absent"; "scheduled"; "ans_vol"; "aht_min"; "art_min";
      "surveyed_count"; "solved_count"; "not_solved_count"; "csat_count"; "dsat_count";
      "evaluated_count"; "pass_eval_count"; "fail_eval_count";
      "rc1_fail"; "rc2_fail"; "rc_fail"; "bc_fail"; "cc_fail" ]
    [ ((day 2024 1 1, VStr "A1"),
       [ VInt 1; VInt 1;
         VInt 12; VFloat (mkDec 35 1); VFloat (mkDec 1 0);
         VInt 0; VInt 0; VInt 0; VInt 0; VInt 0;
         VInt 1; VInt 1; VInt 0; VInt 0; VInt 1; VInt 0; VInt 0; VInt 0 ]);
      ((day 2024 1 2, VStr "A2"),
       [ VInt 0; VInt 1;
         VInt 0; VInt 0; VInt 0;
         VInt 2; VInt 1; VInt 1; VInt 1; VInt 1;
         VInt 0; VInt 0; VInt 0; VInt 0; VInt 0; VInt 0; VInt 0; VInt 0 ]);
      ((day 2024 1 3, VStr "7"),
       [ VInt 0; VInt 0;
         VInt 30; VFloat (mkDec 4 0); VFloat (mkDec 0 0);
         VInt 0; VInt 0; VInt 0; VInt 0; VInt 0;
         VInt 0; VInt 0; VInt 0; VInt 0; VInt 0; VInt 0; VInt 0; VInt 0 ]) ].

(** [Pipeline(wb)] over this instance. *)
Definition pipeline (wb : @Excel.Workbook decimal)
  : @Pipeline decimal (@Excel.Workbook decimal) :=
  init wb.

(** The table [build_db] returns on a workbook (an empty table when it
    raises), and the pipeline object it leaves. *)
Definition table_of (wb : @Excel.Workbook decimal) : Table decimal :=
  match fst (build_db (pipeline wb)) with
  | Ok t => t
  | Raise _ => mkTable [] []
  end.

Definition state_of (wb : @Excel.Workbook decimal)
  : @Pipeline decimal (@Excel.Workbook decimal) :=
  snd (build_db (pipeline wb)).

(** A workbook with two of the four sheets. *)
Definition two_sheets : @Excel.Workbook decimal :=
  [ ("CHO", cho_sheet); ("CHE", che_sheet) ].

(** The four sheets with their headers and no data row. *)
Definition headers_only : @Excel.Workbook decimal :=
  [ ("CHO", [ (VStr "date", []); (VStr "agentmis", []); (VStr "status", []) ]);
    ("CHT", [ (VStr "date", []); (VStr "agentmis", []); (VStr "ans_vol", []);
              (VStr "aht", []); (VStr "art", []) ]);
    ("CHD", [ (VStr "date", []); (VStr "agentmis", []); (VStr "score", []);
              (VStr "sloved", []) ]);
    ("CHE", [ (VStr "date", []); (VStr "agentmis", []); (VStr "final", []);
              (VStr "rc1", []); (VStr "rc2", []); (VStr "rc", []);
              (VStr "bc", []); (VStr "cc", []) ]) ].

(** [workbook] with a date that is no date in the second row of [CHT]. *)
Definition bad_cht_sheet : @Excel.Sheet decimal :=
  [ (VStr "Date", [day 2024 1 1; VStr "next week"]);
    (VStr "agentmis", [VStr "A1"; VStr "A1"]);
    (VStr "ans_vol", [VInt 12; VInt 30]);
    (VStr "aht", [VInt 3; VInt 4]);
    (VStr "art", [VInt 1; VInt 1]) ].

Definition bad_date : @Excel.Workbook decimal :=
  [ ("CHO", cho_sheet); ("CHT", bad_cht_sheet); ("CHD", chd_sheet); ("CHE", che_sheet) ].

(** One sheet of a workbook whose agent identifiers are text cells made
    of digits, with leading zeros. *)
Definition numeric_ids (metrics : Excel.Sheet) : @Excel.Sheet decimal :=
  (VStr "date", [day 2024 1 1; day 2024 1 1])
  :: (VStr "agentmis", [VStr "00123"; VStr "007"])
  :: metrics.

Definition leading_zeros : @Excel.Workbook decimal :=
  [ ("CHO", numeric_ids [ (VStr "status", [VStr "Present"; VStr "Off"]) ]);
    ("CHT", numeric_ids [ (VStr "ans_vol", [VInt 12; VInt 30]);
                          (VStr "aht", [VInt 3; VInt 4]);
                          (VStr "art", [VInt 1; VInt 1]) ]);
    ("CHD", numeric_ids [ (VStr "score", [VInt 5; VInt 1]);
                          (VStr "sloved", [VStr "Yes"; VStr "No"]) ]);
    ("CHE", numeric_ids [ (VStr "final", [VStr "Pass"; VStr "Fail"]);
                          (VStr "rc1", [VStr "pass"; VStr "fail"]);
                          (VStr "rc2", [VStr "pass"; VStr "pass"]);
                          (VStr "rc", [VStr "pass"; VStr "pass"]);
                          (VStr "bc", [VStr "pass"; VStr "pass"]);
                          (VStr "cc", [VStr "pass"; VStr "pass"]) ]) ].



End Demo.

(** ** Further notions *)

Section Counts.
Context {F : Type} `{Scalars F}.

#[local] Abbreviation Value := (value F).

(** The lower-case text of a cell of the series [s]. *)
Definition text_in (s : Series F) (v : Value) : string :=
  Py.lower (str_value (s_dtype s) v).

(** The number of cells of [s] whose lower-case text is [target]. *)
Definition count_text (target : string) (s : Series F) : nat :=
  length (filter (fun v => text_in s v = target) (s_values s)).

(** The number of cells of [s] that are not missing. *)
Definition count_notna (s : Series F) : nat :=
  length (filter (fun v => notna v = true) (s_values s)).

(** The number of rows of [s]. *)
Definition size (s : Series F) : nat := length (s_values s).

(** A frame all of whose columns have the length of the frame. *)
Definition rectangular (df : DataFrame F) : Prop :=
  ∀ c, c ∈ df_columns df -> length (s_values c.2) = len df.

(** A table whose key columns are as [build_base] makes them: each date a
    timestamp or missing, each agentmis a text. *)
Definition keyed (b : Table F) : Prop :=
  ∀ r, r ∈ rows b ->
    (r.1.1 = VNaN ∨ ∃ t, r.1.1 = VTime t) ∧ ∃ x, r.1.2 = VStr x.

(** The columns of each sheet that [build_db] reads: the two key columns
    and the sources of the named aggregations. *)
Definition used_columns (name : string) : list string :=
  if bool_decide (name = "CHO") then ["date"; "agentmis"; "status"]
  else if bool_decide (name = "CHT") then ["date"; "agentmis"; "ans_vol"; "aht"; "art"]
  else if bool_decide (name = "CHD") then ["date"; "agentmis"; "score"; "sloved"]
  else if bool_decide (name = "CHE")
       then ["date"; "agentmis"; "final"; "rc1"; "rc2"; "rc"; "bc"; "cc"]
  else [].

(** The relation between a loaded column and the column [standardize]
    leaves in its place. *)
Definition standardized (c c' : Value * Series F) : Prop :=
  normalize_label c.1 = Ok c'.1 ∧
  length (s_values c'.2) = length (s_values c.2) ∧
  (c'.1 = VStr "date" -> to_datetime c.2 = Ok c'.2) ∧
  (c'.1 = VStr "agentmis" -> c'.2 = astype_str c.2) ∧
  (c'.1 ≠ VStr "date" -> c'.1 ≠ VStr "agentmis" -> c'.2 = c.2).

End Counts.

(** ** The page around the pipeline

    The page calls [Pipeline(uploaded_file).build_db()] inside a [try]
    with two [except] clauses, [except ValueError] and then
    [except Exception]; each shows an error line and a hint. *)

Inductive alert :=
| ValidationError (ve : exn)
| ProcessingError (e : exn).

(** The clause that catches the exception [e]. *)
Definition except_clause (e : exn) : alert :=
  match e with
  | ValueError _ => ValidationError e
  | _ => ProcessingError e
  end.

Section Page.
Context {F File : Type} `{Scalars F} `{Pandas F File}.

(** The alert the page shows when [build_db] raises on the uploaded file;
    [None] when it returns. *)
Definition page_alert (f : File) : option alert :=
  match build_db (init f) with
  | (Raise e, _) => Some (except_clause e)
  | (Ok _, _) => None
  end.

End Page.


(** ** What a method reads *)

Section Reads.
Context {F File : Type} `{Scalars F} `{Pandas F File}.

(** Two pipeline objects over the same file; with the same loaded sheets
    as well; and with the same base table as well.  The statistics are
    left out: no method reads them. *)
Definition same_file (p1 p2 : @Pipeline F File) : Prop := file p1 = file p2.

Definition same_sheets (p1 p2 : @Pipeline F File) : Prop :=
  file p1 = file p2 ∧
  cho p1 = cho p2 ∧ cht p1 = cht p2 ∧ chd p1 = chd p2 ∧ che p1 = che p2.

Definition same_tables (p1 p2 : @Pipeline F File) : Prop :=
  same_sheets p1 p2 ∧ base p1 = base p2.

(** The method [m] reads no more than [R] fixes: on two objects related
    by [R] it has the same outcome, the same value or the same exception,
    and when it returns it leaves two objects related by [R']. *)
Definition reads {A} (R R' : @Pipeline F File -> @Pipeline F File -> Prop)
    (m : @M F File A) : Prop :=
  ∀ p1 p2, R p1 p2 ->
    match m p1, m p2 with
    | (Ok a1, q1), (Ok a2, q2) => a1 = a2 ∧ R' q1 q2
    | (Raise e1, _), (Raise e2, _) => e1 = e2
    | _, _ => False
    end.

End Reads.


(** ** Further workbooks and objects *)

Module Cases.

(** An Attendance sheet with a row that has no date. *)
Definition undated_cho_sheet : @Excel.Sheet Demo.decimal :=
  [ (VStr "Date", [Demo.day 2024 1 1; VNaN; Demo.day 2024 1 2]);
    (VStr "AgentMIS", [VStr "A1"; VStr "A9"; VStr "A2"]);
    (VStr "Status", [VStr "No Show"; VStr "No Show"; VStr "Present"]) ].

Definition undated : @Excel.Workbook Demo.decimal :=
  [ ("CHO", undated_cho_sheet); ("CHT", Demo.cht_sheet);
    ("CHD", Demo.chd_sheet); ("CHE", Demo.che_sheet) ].

(** [Demo.workbook] with a Call-handling sheet that has no agentmis
    column. *)
Definition no_agent_cht_sheet : @Excel.Sheet Demo.decimal :=
  [ (VStr "date", [Demo.day 2024 1 1; Demo.day 2024 1 3]);
    (VStr "ans_vol", [VInt 12; VInt 30]);
    (VStr "aht", [VInt 3; VInt 4]);
    (VStr "art", [VInt 1; VInt 1]) ].

Definition no_agent : @Excel.Workbook Demo.decimal :=
  [ ("CHO", Demo.cho_sheet); ("CHT", no_agent_cht_sheet);
    ("CHD", Demo.chd_sheet); ("CHE", Demo.che_sheet) ].

(** The Attendance sheet of [Demo.workbook] as the reader hands it over,
    and as [standardize] leaves it. *)
Definition cho_loaded : DataFrame Demo.decimal := Excel.parse_sheet Demo.cho_sheet.

Definition cho_standard : DataFrame Demo.decimal :=
  match standardize cho_loaded with
  | Ok d => d
  | Raise _ => cho_loaded
  end.

(** The sheet [name] of a workbook as the pipeline loads it (an empty
    frame when it does not load), and the keys of its rows. *)
Definition standard (wb : @Excel.Workbook Demo.decimal) (name : string)
  : DataFrame Demo.decimal :=
  match read_excel wb name ≫= standardize with
  | Ok d => d
  | Raise _ => mkFrame []
  end.

Definition keys (wb : @Excel.Workbook Demo.decimal) (name : string)
  : list (key Demo.decimal) :=
  match keys_of (standard wb name) with
  | Ok ks => ks
  | Raise _ => []
  end.

(** The pipeline object over [Demo.workbook] after [load_sheets] and
    [build_base], before the first aggregator. *)
Definition based : @Pipeline Demo.decimal (@Excel.Workbook Demo.decimal) :=
  snd ((load_sheets ;; build_base) (Demo.pipeline Demo.workbook)).

Definition based_table : Table Demo.decimal :=
  match base based with
  | Some b => b
  | None => mkTable [] []
  end.

Definition after_cho : @Pipeline Demo.decimal (@Excel.Workbook Demo.decimal) :=
  snd (aggregate_cho based).

End Cases.

(** * Properties *)

(** ** Checks of the string and date helpers *)

Example lower_Yes : Py.lower "No Show" = "no show".
Proof. reflexivity. Qed.

Example strip_date : Py.strip (Py.lower "  Date ") = "date".
Proof. reflexivity. Qed.

Example str_int_neg : Py.str_int (-42) = "-42".
Proof. reflexivity. Qed.

Example strftime_2024 :
  Time.strftime_ymd (Time.days_from_civil 2024 2 29 * Time.ns_per_day + 5) = "2024-02-29".
Proof. vm_compute. reflexivity. Qed.

Example strftime_1969 :
  Time.strftime_ymd (-1) = "1969-12-31".
Proof. vm_compute. reflexivity. Qed.

(** ** Lemmas on the list operations *)

Section Lists.
Context {A : Type} `{EqDecision A}.

Lemma drop_duplicates_from_elem (seen l : list A) (x : A) :
  x ∈ drop_duplicates_from seen l ↔ x ∈ l ∧ x ∉ seen.
Proof.
  revert seen. induction l as [|y l IH]; intros seen; simpl.
  - split; [intros Hx; inversion Hx | intros [Hx _]; inversion Hx].
  - destruct (decide (y ∈ seen)) as [Hy|Hy].
    + rewrite IH. split.
      * intros [? ?]. split; [by right | done].
      * intros [Hx Hn]. split; [|done].
        apply elem_of_cons in Hx as [->|?]; [by destruct Hn | done].
    + rewrite elem_of_cons, IH. split.
      * intros [->|[? Hn]]; [split; [by left | done]|].
        split; [by right|]. intros ?. apply Hn. by right.
      * intros [Hx Hn]. apply elem_of_cons in Hx as [->|?]; [by left|].
        destruct (decide (x = y)) as [->|Hne]; [by left|].
        right. split; [done|]. intros Hin. apply elem_of_cons in Hin as [?|?]; done.
Qed.

Lemma drop_duplicates_from_NoDup (seen l : list A) :
  NoDup (drop_duplicates_from seen l).
Proof.
  revert seen. induction l as [|y l IH]; intros seen; simpl.
  - constructor.
  - destruct (decide (y ∈ seen)); [apply IH|].
    constructor; [|apply IH].
    rewrite drop_duplicates_from_elem. intros [_ Hn]. apply Hn. by left.
Qed.

Lemma drop_duplicates_elem (l : list A) (x : A) :
  x ∈ drop_duplicates l ↔ x ∈ l.
Proof.
  unfold drop_duplicates. rewrite drop_duplicates_from_elem.
  split; [by intros [? _] | intros ?; split; [done|]]. intros Hx. inversion Hx.
Qed.

Lemma drop_duplicates_NoDup (l : list A) : NoDup (drop_duplicates l).
Proof. apply drop_duplicates_from_NoDup. Qed.

(** Two duplicate-free lists with the same elements have the same length. *)
Lemma NoDup_same_length (l1 l2 : list A) :
  NoDup l1 -> NoDup l2 -> (∀ x, x ∈ l1 ↔ x ∈ l2) -> length l1 = length l2.
Proof.
  intros H1 H2 Heq. apply Permutation_length. by apply NoDup_Permutation.
Qed.

End Lists.

Section ForEach.
Context {A B : Type}.

Lemma for_each_Ok (f : A -> result B) (l : list A) (ys : list B) :
  for_each f l = Ok ys -> Forall2 (fun x y => f x = Ok y) l ys.
Proof.
  revert ys. induction l as [|x l IH]; intros ys; simpl.
  - intros [= <-]. constructor.
  - destruct (f x) as [y|e] eqn:Hx; [|done].
    destruct (for_each f l) as [ys'|e] eqn:Hl; [|done].
    intros [= <-]. constructor; [done | by apply IH].
Qed.

Lemma for_each_length (f : A -> result B) (l : list A) (ys : list B) :
  for_each f l = Ok ys -> length ys = length l.
Proof. intros Hf. symmetry. eapply Forall2_length, for_each_Ok, Hf. Qed.


Lemma for_each_total (f : A -> result B) (l : list A) :
  (∀ x, x ∈ l -> ∃ y, f x = Ok y) -> ∃ ys, for_each f l = Ok ys.
Proof.
  induction l as [|x l IH]; intros Hf; simpl; [by eexists|].
  destruct (Hf x) as [y ->]; [by left|].
  destruct IH as [ys ->]; [|by eexists].
  intros z Hz. apply Hf. by right.
Qed.

End ForEach.

(** ** Lemmas on results *)

Lemma bind_Ok {A B} (m : result A) (f : A -> result B) (b : B) :
  m ≫= f = Ok b -> ∃ a, m = Ok a ∧ f a = Ok b.
Proof. destruct m as [a|e]; simpl; [by eexists | done]. Qed.

(** Membership in a list that is written out. *)
Ltac in_list := apply list_elem_of_In; simpl; tauto.

Ltac inv_bind H :=
  let a := fresh "a" in
  let H1 := fresh H in
  apply bind_Ok in H as (a & H1 & H).

(** ** Lemmas on tables *)

Section Tables.
Context {F : Type} `{Scalars F}.

#[local] Abbreviation Value := (value F).
#[local] Abbreviation Row := (key F * list (value F))%type.

Lemma filter_key_unique (rs : list Row) (k : key F) :
  NoDup (map fst rs) ->
  (length (filter (fun r : Row => bool_decide (r.1 = k) = true) rs) ≤ 1)%nat.
Proof.
  induction rs as [|r rs IH]; simpl; [lia|].
  intros Hnd. apply NoDup_cons in Hnd as [Hr Hnd].
  rewrite filter_cons. destruct (decide _) as [Hk|Hk]; [|by apply IH].
  apply bool_decide_eq_true in Hk.
  assert (Hnil : filter (fun r : Row => bool_decide (r.1 = k) = true) rs = []).
  { destruct (filter _ rs) as [|r' l] eqn:Hf; [done|]. exfalso.
    assert (Hin : r' ∈ filter (fun r : Row => bool_decide (r.1 = k) = true) rs)
      by (rewrite Hf; by left).
    apply list_elem_of_filter in Hin as [Hk' Hin].
    apply bool_decide_eq_true in Hk'. apply Hr.
    rewrite Hk, <- Hk'. apply list_elem_of_fmap. by exists r'. }
  rewrite Hnil. simpl. lia.
Qed.

(** With duplicate-free keys on the right, a left merge keeps the rows of
    the left table one for one. *)
Lemma merge_left_rows (left right : Table F) :
  NoDup (map fst (rows right)) ->
  rows (merge_left left right)
  = map (fun l : Row => (l.1, l.2 ++ metrics_at right l.1)) (rows left).
Proof.
  intros Hnd. unfold merge_left. simpl.
  induction (rows left) as [|l ls IH]; simpl; [done|].
  rewrite IH. unfold metrics_at.
  pose proof (filter_key_unique (rows right) l.1 Hnd) as Hlen.
  destruct (filter _ (rows right)) as [|r [|r' rest]]; simpl in *; [done|done|lia].
Qed.

Lemma merge_left_cols (left right : Table F) :
  metric_cols (merge_left left right) = metric_cols left ++ metric_cols right.
Proof. done. Qed.

(** The shape of a successful aggregation: one row per group key, and in
    each row the reducers applied to the group of that key. *)
Lemma groupby_agg_Ok (df : DataFrame F) (spec : list named_agg) (agg : Table F) :
  groupby_agg df spec = Ok agg ->
  ∃ ks cols,
    keys_of df = Ok ks ∧
    Forall2 (fun (a : named_agg) c => getitem df a.1.2 = Ok c.1 ∧ c.2 = a.2) spec cols ∧
    metric_cols agg = map (fun a : named_agg => a.1.1) spec ∧
    Forall2 (fun k (r : Row) =>
               r.1 = k ∧
               for_each (fun c : Series F * (Series F -> result Value) =>
                           c.2 (group ks k c.1)) cols = Ok r.2)
            (group_keys ks) (rows agg).
Proof.
  unfold groupby_agg. intros Hg.
  inv_bind Hg. rename a into ks. inv_bind Hg. rename a into cols.
  inv_bind Hg. rename a into rs. injection Hg as <-.
  exists ks, cols. split; [done|]. split; [|split; [done|]].
  - apply for_each_Ok in Hg1. eapply Forall2_impl; [exact Hg1|].
    intros a c Hc. simpl in Hc. inv_bind Hc. injection Hc as <-. done.
  - apply for_each_Ok in Hg2. eapply Forall2_impl; [exact Hg2|].
    intros k r Hr. simpl in Hr. inv_bind Hr. injection Hr as <-. done.
Qed.

Lemma groupby_agg_keys (df : DataFrame F) (spec : list named_agg) (agg : Table F) (ks : list (key F)) :
  groupby_agg df spec = Ok agg -> keys_of df = Ok ks ->
  map fst (rows agg) = group_keys ks.
Proof.
  intros Hg Hk. apply groupby_agg_Ok in Hg as (ks' & cols & Hk' & _ & _ & Hrows).
  rewrite Hk in Hk'. injection Hk' as <-.
  induction Hrows as [|k r l1 l2 [Hr _] _ IH]; simpl; [done|]. by rewrite Hr, IH.
Qed.

Lemma group_keys_NoDup (ks : list (key F)) : NoDup (group_keys ks).
Proof. apply drop_duplicates_NoDup. Qed.

Lemma group_keys_elem (ks : list (key F)) (k : key F) :
  k ∈ group_keys ks ↔ k ∈ ks ∧ notna k.1 = true ∧ notna k.2 = true.
Proof.
  unfold group_keys. rewrite drop_duplicates_elem, list_elem_of_filter.
  rewrite andb_true_iff. tauto.
Qed.

Lemma groupby_agg_NoDup (df : DataFrame F) (spec : list named_agg) (agg : Table F) :
  groupby_agg df spec = Ok agg -> NoDup (map fst (rows agg)).
Proof.
  intros Hg. destruct (groupby_agg_Ok _ _ _ Hg) as (ks & _ & Hk & _).
  rewrite (groupby_agg_keys _ _ _ _ Hg Hk). apply group_keys_NoDup.
Qed.

End Tables.

(** ** The steps of a successful run *)

Section Run.
Context {F File : Type} `{Scalars F} `{Pandas F File}.

#[local] Abbreviation Value := (value F).
#[local] Abbreviation Row := (key F * list (value F))%type.

Lemma load_sheets_Ok (p p' : Pipeline) (u : unit) :
  load_sheets p = (Ok u, p') ->
  missing_sheets (sheet_names (file p)) = [] ∧
  ∃ d1 d2 d3 d4,
    read_excel (file p) "CHO" ≫= standardize = Ok d1 ∧
    read_excel (file p) "CHT" ≫= standardize = Ok d2 ∧
    read_excel (file p) "CHD" ≫= standardize = Ok d3 ∧
    read_excel (file p) "CHE" ≫= standardize = Ok d4 ∧
    p' = mkPipeline (file p) (Some d1) (Some d2) (Some d3) (Some d4) (base p)
           (loaded_stats d1 d2 d3 d4 (stats p)).
Proof.
  unfold load_sheets, mbind, M_bind, validate_sheets, load, set_cho, set_cht,
    set_chd, set_che, get_frame, set_stat.
  simpl.
  destruct (missing_sheets _) eqn:Hm; [|done].
  destruct (read_excel (file p) "CHO" ≫= standardize) as [d1|] eqn:H1; [|done].
  destruct (read_excel (file p) "CHT" ≫= standardize) as [d2|] eqn:H2; [|done].
  destruct (read_excel (file p) "CHD" ≫= standardize) as [d3|] eqn:H3; [|done].
  destruct (read_excel (file p) "CHE" ≫= standardize) as [d4|] eqn:H4; [|done].
  simpl. intros [= <-]. split; [done|]. by exists d1, d2, d3, d4.
Qed.

Lemma build_base_Ok (f : File) d1 d2 d3 d4 b0 st (p' : Pipeline) (u : unit) :
  build_base (mkPipeline f (Some d1) (Some d2) (Some d3) (Some d4) b0 st) = (Ok u, p') ->
  ∃ k1 k2 k3 k4 start stop,
    keys_of d1 = Ok k1 ∧ keys_of d2 = Ok k2 ∧ keys_of d3 = Ok k3 ∧ keys_of d4 = Ok k4 ∧
    let b := base_table (k1 ++ k2 ++ k3 ++ k4) in
    strftime (series_min (table_dates b)) = Ok start ∧
    strftime (series_max (table_dates b)) = Ok stop ∧
    p' = mkPipeline f (Some d1) (Some d2) (Some d3) (Some d4) (Some b)
           (base_stats b start stop st).
Proof.
  unfold build_base, mbind, M_bind, get_frame, lift, set_base, set_stat. simpl.
  destruct (keys_of d1) as [k1|] eqn:H1; [|done].
  destruct (keys_of d2) as [k2|] eqn:H2; [|done].
  destruct (keys_of d3) as [k3|] eqn:H3; [|done].
  destruct (keys_of d4) as [k4|] eqn:H4; [|done].
  simpl.
  destruct (strftime (series_min _)) as [start|] eqn:Hs; [|done].
  destruct (strftime (series_max _)) as [stop|] eqn:He; [|done].
  simpl. intros [= <-]. by exists k1, k2, k3, k4, start, stop.
Qed.

Ltac aggregate_Ok d spec :=
  unfold aggregate_cho, aggregate_cht, aggregate_chd, aggregate_che,
    merge_into_base, mbind, M_bind, get_frame, lift, set_base; simpl;
  let agg := fresh "agg" in
  destruct (groupby_agg d spec) as [agg|] eqn:?; [|done];
  simpl; intros [= <-]; by exists agg.

Lemma aggregate_cho_Ok (f : File) d1 d2 d3 d4 b st (p' : Pipeline) (u : unit) :
  aggregate_cho (mkPipeline f (Some d1) (Some d2) (Some d3) (Some d4) (Some b) st) = (Ok u, p') ->
  ∃ agg, groupby_agg d1 cho_spec = Ok agg ∧
    p' = mkPipeline f (Some d1) (Some d2) (Some d3) (Some d4) (Some (merge_left b agg)) st.
Proof. aggregate_Ok d1 cho_spec. Qed.

Lemma aggregate_cht_Ok (f : File) d1 d2 d3 d4 b st (p' : Pipeline) (u : unit) :
  aggregate_cht (mkPipeline f (Some d1) (Some d2) (Some d3) (Some d4) (Some b) st) = (Ok u, p') ->
  ∃ agg, groupby_agg d2 cht_spec = Ok agg ∧
    p' = mkPipeline f (Some d1) (Some d2) (Some d3) (Some d4) (Some (merge_left b agg)) st.
Proof. aggregate_Ok d2 cht_spec. Qed.

Lemma aggregate_chd_Ok (f : File) d1 d2 d3 d4 b st (p' : Pipeline) (u : unit) :
  aggregate_chd (mkPipeline f (Some d1) (Some d2) (Some d3) (Some d4) (Some b) st) = (Ok u, p') ->
  ∃ agg, groupby_agg d3 chd_spec = Ok agg ∧
    p' = mkPipeline f (Some d1) (Some d2) (Some d3) (Some d4) (Some (merge_left b agg)) st.
Proof. aggregate_Ok d3 chd_spec. Qed.

Lemma aggregate_che_Ok (f : File) d1 d2 d3 d4 b st (p' : Pipeline) (u : unit) :
  aggregate_che (mkPipeline f (Some d1) (Some d2) (Some d3) (Some d4) (Some b) st) = (Ok u, p') ->
  ∃ agg, groupby_agg d4 che_spec = Ok agg ∧
    p' = mkPipeline f (Some d1) (Some d2) (Some d3) (Some d4) (Some (merge_left b agg)) st.
Proof. aggregate_Ok d4 che_spec. Qed.

Lemma M_bind_Ok {A B} (m : @M F File A) (k : A -> @M F File B) (p p' : Pipeline) (b : B) :
  (m ≫= k) p = (Ok b, p') -> ∃ a p1, m p = (Ok a, p1) ∧ k a p1 = (Ok b, p').
Proof.
  unfold mbind, M_bind. destruct (m p) as [[a|e] p1]; [|done]. intros Hk. by exists a, p1.
Qed.

Lemma M_bind_Raise {A B} (m : @M F File A) (k : A -> @M F File B) (p p' : Pipeline) (e : exn) :
  m p = (Raise e, p') -> (m ≫= k) p = (Raise e, p').
Proof. unfold mbind, M_bind. by intros ->. Qed.

(** What a successful [build_db] went through. *)
Lemma build_db_Ok (p p' : Pipeline) (t : Table F) :
  build_db p = (Ok t, p') ->
  ∃ d1 d2 d3 d4 k1 k2 k3 k4 a1 a2 a3 a4 start stop,
    missing_sheets (sheet_names (file p)) = [] ∧
    read_excel (file p) "CHO" ≫= standardize = Ok d1 ∧
    read_excel (file p) "CHT" ≫= standardize = Ok d2 ∧
    read_excel (file p) "CHD" ≫= standardize = Ok d3 ∧
    read_excel (file p) "CHE" ≫= standardize = Ok d4 ∧
    keys_of d1 = Ok k1 ∧ keys_of d2 = Ok k2 ∧ keys_of d3 = Ok k3 ∧ keys_of d4 = Ok k4 ∧
    groupby_agg d1 cho_spec = Ok a1 ∧
    groupby_agg d2 cht_spec = Ok a2 ∧
    groupby_agg d3 chd_spec = Ok a3 ∧
    groupby_agg d4 che_spec = Ok a4 ∧
    strftime (series_min (table_dates (base_table (k1 ++ k2 ++ k3 ++ k4)))) = Ok start ∧
    strftime (series_max (table_dates (base_table (k1 ++ k2 ++ k3 ++ k4)))) = Ok stop ∧
    t = fillna_cols (merged (k1 ++ k2 ++ k3 ++ k4) a1 a2 a3 a4)
          (filter (fun c => c ∉ ["date"; "agentmis"])
                  (columns (merged (k1 ++ k2 ++ k3 ++ k4) a1 a2 a3 a4))) ∧
    p' = mkPipeline (file p) (Some d1) (Some d2) (Some d3) (Some d4) (Some t)
           (base_stats (base_table (k1 ++ k2 ++ k3 ++ k4)) start stop
              (loaded_stats d1 d2 d3 d4 (stats p))).
Proof.
  unfold build_db. intros Hb.
  apply M_bind_Ok in Hb as (u1 & p1 & H1 & Hb).
  apply load_sheets_Ok in H1 as (Hm & d1 & d2 & d3 & d4 & E1 & E2 & E3 & E4 & ->).
  apply M_bind_Ok in Hb as (u2 & p2 & H2 & Hb).
  apply build_base_Ok in H2 as (k1 & k2 & k3 & k4 & start & stop & K1 & K2 & K3 & K4 & Hs & He & ->).
  apply M_bind_Ok in Hb as (u3 & p3 & H3 & Hb).
  apply aggregate_cho_Ok in H3 as (a1 & A1 & ->).
  apply M_bind_Ok in Hb as (u4 & p4 & H4 & Hb).
  apply aggregate_cht_Ok in H4 as (a2 & A2 & ->).
  apply M_bind_Ok in Hb as (u5 & p5 & H5 & Hb).
  apply aggregate_chd_Ok in H5 as (a3 & A3 & ->).
  apply M_bind_Ok in Hb as (u6 & p6 & H6 & Hb).
  apply aggregate_che_Ok in H6 as (a4 & A4 & ->).
  unfold mbind, M_bind, mret, M_ret, get_frame, set_base in Hb. simpl in Hb.
  injection Hb as <- <-.
  exists d1, d2, d3, d4, k1, k2, k3, k4, a1, a2, a3, a4, start, stop.
  repeat (split; [done|]). done.
Qed.

End Run.

(** ** The final table *)

Section Final.
Context {F File : Type} `{Scalars F} `{Pandas F File}.

#[local] Abbreviation Value := (value F).
#[local] Abbreviation Row := (key F * list (value F))%type.

Lemma merged_rows (ks : list (key F)) (a1 a2 a3 a4 : Table F) :
  NoDup (map fst (rows a1)) -> NoDup (map fst (rows a2)) ->
  NoDup (map fst (rows a3)) -> NoDup (map fst (rows a4)) ->
  rows (merged ks a1 a2 a3 a4)
  = map (fun k => (k, final_metrics a1 a2 a3 a4 k)) (drop_duplicates ks).
Proof.
  intros N1 N2 N3 N4. unfold merged.
  rewrite !merge_left_rows by done. unfold base_table. simpl.
  rewrite !map_map. apply map_ext. intros k. simpl.
  unfold final_metrics. by rewrite <- !app_assoc.
Qed.

Lemma merged_cols (ks : list (key F)) (a1 a2 a3 a4 : Table F) :
  metric_cols (merged ks a1 a2 a3 a4)
  = metric_cols a1 ++ metric_cols a2 ++ metric_cols a3 ++ metric_cols a4.
Proof. unfold merged. rewrite !merge_left_cols. simpl. by rewrite <- !app_assoc. Qed.

Lemma filter_key_found (rs : list Row) (r : Row) :
  NoDup (map fst rs) -> r ∈ rs ->
  filter (fun r' : Row => bool_decide (r'.1 = r.1) = true) rs = [r].
Proof.
  intros Hnd Hr. pose proof (filter_key_unique rs r.1 Hnd) as Hlen.
  assert (Hin : r ∈ filter (fun r' : Row => bool_decide (r'.1 = r.1) = true) rs).
  { apply list_elem_of_filter. split; [by apply bool_decide_eq_true|done]. }
  destruct (filter _ rs) as [|r1 [|r2 l]]; simpl in Hlen; [inversion Hin| |lia].
  apply list_elem_of_singleton in Hin. by subst.
Qed.

(** In a group, the aggregate holds the reducers applied to the group. *)
Lemma metrics_at_group (df : DataFrame F) (spec : list named_agg) (agg : Table F)
    (ks : list (key F)) (k : key F) :
  groupby_agg df spec = Ok agg -> keys_of df = Ok ks -> k ∈ group_keys ks ->
  ∃ cols,
    Forall2 (fun (a : named_agg) c => getitem df a.1.2 = Ok c.1 ∧ c.2 = a.2) spec cols ∧
    for_each (fun c : Series F * (Series F -> result Value) => c.2 (group ks k c.1)) cols
    = Ok (metrics_at agg k).
Proof.
  intros Hg Hk Hin. pose proof (groupby_agg_NoDup _ _ _ Hg) as Hnd.
  apply groupby_agg_Ok in Hg as (ks' & cols & Hk' & Hcols & _ & Hrows).
  rewrite Hk in Hk'. injection Hk' as <-.
  exists cols. split; [done|].
  apply list_elem_of_lookup in Hin as [i Hi].
  destruct (Forall2_lookup_l _ _ _ _ _ Hrows Hi) as (r & Hr & Hrk & Hfor).
  subst k. unfold metrics_at.
  rewrite (filter_key_found _ r Hnd); [done|].
  apply list_elem_of_lookup. by exists i.
Qed.

(** Outside every group, the aggregate has no row for the key. *)
Lemma metrics_at_absent (df : DataFrame F) (spec : list named_agg) (agg : Table F)
    (ks : list (key F)) (k : key F) :
  groupby_agg df spec = Ok agg -> keys_of df = Ok ks -> k ∉ group_keys ks ->
  metrics_at agg k = replicate (length spec) VNaN.
Proof.
  intros Hg Hk Hin. pose proof (groupby_agg_keys _ _ _ _ Hg Hk) as Hkeys.
  apply groupby_agg_Ok in Hg as (_ & _ & _ & _ & Hcols & _).
  unfold metrics_at.
  destruct (filter _ (rows agg)) as [|r l] eqn:Hf.
  - by rewrite Hcols, length_map.
  - exfalso. apply Hin. rewrite <- Hkeys.
    assert (Hr : r ∈ filter (fun r : Row => bool_decide (r.1 = k) = true) (rows agg))
      by (rewrite Hf; by left).
    apply list_elem_of_filter in Hr as [Hrk Hr]. apply bool_decide_eq_true in Hrk.
    rewrite <- Hrk. apply list_elem_of_fmap. by exists r.
Qed.

Lemma metrics_at_length (df : DataFrame F) (spec : list named_agg) (agg : Table F) (k : key F) :
  groupby_agg df spec = Ok agg -> length (metrics_at agg k) = length spec.
Proof.
  intros Hg. destruct (groupby_agg_Ok _ _ _ Hg) as (ks & _ & Hk & _).
  destruct (decide (k ∈ group_keys ks)) as [Hin|Hin].
  - destruct (metrics_at_group _ _ _ _ _ Hg Hk Hin) as (cols & Hcols & Hfor).
    apply for_each_length in Hfor. rewrite Hfor. symmetry. eapply Forall2_length, Hcols.
  - rewrite (metrics_at_absent _ _ _ _ _ Hg Hk Hin). apply length_replicate.
Qed.

Lemma zip_with_fillna (cols sel : list string) (vs : list Value) :
  (∀ c, c ∈ cols -> c ∈ sel) -> length cols = length vs ->
  zip_with (fun c v => if bool_decide (c ∈ sel) then fillna0 v else v) cols vs
  = map fillna0 vs.
Proof.
  revert vs. induction cols as [|c cols IH]; intros [|v vs] Hsel Hlen; simpl in *; try done.
  rewrite bool_decide_eq_true_2 by (apply Hsel; by left).
  f_equal. apply IH; [|lia]. intros c' Hc'. apply Hsel. by right.
Qed.

Lemma all_metric_cols_not_key :
  Forall (fun c => c ∉ ["date"; "agentmis"]) all_metric_cols.
Proof.
  apply Forall_forall. intros c Hc Hk.
  apply list_elem_of_In in Hc. apply list_elem_of_In in Hk.
  simpl in Hc, Hk. destruct Hk as [<-|[<-|[]]]; intuition discriminate.
Qed.

(** The table [build_db] returns, row by row: the base keys in order, each
    with the metric values of the four aggregates, missing values filled. *)
Lemma final_table (ks : list (key F)) (d1 d2 d3 d4 : DataFrame F) (a1 a2 a3 a4 : Table F) :
  groupby_agg d1 cho_spec = Ok a1 ->
  groupby_agg d2 cht_spec = Ok a2 ->
  groupby_agg d3 chd_spec = Ok a3 ->
  groupby_agg d4 che_spec = Ok a4 ->
  fillna_cols (merged ks a1 a2 a3 a4)
    (filter (fun c => c ∉ ["date"; "agentmis"]) (columns (merged ks a1 a2 a3 a4)))
  = mkTable all_metric_cols
      (map (fun k => (k, map fillna0 (final_metrics a1 a2 a3 a4 k))) (drop_duplicates ks)).
Proof.
  intros A1 A2 A3 A4.
  assert (Hcols : metric_cols (merged ks a1 a2 a3 a4) = all_metric_cols).
  { rewrite merged_cols.
    destruct (groupby_agg_Ok _ _ _ A1) as (_ & _ & _ & _ & -> & _).
    destruct (groupby_agg_Ok _ _ _ A2) as (_ & _ & _ & _ & -> & _).
    destruct (groupby_agg_Ok _ _ _ A3) as (_ & _ & _ & _ & -> & _).
    destruct (groupby_agg_Ok _ _ _ A4) as (_ & _ & _ & _ & -> & _).
    reflexivity. }
  unfold fillna_cols, columns. rewrite Hcols. f_equal.
  rewrite merged_rows by (eapply groupby_agg_NoDup; eassumption).
  rewrite map_map. apply map_ext. intros k. cbn [fst snd]. f_equal.
  apply zip_with_fillna.
  - intros c Hc. apply list_elem_of_filter. split; [|by do 2 right].
    pose proof all_metric_cols_not_key as Hall.
    rewrite Forall_forall in Hall. by apply Hall.
  - unfold final_metrics. rewrite !length_app.
    rewrite (metrics_at_length _ _ _ _ A1), (metrics_at_length _ _ _ _ A2),
      (metrics_at_length _ _ _ _ A3), (metrics_at_length _ _ _ _ A4).
    reflexivity.
Qed.

End Final.

(** ** Cells of the final table *)

Section Cells.
Context {F File : Type} `{Scalars F} `{Pandas F File}.

#[local] Abbreviation Value := (value F).
#[local] Abbreviation Row := (key F * list (value F))%type.

Ltac explode l Hl :=
  repeat (destruct l as [|? l]; simpl in Hl; try discriminate Hl); clear Hl.

Lemma assoc_elem (c : string) (cs : list string) (vs : list Value) :
  c ∈ cs -> length cs = length vs ->
  ∃ v, assoc c (zip cs vs) = Some v ∧ v ∈ vs.
Proof.
  revert vs. induction cs as [|c' cs IH]; intros [|v vs] Hc Hlen; simpl in *;
    try done; [inversion Hc|].
  destruct (decide (c' = c)) as [->|Hne].
  - exists v. split; [done | by left].
  - apply elem_of_cons in Hc as [->|Hc]; [done|].
    destruct (IH vs Hc) as (v' & Hv' & Hin); [lia|].
    exists v'. split; [done | by right].
Qed.

(** Every metric cell of the final table, by sheet and position. *)
Lemma cell_final (t : Table F) (k : key F) (m1 m2 m3 m4 : list Value) :
  metric_cols t = all_metric_cols ->
  length m1 = 2%nat -> length m2 = 3%nat -> length m3 = 5%nat -> length m4 = 8%nat ->
  let r : Row := (k, map fillna0 (m1 ++ m2 ++ m3 ++ m4)) in
  (∀ i c, spec_names cho_spec !! i = Some c -> cell t r c = fillna0 <$> m1 !! i) ∧
  (∀ i c, spec_names cht_spec !! i = Some c -> cell t r c = fillna0 <$> m2 !! i) ∧
  (∀ i c, spec_names chd_spec !! i = Some c -> cell t r c = fillna0 <$> m3 !! i) ∧
  (∀ i c, spec_names che_spec !! i = Some c -> cell t r c = fillna0 <$> m4 !! i).
Proof.
  intros Hcols L1 L2 L3 L4. explode m1 L1. explode m2 L2. explode m3 L3. explode m4 L4.
  unfold cell. rewrite Hcols. cbn [fst snd].
  repeat split; intros i c Hi;
    repeat (destruct i as [|i]; [injection Hi as <-; reflexivity|]); discriminate Hi.
Qed.

(** The table of a successful run, in closed form. *)
Lemma build_db_table (p p' : Pipeline) (t : Table F) :
  build_db p = (Ok t, p') ->
  ∃ d1 d2 d3 d4 k1 k2 k3 k4 a1 a2 a3 a4 start stop,
    missing_sheets (sheet_names (file p)) = [] ∧
    read_excel (file p) "CHO" ≫= standardize = Ok d1 ∧
    read_excel (file p) "CHT" ≫= standardize = Ok d2 ∧
    read_excel (file p) "CHD" ≫= standardize = Ok d3 ∧
    read_excel (file p) "CHE" ≫= standardize = Ok d4 ∧
    keys_of d1 = Ok k1 ∧ keys_of d2 = Ok k2 ∧ keys_of d3 = Ok k3 ∧ keys_of d4 = Ok k4 ∧
    groupby_agg d1 cho_spec = Ok a1 ∧
    groupby_agg d2 cht_spec = Ok a2 ∧
    groupby_agg d3 chd_spec = Ok a3 ∧
    groupby_agg d4 che_spec = Ok a4 ∧
    strftime (series_min (table_dates (base_table (k1 ++ k2 ++ k3 ++ k4)))) = Ok start ∧
    strftime (series_max (table_dates (base_table (k1 ++ k2 ++ k3 ++ k4)))) = Ok stop ∧
    t = mkTable all_metric_cols
          (map (fun k => (k, map fillna0 (final_metrics a1 a2 a3 a4 k)))
               (drop_duplicates (k1 ++ k2 ++ k3 ++ k4))) ∧
    p' = mkPipeline (file p) (Some d1) (Some d2) (Some d3) (Some d4) (Some t)
           (base_stats (base_table (k1 ++ k2 ++ k3 ++ k4)) start stop
              (loaded_stats d1 d2 d3 d4 (stats p))).
Proof.
  intros Hb.
  apply build_db_Ok in Hb
    as (d1 & d2 & d3 & d4 & k1 & k2 & k3 & k4 & a1 & a2 & a3 & a4 & start & stop &
        Hm & E1 & E2 & E3 & E4 & K1 & K2 & K3 & K4 & A1 & A2 & A3 & A4 & Hs & He & Ht & Hp).
  rewrite (final_table _ _ _ _ _ _ _ _ _ A1 A2 A3 A4) in Ht.
  exists d1, d2, d3, d4, k1, k2, k3, k4, a1, a2, a3, a4, start, stop.
  repeat (split; [done|]). done.
Qed.

(** The keys of the final table are the base keys. *)
Lemma final_keys (ks : list (key F)) (f : key F -> list Value) :
  map fst (map (fun k => (k, f k)) ks) = ks.
Proof. rewrite map_map. simpl. apply map_id. Qed.

End Cells.

(** ** The properties of the specification *)

Section Properties.
Context {F File : Type} `{Scalars F} `{Pandas F File}.

#[local] Abbreviation Value := (value F).
#[local] Abbreviation Row := (key F * list (value F))%type.

(** C1.  The table [build_db] returns has exactly one row per distinct
    (date, agentmis) pair of the four loaded sheets: its keys are the first
    occurrences of the pairs of CHO, CHT, CHD and CHE in that order, so no
    key is repeated, every pair of every sheet is there, and the number of
    rows is the size of any duplicate-free enumeration of the pairs (the
    cardinality of their union).  The four left merges add no row and drop
    none. *)
Theorem C1_one_row_per_key (p p' : Pipeline) (t : Table F) :
  build_db p = (Ok t, p') ->
  ∃ d1 d2 d3 d4 k1 k2 k3 k4,
    read_excel (file p) "CHO" ≫= standardize = Ok d1 ∧
    read_excel (file p) "CHT" ≫= standardize = Ok d2 ∧
    read_excel (file p) "CHD" ≫= standardize = Ok d3 ∧
    read_excel (file p) "CHE" ≫= standardize = Ok d4 ∧
    keys_of d1 = Ok k1 ∧ keys_of d2 = Ok k2 ∧ keys_of d3 = Ok k3 ∧ keys_of d4 = Ok k4 ∧
    map fst (rows t) = drop_duplicates (k1 ++ k2 ++ k3 ++ k4) ∧
    NoDup (map fst (rows t)) ∧
    (∀ k, k ∈ map fst (rows t) ↔ k ∈ k1 ∨ k ∈ k2 ∨ k ∈ k3 ∨ k ∈ k4) ∧
    (∀ l, NoDup l -> (∀ k, k ∈ l ↔ k ∈ k1 ∨ k ∈ k2 ∨ k ∈ k3 ∨ k ∈ k4) ->
          length (rows t) = length l).
Proof.
  intros Hb.
  apply build_db_table in Hb
    as (d1 & d2 & d3 & d4 & k1 & k2 & k3 & k4 & a1 & a2 & a3 & a4 & start & stop &
        Hm & E1 & E2 & E3 & E4 & K1 & K2 & K3 & K4 & A1 & A2 & A3 & A4 & Hs & He & -> & Hp).
  exists d1, d2, d3, d4, k1, k2, k3, k4.
  repeat (split; [done|]). cbn [rows].
  rewrite final_keys.
  assert (Hel : ∀ k, k ∈ drop_duplicates (k1 ++ k2 ++ k3 ++ k4)
                     ↔ k ∈ k1 ∨ k ∈ k2 ∨ k ∈ k3 ∨ k ∈ k4).
  { intros k. rewrite drop_duplicates_elem, !elem_of_app. tauto. }
  split; [done|]. split; [apply drop_duplicates_NoDup|]. split; [done|].
  intros l Hl Hkl. rewrite length_map.
  apply NoDup_same_length; [apply drop_duplicates_NoDup | done |].
  intros k. by rewrite Hel, Hkl.
Qed.

Lemma fillna0_notna (v : Value) : fillna0 v ≠ VNaN.
Proof. by destruct v. Qed.

(** A key that does not occur in a sheet gets missing values from that
    sheet's aggregate, which the final [fillna] turns into 0. *)
Lemma absent_cells (t : Table F) (df : DataFrame F) (spec : list named_agg)
    (agg : Table F) (ks : list (key F)) (k : key F) (r : Row) :
  groupby_agg df spec = Ok agg -> keys_of df = Ok ks -> k ∉ ks ->
  (∀ i c, spec_names spec !! i = Some c -> cell t r c = fillna0 <$> metrics_at agg k !! i) ->
  ∀ c, c ∈ spec_names spec -> cell t r c = Some (VInt 0).
Proof.
  intros Hg Hk Hin Hcell c Hc.
  apply list_elem_of_lookup in Hc as [i Hi].
  rewrite (Hcell i c Hi).
  rewrite (metrics_at_absent _ _ _ _ _ Hg Hk).
  - apply lookup_lt_Some in Hi. unfold spec_names in Hi. rewrite length_map in Hi.
    by rewrite lookup_replicate_2.
  - rewrite group_keys_elem. tauto.
Qed.

(** C2.  In the table [build_db] returns no metric cell (a cell of a
    column other than date and agentmis) is missing, and a row whose key
    does not occur in a sheet holds exactly 0 in each metric column of that
    sheet. *)
Theorem C2_metrics_filled (p p' : Pipeline) (t : Table F) :
  build_db p = (Ok t, p') ->
  (∀ r c, r ∈ rows t -> c ∈ columns t -> c ∉ ["date"; "agentmis"] ->
          ∃ v, cell t r c = Some v ∧ v ≠ VNaN) ∧
  ∃ d1 d2 d3 d4 k1 k2 k3 k4,
    read_excel (file p) "CHO" ≫= standardize = Ok d1 ∧
    read_excel (file p) "CHT" ≫= standardize = Ok d2 ∧
    read_excel (file p) "CHD" ≫= standardize = Ok d3 ∧
    read_excel (file p) "CHE" ≫= standardize = Ok d4 ∧
    keys_of d1 = Ok k1 ∧ keys_of d2 = Ok k2 ∧ keys_of d3 = Ok k3 ∧ keys_of d4 = Ok k4 ∧
    ∀ r, r ∈ rows t ->
      (r.1 ∉ k1 -> ∀ c, c ∈ ["absent"; "scheduled"] -> cell t r c = Some (VInt 0)) ∧
      (r.1 ∉ k2 -> ∀ c, c ∈ ["ans_vol"; "aht_min"; "art_min"] -> cell t r c = Some (VInt 0)) ∧
      (r.1 ∉ k3 -> ∀ c, c ∈ ["surveyed_count"; "solved_count"; "not_solved_count";
                              "csat_count"; "dsat_count"] -> cell t r c = Some (VInt 0)) ∧
      (r.1 ∉ k4 -> ∀ c, c ∈ ["evaluated_count"; "pass_eval_count"; "fail_eval_count";
                              "rc1_fail"; "rc2_fail"; "rc_fail"; "bc_fail"; "cc_fail"] ->
                   cell t r c = Some (VInt 0)).
Proof.
  intros Hb.
  apply build_db_table in Hb
    as (d1 & d2 & d3 & d4 & k1 & k2 & k3 & k4 & a1 & a2 & a3 & a4 & start & stop &
        Hm & E1 & E2 & E3 & E4 & K1 & K2 & K3 & K4 & A1 & A2 & A3 & A4 & Hs & He & -> & Hp).
  set (t := mkTable all_metric_cols _).
  assert (Hrow : ∀ r, r ∈ rows t ->
            r = (r.1, map fillna0 (metrics_at a1 r.1 ++ metrics_at a2 r.1
                                     ++ metrics_at a3 r.1 ++ metrics_at a4 r.1))).
  { intros r Hr. subst t. cbn [rows] in Hr.
    apply list_elem_of_fmap in Hr as (k & -> & _). reflexivity. }
  pose proof (fun k => metrics_at_length _ _ _ k A1) as L1.
  pose proof (fun k => metrics_at_length _ _ _ k A2) as L2.
  pose proof (fun k => metrics_at_length _ _ _ k A3) as L3.
  pose proof (fun k => metrics_at_length _ _ _ k A4) as L4.
  split.
  - intros r c Hr Hc Hkey. rewrite (Hrow r Hr).
    assert (Hm' : c ∈ all_metric_cols).
    { unfold columns in Hc. apply elem_of_cons in Hc as [->|Hc]; [destruct Hkey; by left|].
      apply elem_of_cons in Hc as [->|Hc]; [destruct Hkey; by right; left|done]. }
    destruct (assoc_elem c all_metric_cols
                (map fillna0 (metrics_at a1 r.1 ++ metrics_at a2 r.1
                                ++ metrics_at a3 r.1 ++ metrics_at a4 r.1)) Hm')
      as (v & Hv & Hin).
    { rewrite length_map, !length_app, L1, L2, L3, L4. reflexivity. }
    exists v. split; [exact Hv|].
    apply list_elem_of_fmap in Hin as (x & -> & _). apply fillna0_notna.
  - exists d1, d2, d3, d4, k1, k2, k3, k4. repeat (split; [done|]).
    intros r Hr.
    destruct (cell_final t r.1 (metrics_at a1 r.1) (metrics_at a2 r.1)
                (metrics_at a3 r.1) (metrics_at a4 r.1) eq_refl
                (L1 r.1) (L2 r.1) (L3 r.1) (L4 r.1)) as (C1 & C2 & C3 & C4).
    rewrite <- (Hrow r Hr) in C1, C2, C3, C4.
    repeat split; intros Hin.
    + exact (absent_cells t _ _ _ _ _ r A1 K1 Hin C1).
    + exact (absent_cells t _ _ _ _ _ r A2 K2 Hin C2).
    + exact (absent_cells t _ _ _ _ _ r A3 K3 Hin C3).
    + exact (absent_cells t _ _ _ _ _ r A4 K4 Hin C4).
Qed.

Lemma append_assoc (a b c : string) : (a +:+ b) +:+ c = a +:+ b +:+ c.
Proof. induction a as [|x a IH]; [done|]. change (String x ((a +:+ b) +:+ c) = String x (a +:+ b +:+ c)). by f_equal. Qed.

Lemma append_empty_r (a : string) : a +:+ "" = a.
Proof. induction a as [|x a IH]; [done|]. change (String x (a +:+ "") = String x a). by f_equal. Qed.

(** Every element of a joined list stands in the joined text. *)
Lemma join_contains (sep : string) (l : list string) (s : string) :
  s ∈ l -> ∃ pre post, Py.join sep l = pre +:+ s +:+ post.
Proof.
  unfold Py.join. induction l as [|x l IH]; intros Hs; [inversion Hs|].
  apply elem_of_cons in Hs as [->|Hs].
  - exists "". destruct l as [|y l]; simpl.
    + exists "". change (x = x +:+ ""). by rewrite append_empty_r.
    + by eexists.
  - destruct (IH Hs) as (pre & post & Heq).
    destruct l as [|y l]; [inversion Hs|].
    exists (x +:+ sep +:+ pre), post.
    change (String.concat sep (x :: y :: l))
      with (x +:+ sep +:+ String.concat sep (y :: l)).
    by rewrite Heq, !append_assoc.
Qed.

Lemma missing_sheets_elem (available : list string) (s : string) :
  s ∈ missing_sheets available ↔ s ∈ required_sheets ∧ s ∉ available.
Proof. unfold missing_sheets. rewrite list_elem_of_filter. tauto. Qed.

(** With a required sheet missing, [validate_sheets] raises and leaves the
    object as it was. *)
Lemma validate_sheets_missing (p : Pipeline) :
  missing_sheets (sheet_names (file p)) ≠ [] ->
  validate_sheets p
  = (Raise (ValueError ("Missing required sheets: "
                          +:+ Py.join ", " (missing_sheets (sheet_names (file p))))), p).
Proof.
  intros Hm. unfold validate_sheets.
  by destruct (missing_sheets (sheet_names (file p))).
Qed.

(** C3.  When the workbook lacks one of the sheets CHO, CHT, CHD, CHE,
    [build_db] (and already [load_sheets]) raises the validation error
    whose message is "Missing required sheets: " followed by all the
    missing names joined by ", ": every missing name is in that list and
    stands in the message.  The pipeline object is left exactly as it was:
    no sheet has been loaded, no statistic recorded, no table built, and
    the outcome does not depend on what reading a sheet would give. *)
Theorem C3_missing_sheets_fail_fast (p : Pipeline) :
  (∃ s, s ∈ required_sheets ∧ s ∉ sheet_names (file p)) ->
  let missing := missing_sheets (sheet_names (file p)) in
  let msg := "Missing required sheets: " +:+ Py.join ", " missing in
  load_sheets p = (Raise (ValueError msg), p) ∧
  build_db p = (Raise (ValueError msg), p) ∧
  ∀ s, s ∈ required_sheets -> s ∉ sheet_names (file p) ->
       s ∈ missing ∧
       ∃ pre post, msg = "Missing required sheets: " +:+ pre +:+ s +:+ post.
Proof.
  intros (s0 & Hreq & Hav). cbn zeta.
  assert (Hne : missing_sheets (sheet_names (file p)) ≠ []).
  { intros Hnil. assert (Hin : s0 ∈ missing_sheets (sheet_names (file p)))
      by by apply missing_sheets_elem.
    rewrite Hnil in Hin. inversion Hin. }
  pose proof (validate_sheets_missing p Hne) as Hv.
  assert (Hl : load_sheets p
               = (Raise (ValueError ("Missing required sheets: "
                    +:+ Py.join ", " (missing_sheets (sheet_names (file p))))), p)).
  { unfold load_sheets. by apply M_bind_Raise. }
  split; [exact Hl|]. split.
  - unfold build_db. by apply M_bind_Raise.
  - intros s Hs Hns.
    assert (Hin : s ∈ missing_sheets (sheet_names (file p)))
      by by apply missing_sheets_elem.
    split; [done|].
    destruct (join_contains ", " _ s Hin) as (pre & post & ->). by exists pre, post.
Qed.

(** The metric cells of a row of the final table are the filled metric
    values of the four aggregates at the key of the row. *)
Lemma final_cells (ks : list (key F)) (d1 d2 d3 d4 : DataFrame F) (a1 a2 a3 a4 : Table F) :
  groupby_agg d1 cho_spec = Ok a1 ->
  groupby_agg d2 cht_spec = Ok a2 ->
  groupby_agg d3 chd_spec = Ok a3 ->
  groupby_agg d4 che_spec = Ok a4 ->
  let t := mkTable all_metric_cols
             (map (fun k => (k, map fillna0 (final_metrics a1 a2 a3 a4 k)))
                  (drop_duplicates ks)) in
  ∀ r, r ∈ rows t ->
    (∀ i c, spec_names cho_spec !! i = Some c -> cell t r c = fillna0 <$> metrics_at a1 r.1 !! i) ∧
    (∀ i c, spec_names cht_spec !! i = Some c -> cell t r c = fillna0 <$> metrics_at a2 r.1 !! i) ∧
    (∀ i c, spec_names chd_spec !! i = Some c -> cell t r c = fillna0 <$> metrics_at a3 r.1 !! i) ∧
    (∀ i c, spec_names che_spec !! i = Some c -> cell t r c = fillna0 <$> metrics_at a4 r.1 !! i).
Proof.
  intros A1 A2 A3 A4 t r Hr.
  assert (Hrow : r = (r.1, map fillna0 (metrics_at a1 r.1 ++ metrics_at a2 r.1
                                          ++ metrics_at a3 r.1 ++ metrics_at a4 r.1))).
  { subst t. cbn [rows] in Hr. apply list_elem_of_fmap in Hr as (k & -> & _). reflexivity. }
  pose proof (cell_final t r.1 (metrics_at a1 r.1) (metrics_at a2 r.1)
                (metrics_at a3 r.1) (metrics_at a4 r.1) eq_refl
                (metrics_at_length _ _ _ r.1 A1) (metrics_at_length _ _ _ r.1 A2)
                (metrics_at_length _ _ _ r.1 A3) (metrics_at_length _ _ _ r.1 A4)) as Hc.
  cbn zeta in Hc. by rewrite <- Hrow in Hc.
Qed.

Lemma count_true_filter {A} (P : A -> Prop) `{∀ x, Decision (P x)} (l : list A) :
  count_true (map (fun x => bool_decide (P x)) l) = length (filter P l).
Proof.
  induction l as [|x l IH]; simpl; [done|].
  rewrite filter_cons. destruct (decide (P x)) as [Hx|Hx].
  - rewrite bool_decide_eq_true_2 by done. simpl. by rewrite IH.
  - rewrite bool_decide_eq_false_2 by done. by rewrite IH.
Qed.

Lemma count_true_filter_not {A} (P : A -> Prop) `{∀ x, Decision (P x)} (l : list A) :
  count_true (map (fun x => negb (bool_decide (P x))) l) = length (filter (fun x => ¬ P x) l).
Proof.
  induction l as [|x l IH]; simpl; [done|].
  rewrite filter_cons. destruct (decide (¬ P x)) as [Hx|Hx].
  - rewrite bool_decide_eq_false_2 by done. simpl. by rewrite IH.
  - rewrite bool_decide_eq_true_2 by (by destruct (decide (P x))). by rewrite IH.
Qed.

Lemma filter_split_length {A} (P : A -> Prop) `{∀ x, Decision (P x)} (l : list A) :
  (length (filter P l) + length (filter (fun x => ¬ P x) l) = length l)%nat.
Proof.
  induction l as [|x l IH]; simpl; [done|].
  rewrite !filter_cons. destruct (decide (P x)), (decide (¬ P x)); simpl; try lia; tauto.
Qed.

Ltac inv_Forall2 H :=
  repeat match type of H with
  | Forall2 _ (_ :: _) _ =>
      let c := fresh "c" in let Hc := fresh "Hc" in let Hf := fresh "Hf" in
      apply Forall2_cons_inv_l in H as (c & ? & [Hc ?] & Hf & ->); rename Hf into H
  | Forall2 _ [] _ => apply Forall2_nil_inv_l in H as ->
  end.

(** The row of the Attendance aggregate for a group. *)
Lemma cho_metrics (d1 : DataFrame F) (a1 : Table F) (ks : list (key F)) (k : key F) :
  groupby_agg d1 cho_spec = Ok a1 -> keys_of d1 = Ok ks -> k ∈ group_keys ks ->
  ∃ status,
    getitem d1 "status" = Ok status ∧
    metrics_at a1 k =
      [ sum_bool (map (fun s => bool_decide (s = "no show")) (str_lower (group ks k status)));
        sum_bool (map (fun s => negb (bool_decide (s ∈ ["off"]))) (str_lower (group ks k status))) ].
Proof.
  intros Hg Hk Hin.
  destruct (metrics_at_group _ _ _ _ _ Hg Hk Hin) as (cols & Hcols & Hfor).
  unfold cho_spec in Hcols. inv_Forall2 Hcols.
  destruct c as [s1 f1], c0 as [s2 f2]. simpl in *. subst.
  assert (s2 = s1) by congruence. subst s2.
  exists s1. split; [done|]. by injection Hfor as <-.
Qed.

(** The row of the Satisfaction aggregate for a group. *)
Lemma chd_metrics (d3 : DataFrame F) (a3 : Table F) (ks : list (key F)) (k : key F) :
  groupby_agg d3 chd_spec = Ok a3 -> keys_of d3 = Ok ks -> k ∈ group_keys ks ->
  ∃ score sloved v4 v5,
    getitem d3 "score" = Ok score ∧
    getitem d3 "sloved" = Ok sloved ∧
    csat (group ks k score) = Ok v4 ∧
    dsat (group ks k score) = Ok v5 ∧
    metrics_at a3 k =
      [ VInt (Z.of_nat (length (filter (fun v => notna v = true) (s_values (group ks k score)))));
        sum_bool (map (fun s => bool_decide (s = "yes")) (str_lower (group ks k sloved)));
        sum_bool (map (fun s => negb (bool_decide (s = "yes"))) (str_lower (group ks k sloved)));
        v4; v5 ].
Proof.
  intros Hg Hk Hin.
  destruct (metrics_at_group _ _ _ _ _ Hg Hk Hin) as (cols & Hcols & Hfor).
  unfold chd_spec in Hcols. inv_Forall2 Hcols.
  destruct c as [s1 f1], c0 as [s2 f2], c1 as [s3 f3], c2 as [s4 f4], c3 as [s5 f5].
  simpl in *. subst.
  assert (s3 = s2) by congruence. assert (s4 = s1) by congruence.
  assert (s5 = s1) by congruence. subst s3 s4 s5.
  destruct (csat (group ks k s1)) as [v4|] eqn:H4; [|done].
  destruct (dsat (group ks k s1)) as [v5|] eqn:H5; [|done].
  exists s1, s2, v4, v5. repeat (split; [done|]). by injection Hfor as <-.
Qed.

(** The text of a missing value is none of the texts the pipeline counts. *)
Lemma missing_text (d : dtype) :
  Py.lower (str_value d (@VNaN F)) ≠ "yes" ∧
  Py.lower (str_value d (@VNaN F)) ≠ "no show" ∧
  Py.lower (str_value d (@VNaN F)) ≠ "off".
Proof. by destruct d. Qed.


(** C7.  For every group of the Satisfaction sheet, the final table holds
    in solved_count the number of rows of the group whose sloved text, in
    lower case, is "yes", and in not_solved_count the number of rows whose
    text is not; a missing value is such a row.  The two counts add up to
    the number of rows of the group. *)
Theorem C7_solved_and_not_solved (p p' : Pipeline) (t : Table F) :
  build_db p = (Ok t, p') ->
  ∃ d3 ks sloved,
    read_excel (file p) "CHD" ≫= standardize = Ok d3 ∧
    keys_of d3 = Ok ks ∧
    getitem d3 "sloved" = Ok sloved ∧
    (∀ d, Py.lower (str_value d (@VNaN F)) ≠ "yes") ∧
    ∀ r, r ∈ rows t -> r.1 ∈ group_keys ks ->
      let texts := str_lower (group ks r.1 sloved) in
      let solved := length (filter (fun s => s = "yes") texts) in
      let not_solved := length (filter (fun s => s ≠ "yes") texts) in
      cell t r "solved_count" = Some (VInt (Z.of_nat solved)) ∧
      cell t r "not_solved_count" = Some (VInt (Z.of_nat not_solved)) ∧
      (solved + not_solved)%nat = length (s_values (group ks r.1 sloved)).
Proof.
  intros Hb.
  apply build_db_table in Hb
    as (d1 & d2 & d3 & d4 & k1 & k2 & k3 & k4 & a1 & a2 & a3 & a4 & start & stop &
        Hm & E1 & E2 & E3 & E4 & K1 & K2 & K3 & K4 & A1 & A2 & A3 & A4 & Hs & He & -> & Hp).
  destruct (groupby_agg_Ok _ _ _ A3) as (ks' & cols & Hk' & Hcols & _).
  rewrite K3 in Hk'. injection Hk' as <-.
  unfold chd_spec in Hcols. inv_Forall2 Hcols. destruct c0 as [sloved f2]. simpl in Hc0.
  exists d3, k3, sloved. repeat (split; [done|]).
  split; [intros d; apply missing_text|].
  intros r Hr Hin.
  destruct (final_cells _ _ _ _ _ _ _ _ _ A1 A2 A3 A4 r Hr) as (_ & _ & C3 & _).
  destruct (chd_metrics _ _ _ _ A3 K3 Hin)
    as (score & sloved' & v4 & v5 & Hsc & Hsl & Hv4 & Hv5 & Hmet).
  assert (sloved' = sloved) by congruence. subst sloved'.
  cbn zeta.
  rewrite (C3 1%nat "solved_count" eq_refl), (C3 2%nat "not_solved_count" eq_refl), Hmet.
  cbn [lookup list_lookup fmap option_fmap option_map fillna0 sum_bool].
  unfold sum_bool.
  rewrite (count_true_filter (fun s : string => s = "yes")).
  rewrite (count_true_filter_not (fun s : string => s = "yes")).
  repeat split.
  rewrite filter_split_length. unfold str_lower. by rewrite length_map.
Qed.

(** C9.  For every group of the Attendance sheet, the final table holds in
    scheduled the number of rows of the group whose status is missing or
    has a text that, in lower case, is not "off", and in absent the number
    of rows whose status is not missing and has the text "no show": a row
    with a missing status always counts as scheduled and never as absent. *)
Theorem C9_missing_status_is_scheduled (p p' : Pipeline) (t : Table F) :
  build_db p = (Ok t, p') ->
  ∃ d1 ks status,
    read_excel (file p) "CHO" ≫= standardize = Ok d1 ∧
    keys_of d1 = Ok ks ∧
    getitem d1 "status" = Ok status ∧
    ∀ r, r ∈ rows t -> r.1 ∈ group_keys ks ->
      let text v := Py.lower (str_value (s_dtype status) v) in
      let statuses := s_values (group ks r.1 status) in
      cell t r "scheduled"
        = Some (VInt (Z.of_nat (length
            (filter (fun v => isna v = true ∨ text v ≠ "off") statuses)))) ∧
      cell t r "absent"
        = Some (VInt (Z.of_nat (length
            (filter (fun v => isna v = false ∧ text v = "no show") statuses)))).
Proof.
  intros Hb.
  apply build_db_table in Hb
    as (d1 & d2 & d3 & d4 & k1 & k2 & k3 & k4 & a1 & a2 & a3 & a4 & start & stop &
        Hm & E1 & E2 & E3 & E4 & K1 & K2 & K3 & K4 & A1 & A2 & A3 & A4 & Hs & He & -> & Hp).
  destruct (groupby_agg_Ok _ _ _ A1) as (ks' & cols & Hk' & Hcols & _).
  rewrite K1 in Hk'. injection Hk' as <-.
  unfold cho_spec in Hcols. inv_Forall2 Hcols. destruct c as [status f1]. simpl in Hc.
  exists d1, k1, status. repeat (split; [done|]).
  intros r Hr Hin.
  destruct (final_cells _ _ _ _ _ _ _ _ _ A1 A2 A3 A4 r Hr) as (C1 & _).
  destruct (cho_metrics _ _ _ _ A1 K1 Hin) as (status' & Hst & Hmet).
  assert (status' = status) by congruence. subst status'.
  cbn zeta.
  rewrite (C1 1%nat "scheduled" eq_refl), (C1 0%nat "absent" eq_refl), Hmet.
  cbn [lookup list_lookup fmap option_fmap option_map fillna0 sum_bool].
  unfold sum_bool, str_lower.
  change (s_dtype (group k1 r.1 status)) with (s_dtype status).
  generalize (s_values (group k1 r.1 status)). intros vs.
  rewrite !map_map. cbv beta.
  rewrite (count_true_filter_not
             (fun v => Py.lower (str_value (s_dtype status) v) ∈ ["off"])).
  rewrite (count_true_filter
             (fun v => Py.lower (str_value (s_dtype status) v) = "no show")).
  split; do 4 f_equal; apply list_filter_iff; intros v.
  - rewrite list_elem_of_singleton.
    destruct (isna v) eqn:Hv; [|split; [by right | by intros [?|?]]].
    destruct v; try discriminate Hv.
    split; [by left|]. intros _. apply missing_text.
  - destruct (isna v) eqn:Hv; [|split; [done | by intros [_ ?]]].
    destruct v; try discriminate Hv.
    split; [|by intros [? _]]. intros Hns.
    by destruct (missing_text (s_dtype status)) as (_ & ? & _).
Qed.

(** *** Loading *)

Lemma getitem_elem (df : DataFrame F) (c : string) (s : Series F) :
  getitem df c = Ok s -> (VStr c, s) ∈ df_columns df.
Proof.
  unfold getitem.
  destruct (filter _ (df_columns df)) as [|p [|q l]] eqn:Hf; try done.
  intros [= <-].
  assert (Hp : p ∈ filter (fun p => has_label c p = true) (df_columns df))
    by (rewrite Hf; by left).
  apply list_elem_of_filter in Hp as [Hl Hp]. apply bool_decide_eq_true in Hl.
  destruct p as [l s]. simpl in *. by subst.
Qed.

Lemma to_datetime_empty (s s' : Series F) :
  to_datetime s = Ok s' -> s_values s = [] -> s_values s' = [].
Proof.
  unfold to_datetime. intros Ht Hs. rewrite Hs in Ht. simpl in Ht. by injection Ht as <-.
Qed.

Lemma no_rows_setitem (df : DataFrame F) (c : string) (s : Series F) :
  no_rows df -> s_values s = [] -> no_rows (setitem df c s).
Proof.
  unfold no_rows, setitem. simpl. rewrite !Forall_forall. intros Hdf Hs p Hp.
  apply list_elem_of_fmap in Hp as (q & -> & Hq).
  destruct (has_label c q); [done | by apply Hdf].
Qed.

Lemma no_rows_getitem (df : DataFrame F) (c : string) (s : Series F) :
  no_rows df -> getitem df c = Ok s -> s_values s = [].
Proof.
  intros Hdf Hg. apply getitem_elem in Hg.
  unfold no_rows in Hdf. rewrite Forall_forall in Hdf. exact (Hdf _ Hg).
Qed.

(** [standardize] gives no row to a frame that has none. *)
Lemma standardize_no_rows (raw d : DataFrame F) :
  standardize raw = Ok d -> no_rows raw -> no_rows d.
Proof.
  unfold standardize. intros Hs Hraw.
  apply bind_Ok in Hs as (labels & Hl & Hs). cbn zeta in Hs.
  assert (H0' : no_rows (set_columns raw labels)).
  { unfold no_rows, set_columns. simpl. apply Forall_forall. intros [l s] Hin.
    apply elem_of_zip_r in Hin. simpl.
    apply list_elem_of_fmap in Hin as (c & -> & Hc).
    unfold no_rows in Hraw. rewrite Forall_forall in Hraw. by apply Hraw. }
  revert Hs. generalize dependent (set_columns raw labels). intros df0 H0' Hs.
  apply bind_Ok in Hs as (df1 & H1' & Hs).
  assert (Hdf1 : no_rows df1).
  { destruct (contains df0 "date"); [|by injection H1' as <-].
    apply bind_Ok in H1' as (s & Hg & H1'). apply bind_Ok in H1' as (s' & Ht & H1').
    injection H1' as <-. apply no_rows_setitem; [done|].
    eapply to_datetime_empty; [exact Ht|]. by eapply no_rows_getitem. }
  apply bind_Ok in Hs as (df2 & H2' & Hs). injection Hs as <-.
  destruct (contains df1 "agentmis"); [|by injection H2' as <-].
  apply bind_Ok in H2' as (s & Hg & H2'). injection H2' as <-.
  apply no_rows_setitem; [done|]. unfold astype_str. simpl.
  by rewrite (no_rows_getitem _ _ _ Hdf1 Hg).
Qed.

Lemma keys_of_no_rows (d : DataFrame F) (ks : list (key F)) :
  no_rows d -> keys_of d = Ok ks -> ks = [].
Proof.
  unfold keys_of. intros Hd Hk.
  apply bind_Ok in Hk as (dt & Hdt & Hk). apply bind_Ok in Hk as (ag & Hag & Hk).
  injection Hk as <-. by rewrite (no_rows_getitem _ _ _ Hd Hdt).
Qed.

Lemma loaded_no_rows (f : File) (name : string) (d : DataFrame F) :
  (∃ raw, read_excel f name = Ok raw ∧ no_rows raw) ->
  read_excel f name ≫= standardize = Ok d -> no_rows d.
Proof.
  intros (raw & Hr & Hn) Hd. rewrite Hr in Hd. simpl in Hd.
  by eapply standardize_no_rows.
Qed.

Lemma M_bind_run {A B} (m : @M F File A) (k : A -> @M F File B) (p p1 : Pipeline) (a : A) :
  m p = (Ok a, p1) -> (m ≫= k) p = k a p1.
Proof. unfold mbind, M_bind. by intros ->. Qed.

(** The run of [load_sheets] when the four sheets load. *)
Lemma load_sheets_run (p : Pipeline) (d1 d2 d3 d4 : DataFrame F) :
  missing_sheets (sheet_names (file p)) = [] ->
  read_excel (file p) "CHO" ≫= standardize = Ok d1 ->
  read_excel (file p) "CHT" ≫= standardize = Ok d2 ->
  read_excel (file p) "CHD" ≫= standardize = Ok d3 ->
  read_excel (file p) "CHE" ≫= standardize = Ok d4 ->
  load_sheets p
  = (Ok (), mkPipeline (file p) (Some d1) (Some d2) (Some d3) (Some d4) (base p)
              (loaded_stats d1 d2 d3 d4 (stats p))).
Proof.
  intros Hm E1 E2 E3 E4.
  unfold load_sheets, mbind, M_bind, validate_sheets, load, set_cho, set_cht,
    set_chd, set_che, get_frame, set_stat.
  simpl. rewrite Hm, E1. simpl. rewrite E2. simpl. rewrite E3. simpl. rewrite E4.
  reflexivity.
Qed.

(** With no key at all, [build_base] stops at the date range: the least
    date of an empty column is [NaT], which has no [strftime]. *)
Lemma build_base_empty (f : File) d1 d2 d3 d4 b0 st :
  keys_of d1 = Ok [] -> keys_of d2 = Ok [] -> keys_of d3 = Ok [] -> keys_of d4 = Ok [] ->
  build_base (mkPipeline f (Some d1) (Some d2) (Some d3) (Some d4) b0 st)
  = (Raise (ValueError "NaTType does not support strftime"),
     mkPipeline f (Some d1) (Some d2) (Some d3) (Some d4) (Some (base_table []))
       (<["unique_agents" := VInt 0]> st)).
Proof.
  intros K1 K2 K3 K4.
  unfold build_base, mbind, M_bind, get_frame, lift, set_base, set_stat. simpl.
  rewrite K1, K2, K3, K4. reflexivity.
Qed.

(** C10.  When the four required sheets are all present and none has a
    data row, [build_db] raises and returns no table.  When the sheets
    load and have their key columns, the exception is the [ValueError] of
    calling [strftime] on [NaT]: it is raised in [build_base], with the
    empty base table already stored, while the date range is computed. *)
Theorem C10_empty_workbook_raises (p : Pipeline) :
  missing_sheets (sheet_names (file p)) = [] ->
  (∀ name, name ∈ required_sheets ->
     ∃ raw, read_excel (file p) name = Ok raw ∧ no_rows raw) ->
  (∃ e p', build_db p = (Raise e, p')) ∧
  (∀ d1 d2 d3 d4 k1 k2 k3 k4,
     read_excel (file p) "CHO" ≫= standardize = Ok d1 ->
     read_excel (file p) "CHT" ≫= standardize = Ok d2 ->
     read_excel (file p) "CHD" ≫= standardize = Ok d3 ->
     read_excel (file p) "CHE" ≫= standardize = Ok d4 ->
     keys_of d1 = Ok k1 -> keys_of d2 = Ok k2 -> keys_of d3 = Ok k3 -> keys_of d4 = Ok k4 ->
     ∃ p', build_db p = (Raise (ValueError "NaTType does not support strftime"), p') ∧
           base p' = Some (base_table []) ∧
           rows (base_table (k1 ++ k2 ++ k3 ++ k4)) = []).
Proof.
  intros Hm Hempty.
  assert (Hreq : ∀ name d, name ∈ required_sheets ->
            read_excel (file p) name ≫= standardize = Ok d -> no_rows d).
  { intros name d Hn. apply loaded_no_rows. by apply Hempty. }
  assert (Hkeys : ∀ name d ks, name ∈ required_sheets ->
            read_excel (file p) name ≫= standardize = Ok d -> keys_of d = Ok ks -> ks = []).
  { intros name d ks Hn Hd. apply keys_of_no_rows. by eapply Hreq. }
  assert (Hin : "CHO" ∈ required_sheets ∧ "CHT" ∈ required_sheets ∧
                "CHD" ∈ required_sheets ∧ "CHE" ∈ required_sheets).
  { unfold required_sheets. repeat split; in_list. }
  destruct Hin as (I1 & I2 & I3 & I4).
  split.
  - destruct (build_db p) as [[t|e] p'] eqn:Hb; [|by exists e, p'].
    exfalso. apply build_db_table in Hb
      as (d1 & d2 & d3 & d4 & k1 & k2 & k3 & k4 & a1 & a2 & a3 & a4 & start & stop &
          _ & E1 & E2 & E3 & E4 & K1 & K2 & K3 & K4 & _ & _ & _ & _ & Hs & _).
    rewrite (Hkeys _ _ _ I1 E1 K1), (Hkeys _ _ _ I2 E2 K2),
      (Hkeys _ _ _ I3 E3 K3), (Hkeys _ _ _ I4 E4 K4) in Hs.
    discriminate Hs.
  - intros d1 d2 d3 d4 k1 k2 k3 k4 E1 E2 E3 E4 K1 K2 K3 K4.
    pose proof (Hkeys _ _ _ I1 E1 K1). pose proof (Hkeys _ _ _ I2 E2 K2).
    pose proof (Hkeys _ _ _ I3 E3 K3). pose proof (Hkeys _ _ _ I4 E4 K4). subst.
    eexists. split; [|split; [|reflexivity]].
    + unfold build_db.
      rewrite (M_bind_run _ _ _ _ _ (load_sheets_run p _ _ _ _ Hm E1 E2 E3 E4)).
      apply M_bind_Raise. by apply build_base_empty.
    + reflexivity.
Qed.






(** *** The agent identifier *)

Lemma has_label_setitem (c c' : string) (s' : Series F) (q : Value * Series F) :
  has_label c (if has_label c' q then (q.1, s') else q) = has_label c q.
Proof. by destruct (has_label c' q). Qed.

Lemma filter_setitem (df : DataFrame F) (c c' : string) (s' : Series F) :
  filter (fun q => has_label c q = true) (df_columns (setitem df c' s'))
  = map (fun q => if has_label c' q then (q.1, s') else q)
        (filter (fun q => has_label c q = true) (df_columns df)).
Proof.
  unfold setitem. simpl. induction (df_columns df) as [|q l IH]; [done|].
  simpl. rewrite !filter_cons, has_label_setitem.
  destruct (decide (has_label c q = true)); simpl; by rewrite IH.
Qed.

Lemma getitem_setitem_same (df : DataFrame F) (c : string) (s s' : Series F) :
  getitem df c = Ok s -> getitem (setitem df c s') c = Ok s'.
Proof.
  unfold getitem. rewrite filter_setitem.
  destruct (filter _ (df_columns df)) as [|q [|q' l]] eqn:Hf; try done.
  intros _. simpl.
  assert (Hq : q ∈ filter (fun q => has_label c q = true) (df_columns df))
    by (rewrite Hf; by left).
  apply list_elem_of_filter in Hq as [-> _]. done.
Qed.

Lemma getitem_setitem_other (df : DataFrame F) (c c' : string) (s' : Series F) :
  c ≠ c' -> getitem (setitem df c' s') c = getitem df c.
Proof.
  intros Hne. unfold getitem. rewrite filter_setitem.
  replace (map _ (filter (fun q => has_label c q = true) (df_columns df)))
    with (filter (fun q => has_label c q = true) (df_columns df)); [done|].
  induction (df_columns df) as [|q l IH]; [done|].
  rewrite filter_cons. destruct (decide (has_label c q = true)) as [Hq|Hq]; [|done].
  simpl. rewrite <- IH. f_equal.
  apply bool_decide_eq_true in Hq.
  unfold has_label. rewrite bool_decide_eq_false_2; [done|]. rewrite Hq. congruence.
Qed.

Lemma getitem_contains (df : DataFrame F) (c : string) (s : Series F) :
  getitem df c = Ok s -> contains df c = true.
Proof.
  intros Hg. apply getitem_elem in Hg. unfold contains. apply existsb_exists.
  exists (VStr c, s). split; [by apply list_elem_of_In | by apply bool_decide_eq_true].
Qed.

(** What [standardize] leaves in the agentmis column: the [str] text of
    each cell of the loaded column whose label normalizes to agentmis. *)
Lemma standardize_agentmis (raw d : DataFrame F) (out : Series F) :
  standardize raw = Ok d -> getitem d "agentmis" = Ok out ->
  ∃ label loaded,
    (label, loaded) ∈ df_columns raw ∧
    normalize_label label = Ok (VStr "agentmis") ∧
    s_values out = map (fun v => VStr (str_value (s_dtype loaded) v)) (s_values loaded).
Proof.
  unfold standardize. intros Hs Hout.
  apply bind_Ok in Hs as (labels & Hl & Hs). cbn zeta in Hs.
  apply bind_Ok in Hs as (df1 & H1' & Hs).
  apply bind_Ok in Hs as (df2 & H2' & Hs). injection Hs as <-.
  destruct (contains df1 "agentmis") eqn:Hc.
  2:{ injection H2' as <-. apply getitem_contains in Hout. congruence. }
  apply bind_Ok in H2' as (s & Hg & H2'). injection H2' as <-.
  rewrite (getitem_setitem_same _ _ _ _ Hg) in Hout. injection Hout as <-.
  assert (Hg0 : getitem (set_columns raw labels) "agentmis" = Ok s).
  { destruct (contains (set_columns raw labels) "date"); [|by injection H1' as <-].
    apply bind_Ok in H1' as (sd & Hgd & H1'). apply bind_Ok in H1' as (sd' & Ht & H1').
    injection H1' as <-. by rewrite getitem_setitem_other in Hg. }
  apply getitem_elem in Hg0. unfold set_columns in Hg0. simpl in Hg0.
  apply list_elem_of_lookup in Hg0 as [i Hi].
  apply lookup_zip_with_Some in Hi as (lab & s0 & Heq & Hlab & Hs0).
  injection Heq as <- <-.
  rewrite list_lookup_fmap in Hs0.
  destruct (df_columns raw !! i) as [[label loaded]|] eqn:Hraw; [|done].
  simpl in Hs0. injection Hs0 as <-.
  exists label, loaded. split; [by eapply list_elem_of_lookup_2|]. split; [|done].
  apply for_each_Ok in Hl.
  assert (Hi1 : map fst (df_columns raw) !! i = Some label)
    by (by rewrite list_lookup_fmap, Hraw).
  destruct (Forall2_lookup_l _ _ _ _ _ Hl Hi1) as (y & Hy & Hny). congruence.
Qed.

Lemma sheet_agentmis (f : File) (name : string) (d : DataFrame F) (ks : list (key F)) :
  read_excel f name ≫= standardize = Ok d -> keys_of d = Ok ks ->
  ∃ raw out label loaded,
    read_excel f name = Ok raw ∧ standardize raw = Ok d ∧
    getitem d "agentmis" = Ok out ∧
    (label, loaded) ∈ df_columns raw ∧
    normalize_label label = Ok (VStr "agentmis") ∧
    s_values out = map (fun v => VStr (str_value (s_dtype loaded) v)) (s_values loaded) ∧
    ∀ k, k ∈ ks -> k.2 ∈ s_values out.
Proof.
  intros Hd Hk. apply bind_Ok in Hd as (raw & Hr & Hs).
  unfold keys_of in Hk. apply bind_Ok in Hk as (dt & Hdt & Hk).
  apply bind_Ok in Hk as (out & Hout & Hk). injection Hk as <-.
  destruct (standardize_agentmis _ _ _ Hs Hout) as (label & loaded & Hin & Hn & Hv).
  exists raw, out, label, loaded. repeat (split; [done|]).
  intros [k1 k2] Hkin. by apply elem_of_zip_r in Hkin.
Qed.

(** C4 (as the code has it).  The agentmis values of the pipeline are the
    [str] texts of the values as [pd.read_excel] loaded them: in each of
    the four sheets the normalized agentmis column holds, cell by cell,
    the text of the loaded cell, and every agentmis of the returned table
    is such a text.  The text of a value loaded as text is that text,
    unchanged, leading zeros included.  (What [read_excel] loads for a
    cell is not the pipeline's doing: it is called without a [dtype], so
    it loads a column whose texts all read as numbers as numbers.) *)
Theorem C4_agentmis_is_text_of_loaded_value (p p' : Pipeline) (t : Table F) :
  build_db p = (Ok t, p') ->
  (∀ (d : dtype) (x : string), str_value d (VStr x : Value) = x) ∧
  (∀ name, name ∈ required_sheets ->
     ∃ raw d out label loaded,
       read_excel (file p) name = Ok raw ∧ standardize raw = Ok d ∧
       getitem d "agentmis" = Ok out ∧
       (label, loaded) ∈ df_columns raw ∧
       normalize_label label = Ok (VStr "agentmis") ∧
       s_values out = map (fun v => VStr (str_value (s_dtype loaded) v)) (s_values loaded)) ∧
  (∀ r, r ∈ rows t ->
     ∃ name raw label loaded v,
       name ∈ required_sheets ∧ read_excel (file p) name = Ok raw ∧
       (label, loaded) ∈ df_columns raw ∧
       normalize_label label = Ok (VStr "agentmis") ∧
       v ∈ s_values loaded ∧
       r.1.2 = VStr (str_value (s_dtype loaded) v)).
Proof.
  intros Hb.
  apply build_db_table in Hb
    as (d1 & d2 & d3 & d4 & k1 & k2 & k3 & k4 & a1 & a2 & a3 & a4 & start & stop &
        Hm & E1 & E2 & E3 & E4 & K1 & K2 & K3 & K4 & A1 & A2 & A3 & A4 & Hs & He & -> & Hp).
  destruct (sheet_agentmis _ _ _ _ E1 K1) as (r1 & o1 & l1 & s1 & R1 & S1 & G1 & I1 & N1 & V1 & M1).
  destruct (sheet_agentmis _ _ _ _ E2 K2) as (r2 & o2 & l2 & s2 & R2 & S2 & G2 & I2 & N2 & V2 & M2).
  destruct (sheet_agentmis _ _ _ _ E3 K3) as (r3 & o3 & l3 & s3 & R3 & S3 & G3 & I3 & N3 & V3 & M3).
  destruct (sheet_agentmis _ _ _ _ E4 K4) as (r4 & o4 & l4 & s4 & R4 & S4 & G4 & I4 & N4 & V4 & M4).
  assert (Hin : "CHO" ∈ required_sheets ∧ "CHT" ∈ required_sheets ∧
                "CHD" ∈ required_sheets ∧ "CHE" ∈ required_sheets).
  { unfold required_sheets. repeat split; in_list. }
  destruct Hin as (J1 & J2 & J3 & J4).
  split; [done|]. split.
  - intros name Hn. unfold required_sheets in Hn. apply list_elem_of_In in Hn. simpl in Hn.
    destruct Hn as [<-|[<-|[<-|[<-|[]]]]].
    + by exists r1, d1, o1, l1, s1.
    + by exists r2, d2, o2, l2, s2.
    + by exists r3, d3, o3, l3, s3.
    + by exists r4, d4, o4, l4, s4.
  - intros r Hr. cbn [rows] in Hr. apply list_elem_of_fmap in Hr as (k & -> & Hk).
    cbn [fst]. rewrite drop_duplicates_elem, !elem_of_app in Hk.
    destruct Hk as [Hk|[Hk|[Hk|Hk]]].
    + apply M1 in Hk. rewrite V1 in Hk. apply list_elem_of_fmap in Hk as (v & -> & Hv).
      by exists "CHO", r1, l1, s1, v.
    + apply M2 in Hk. rewrite V2 in Hk. apply list_elem_of_fmap in Hk as (v & -> & Hv).
      by exists "CHT", r2, l2, s2, v.
    + apply M3 in Hk. rewrite V3 in Hk. apply list_elem_of_fmap in Hk as (v & -> & Hv).
      by exists "CHD", r3, l3, s3, v.
    + apply M4 in Hk. rewrite V4 in Hk. apply list_elem_of_fmap in Hk as (v & -> & Hv).
      by exists "CHE", r4, l4, s4, v.
Qed.

Lemma table_agents_map (cols : list string) (f : key F -> list Value) (ks : list (key F)) :
  table_agents (mkTable cols (map (fun k => (k, f k)) ks)) = map snd ks.
Proof. unfold table_agents. simpl. by rewrite map_map. Qed.

Lemma table_dates_map (cols : list string) (f : key F -> list Value) (ks : list (key F)) :
  table_dates (mkTable cols (map (fun k => (k, f k)) ks)) = map fst ks.
Proof. unfold table_dates. simpl. by rewrite map_map. Qed.

(** C5 (as the code has it).  [Pipeline(file).build_db()] evaluates to the
    KPI table alone, the table the object holds as [base].  The
    statistics are not returned: they are left in the [stats] dictionary
    of the object, which after a successful run holds exactly the row
    counts of the four loaded sheets ([cho_rows], [cht_rows], [chd_rows],
    [che_rows]), the number of rows of the table ([total_records]), the
    number of distinct agentmis values ([unique_agents]) and the text
    "<start> to <end>" of the least and the greatest date, each written
    as year-month-day ([date_range]). *)
Theorem C5_table_returned_stats_recorded (f : File) (t : Table F) (p' : Pipeline) :
  build_db (init f) = (Ok t, p') ->
  call_build_db f = Ok (PyFrame t) ∧
  base p' = Some t ∧
  ∃ d1 d2 d3 d4 start stop,
    cho p' = Some d1 ∧ cht p' = Some d2 ∧ chd p' = Some d3 ∧ che p' = Some d4 ∧
    strftime (series_min (table_dates t)) = Ok start ∧
    strftime (series_max (table_dates t)) = Ok stop ∧
    stats p' =
      <["total_records" := VInt (Z.of_nat (length (rows t)))]>
        (<["date_range" := VStr (start +:+ " to " +:+ stop)]>
          (<["unique_agents" := VInt (Z.of_nat (nunique (table_agents t)))]>
            (<["che_rows" := VInt (Z.of_nat (len d4))]>
              (<["chd_rows" := VInt (Z.of_nat (len d3))]>
                (<["cht_rows" := VInt (Z.of_nat (len d2))]>
                  (<["cho_rows" := VInt (Z.of_nat (len d1))]> ∅)))))).
Proof.
  intros Hb. split; [unfold call_build_db; by rewrite Hb|].
  apply build_db_table in Hb
    as (d1 & d2 & d3 & d4 & k1 & k2 & k3 & k4 & a1 & a2 & a3 & a4 & start & stop &
        Hm & E1 & E2 & E3 & E4 & K1 & K2 & K3 & K4 & A1 & A2 & A3 & A4 & Hs & He & -> & ->).
  split; [done|].
  exists d1, d2, d3, d4, start, stop. repeat (split; [done|]).
  unfold base_table in Hs, He. rewrite table_dates_map in Hs, He.
  rewrite !table_dates_map. split; [done|]. split; [done|].
  cbn [stats]. unfold base_stats, loaded_stats, base_table.
  rewrite !table_agents_map. cbn [rows]. by rewrite !length_map.
Qed.

(** *** When [build_db] returns *)

Lemma groupby_agg_total (df : DataFrame F) (spec : list named_agg) (ks : list (key F)) :
  keys_of df = Ok ks ->
  (∀ a : named_agg, a ∈ spec ->
     ∃ s, getitem df a.1.2 = Ok s ∧
          ∀ k, k ∈ group_keys ks -> ∃ v, a.2 (group ks k s) = Ok v) ->
  ∃ agg, groupby_agg df spec = Ok agg.
Proof.
  intros Hk Hspec. unfold groupby_agg. rewrite Hk. simpl.
  destruct (for_each_total
              (fun a : named_agg => s ← getitem df a.1.2; Ok (s, a.2)) spec) as [cols Hcols].
  { intros a Ha. destruct (Hspec a Ha) as (s & -> & _). by eexists. }
  rewrite Hcols. simpl.
  destruct (for_each_total
              (fun k => ms ← for_each (fun c : Series F * (Series F -> result Value) =>
                                         c.2 (group ks k c.1)) cols;
                        Ok (k, ms)) (group_keys ks)) as [rs Hrs].
  { intros k Hkin.
    destruct (for_each_total
                (fun c : Series F * (Series F -> result Value) => c.2 (group ks k c.1)) cols)
      as [ms ->]; [|by eexists].
    intros c Hc. apply for_each_Ok in Hcols.
    apply list_elem_of_lookup in Hc as [i Hi].
    destruct (Forall2_lookup_r _ _ _ _ _ Hcols Hi) as (a & Ha & Hac).
    assert (Hin : a ∈ spec) by (by eapply list_elem_of_lookup_2).
    destruct (Hspec a Hin) as (s & Hs & Hall).
    rewrite Hs in Hac. simpl in Hac. injection Hac as <-. simpl. by apply Hall. }
  rewrite Hrs. by eexists.
Qed.

Lemma aggregate_cho_run (f : File) d1 d2 d3 d4 b st agg :
  groupby_agg d1 cho_spec = Ok agg ->
  aggregate_cho (mkPipeline f (Some d1) (Some d2) (Some d3) (Some d4) (Some b) st)
  = (Ok (), mkPipeline f (Some d1) (Some d2) (Some d3) (Some d4) (Some (merge_left b agg)) st).
Proof.
  intros Ha. unfold aggregate_cho, merge_into_base, mbind, M_bind, get_frame, lift, set_base.
  simpl. by rewrite Ha.
Qed.

Lemma aggregate_cht_run (f : File) d1 d2 d3 d4 b st agg :
  groupby_agg d2 cht_spec = Ok agg ->
  aggregate_cht (mkPipeline f (Some d1) (Some d2) (Some d3) (Some d4) (Some b) st)
  = (Ok (), mkPipeline f (Some d1) (Some d2) (Some d3) (Some d4) (Some (merge_left b agg)) st).
Proof.
  intros Ha. unfold aggregate_cht, merge_into_base, mbind, M_bind, get_frame, lift, set_base.
  simpl. by rewrite Ha.
Qed.

Lemma aggregate_chd_run (f : File) d1 d2 d3 d4 b st agg :
  groupby_agg d3 chd_spec = Ok agg ->
  aggregate_chd (mkPipeline f (Some d1) (Some d2) (Some d3) (Some d4) (Some b) st)
  = (Ok (), mkPipeline f (Some d1) (Some d2) (Some d3) (Some d4) (Some (merge_left b agg)) st).
Proof.
  intros Ha. unfold aggregate_chd, merge_into_base, mbind, M_bind, get_frame, lift, set_base.
  simpl. by rewrite Ha.
Qed.

Lemma aggregate_che_run (f : File) d1 d2 d3 d4 b st agg :
  groupby_agg d4 che_spec = Ok agg ->
  aggregate_che (mkPipeline f (Some d1) (Some d2) (Some d3) (Some d4) (Some b) st)
  = (Ok (), mkPipeline f (Some d1) (Some d2) (Some d3) (Some d4) (Some (merge_left b agg)) st).
Proof.
  intros Ha. unfold aggregate_che, merge_into_base, mbind, M_bind, get_frame, lift, set_base.
  simpl. by rewrite Ha.
Qed.

Lemma build_base_run (f : File) d1 d2 d3 d4 b0 st k1 k2 k3 k4 start stop :
  keys_of d1 = Ok k1 -> keys_of d2 = Ok k2 -> keys_of d3 = Ok k3 -> keys_of d4 = Ok k4 ->
  strftime (series_min (table_dates (base_table (k1 ++ k2 ++ k3 ++ k4)))) = Ok start ->
  strftime (series_max (table_dates (base_table (k1 ++ k2 ++ k3 ++ k4)))) = Ok stop ->
  build_base (mkPipeline f (Some d1) (Some d2) (Some d3) (Some d4) b0 st)
  = (Ok (), mkPipeline f (Some d1) (Some d2) (Some d3) (Some d4)
              (Some (base_table (k1 ++ k2 ++ k3 ++ k4)))
              (base_stats (base_table (k1 ++ k2 ++ k3 ++ k4)) start stop st)).
Proof.
  intros K1 K2 K3 K4 Hs He.
  unfold build_base, mbind, M_bind, get_frame, lift, set_base, set_stat. simpl.
  rewrite K1, K2, K3, K4. simpl. rewrite Hs, He. reflexivity.
Qed.

(** A column with a date that is not missing has a least and a greatest
    date, and these have a [strftime]. *)
Lemma strftime_dates (vs : list Value) (t : Z) :
  VTime t ∈ vs ->
  (∃ s, strftime (series_min vs) = Ok s) ∧ (∃ s, strftime (series_max vs) = Ok s).
Proof.
  intros Hin.
  assert (Ht : t ∈ timestamps vs).
  { unfold timestamps. apply list_elem_of_omap. by exists (VTime t). }
  unfold series_min, series_max.
  destruct (timestamps vs) as [|t0 ts]; [inversion Ht|].
  split; by eexists.
Qed.

(** A valid workbook: [build_db] returns a table when the four sheets are
    present and load, each has its key columns and the columns its
    metrics are computed from, the sums of the Call-handling columns are
    defined, and some row of some sheet has a date. *)
Lemma build_db_returns (p : Pipeline) (d1 d2 d3 d4 : DataFrame F)
    (k1 k2 k3 k4 : list (key F)) :
  missing_sheets (sheet_names (file p)) = [] ->
  read_excel (file p) "CHO" ≫= standardize = Ok d1 ->
  read_excel (file p) "CHT" ≫= standardize = Ok d2 ->
  read_excel (file p) "CHD" ≫= standardize = Ok d3 ->
  read_excel (file p) "CHE" ≫= standardize = Ok d4 ->
  keys_of d1 = Ok k1 -> keys_of d2 = Ok k2 -> keys_of d3 = Ok k3 -> keys_of d4 = Ok k4 ->
  (∃ s, getitem d1 "status" = Ok s) ->
  (∀ c, c ∈ ["ans_vol"; "aht"; "art"] ->
     ∃ s, getitem d2 c = Ok s ∧
          ∀ k, k ∈ group_keys k2 -> ∃ v, series_sum (group k2 k s) = Ok v) ->
  (∀ c, c ∈ ["score"; "sloved"] -> ∃ s, getitem d3 c = Ok s) ->
  (∀ c, c ∈ ["final"; "rc1"; "rc2"; "rc"; "bc"; "cc"] -> ∃ s, getitem d4 c = Ok s) ->
  (∃ k t, k ∈ k1 ++ k2 ++ k3 ++ k4 ∧ k.1 = VTime t) ->
  ∃ t p', build_db p = (Ok t, p').
Proof.
  intros Hm E1 E2 E3 E4 K1 K2 K3 K4 C1 C2 C3 C4 (k & tm & Hk & Hkt).
  destruct (groupby_agg_total d1 cho_spec k1 K1) as [a1 A1].
  { intros a Ha. destruct C1 as [s Hs]. exists s.
    apply list_elem_of_In in Ha. simpl in Ha.
    destruct Ha as [<-|[<-|[]]]; (split; [exact Hs | intros; by eexists]). }
  destruct (groupby_agg_total d2 cht_spec k2 K2) as [a2 A2].
  { intros a Ha. apply list_elem_of_In in Ha. simpl in Ha.
    destruct Ha as [<-|[<-|[<-|[]]]]; apply C2; in_list. }
  destruct (groupby_agg_total d3 chd_spec k3 K3) as [a3 A3].
  { intros a Ha. apply list_elem_of_In in Ha. simpl in Ha.
    destruct Ha as [<-|[<-|[<-|[<-|[<-|[]]]]]];
      (edestruct C3 as [s Hs]; [|exists s; split; [exact Hs|]]; [in_list|]);
      intros; simpl; unfold csat, dsat; try destruct (is_numeric_dtype _); by eexists. }
  destruct (groupby_agg_total d4 che_spec k4 K4) as [a4 A4].
  { intros a Ha. apply list_elem_of_In in Ha. simpl in Ha.
    destruct Ha as [<-|[<-|[<-|[<-|[<-|[<-|[<-|[<-|[]]]]]]]]];
      (edestruct C4 as [s Hs]; [|exists s; split; [exact Hs|]]; [in_list|]);
      intros; by eexists. }
  destruct (strftime_dates (table_dates (base_table (k1 ++ k2 ++ k3 ++ k4))) tm)
    as ([start Hs] & [stop He]).
  { unfold base_table, table_dates. simpl. rewrite map_map. simpl.
    apply list_elem_of_fmap. exists k. split; [done|]. by apply drop_duplicates_elem. }
  do 2 eexists. unfold build_db.
  rewrite (M_bind_run _ _ _ _ _ (load_sheets_run p _ _ _ _ Hm E1 E2 E3 E4)).
  rewrite (M_bind_run _ _ _ _ _ (build_base_run _ _ _ _ _ _ _ _ _ _ _ _ _ K1 K2 K3 K4 Hs He)).
  rewrite (M_bind_run _ _ _ _ _ (aggregate_cho_run _ _ _ _ _ _ _ _ A1)).
  rewrite (M_bind_run _ _ _ _ _ (aggregate_cht_run _ _ _ _ _ _ _ _ A2)).
  rewrite (M_bind_run _ _ _ _ _ (aggregate_chd_run _ _ _ _ _ _ _ _ A3)).
  rewrite (M_bind_run _ _ _ _ _ (aggregate_che_run _ _ _ _ _ _ _ _ A4)).
  unfold mbind, M_bind, mret, M_ret, get_frame, set_base. simpl. reflexivity.
Qed.

End Properties.

(** ** The pipeline on concrete workbooks *)

Lemma demo_run :
  build_db (Demo.pipeline Demo.workbook) = (Ok Demo.expected, Demo.state_of Demo.workbook).
Proof. vm_compute. reflexivity. Qed.


Lemma leading_zeros_run :
  build_db (Demo.pipeline Demo.leading_zeros)
  = (Ok (Demo.table_of Demo.leading_zeros), Demo.state_of Demo.leading_zeros).
Proof. vm_compute. reflexivity. Qed.

(** The statistics left by the run on [Demo.workbook]. *)
Example demo_stats :
  stats (Demo.state_of Demo.workbook) !! "date_range"
  = Some (VStr "2024-01-01 to 2024-01-03") ∧
  stats (Demo.state_of Demo.workbook) !! "total_records" = Some (VInt 3) ∧
  stats (Demo.state_of Demo.workbook) !! "unique_agents" = Some (VInt 3) ∧
  stats (Demo.state_of Demo.workbook) !! "cho_rows" = Some (VInt 3).
Proof. vm_compute. repeat split. Qed.

(** The examples of the specification: one Attendance row with the
    status "No Show" gives [absent = 1]; two Satisfaction rows with the
    answers "Yes" and "No" give [solved_count = 1], [not_solved_count = 1]
    and [surveyed_count = 2]; a key that a sheet does not have gets 0. *)
Example demo_cells :
  ∃ r1 r2 r3, rows Demo.expected = [r1; r2; r3] ∧
    cell Demo.expected r1 "absent" = Some (VInt 1) ∧
    cell Demo.expected r2 "solved_count" = Some (VInt 1) ∧
    cell Demo.expected r2 "not_solved_count" = Some (VInt 1) ∧
    cell Demo.expected r2 "surveyed_count" = Some (VInt 2) ∧
    cell Demo.expected r2 "scheduled" = Some (VInt 1) ∧
    cell Demo.expected r3 "evaluated_count" = Some (VInt 0).
Proof. do 3 eexists. split; [reflexivity|]. repeat split. Qed.

(** C1 on [Demo.workbook]: three keys, each once. *)
Lemma C1_witness :
  build_db (Demo.pipeline Demo.workbook) = (Ok Demo.expected, Demo.state_of Demo.workbook) ∧
  NoDup (map fst (rows Demo.expected)) ∧
  map fst (rows Demo.expected)
  = [ (Demo.day 2024 1 1, VStr "A1"); (Demo.day 2024 1 2, VStr "A2");
      (Demo.day 2024 1 3, VStr "7") ].
Proof.
  split; [exact demo_run|].
  destruct (C1_one_row_per_key _ _ _ demo_run)
    as (d1 & d2 & d3 & d4 & k1 & k2 & k3 & k4 & _ & _ & _ & _ & _ & _ & _ & _ & _ & Hnd & _).
  split; [exact Hnd | reflexivity].
Defined.

(** C2 on [Demo.workbook]: every metric cell holds a value. *)
Lemma C2_witness :
  build_db (Demo.pipeline Demo.workbook) = (Ok Demo.expected, Demo.state_of Demo.workbook) ∧
  ∀ r c, r ∈ rows Demo.expected -> c ∈ columns Demo.expected ->
         c ∉ ["date"; "agentmis"] ->
         ∃ v, cell Demo.expected r c = Some v ∧ v ≠ VNaN.
Proof.
  split; [exact demo_run|].
  exact (proj1 (C2_metrics_filled _ _ _ demo_run)).
Defined.

(** C3 on a workbook without CHT and CHD: both are named. *)
Lemma C3_witness :
  (∃ s, s ∈ required_sheets ∧ s ∉ sheet_names (file (Demo.pipeline Demo.two_sheets))) ∧
  build_db (Demo.pipeline Demo.two_sheets)
  = (Raise (ValueError "Missing required sheets: CHT, CHD"), init Demo.two_sheets).
Proof.
  assert (Hm : ∃ s, s ∈ required_sheets ∧ s ∉ sheet_names (file (Demo.pipeline Demo.two_sheets))).
  { exists "CHT". split; [by right; left|].
    intros Hin. apply list_elem_of_In in Hin. simpl in Hin.
    destruct Hin as [Hin|[Hin|[]]]; discriminate Hin. }
  split; [exact Hm|].
  exact (proj1 (proj2 (C3_missing_sheets_fail_fast _ Hm))).
Defined.


(** C7 on [Demo.workbook]: the counts of every Satisfaction group add up
    to its number of rows. *)
Lemma C7_witness :
  build_db (Demo.pipeline Demo.workbook) = (Ok Demo.expected, Demo.state_of Demo.workbook) ∧
  ∃ d3 ks sloved,
    keys_of d3 = Ok ks ∧
    getitem d3 "sloved" = Ok sloved ∧
    ∀ r, r ∈ rows Demo.expected -> r.1 ∈ group_keys ks ->
      let texts := str_lower (group ks r.1 sloved) in
      (length (filter (fun s => s = "yes") texts)
       + length (filter (fun s => s ≠ "yes") texts))%nat
      = length (s_values (group ks r.1 sloved)).
Proof.
  split; [exact demo_run|].
  destruct (C7_solved_and_not_solved _ _ _ demo_run)
    as (d3 & ks & sloved & E & K & G & _ & Hall).
  exists d3, ks, sloved. split; [exact K|]. split; [exact G|].
  intros r Hr Hin. exact (proj2 (proj2 (Hall r Hr Hin))).
Defined.


(** C9 on [Demo.workbook]: agent A2 has a row without status and a day
    off on 2024-01-02, and is scheduled once. *)
Lemma C9_witness :
  build_db (Demo.pipeline Demo.workbook) = (Ok Demo.expected, Demo.state_of Demo.workbook) ∧
  ∃ d1 ks status,
    keys_of d1 = Ok ks ∧
    getitem d1 "status" = Ok status ∧
    status = mkSeries object_ [VStr "No Show"; VNaN; VStr "OFF"] ∧
    ∀ r, r ∈ rows Demo.expected -> r.1 ∈ group_keys ks ->
      cell Demo.expected r "scheduled"
      = Some (VInt (Z.of_nat (length
          (filter (fun v => isna v = true ∨ Py.lower (str_value object_ v) ≠ "off")
                  (s_values (group ks r.1 status)))))).
Proof.
  split; [exact demo_run|].
  destruct (C9_missing_status_is_scheduled _ _ _ demo_run)
    as (d1 & ks & status & E & K & G & Hall).
  exists d1, ks, status. split; [exact K|]. split; [exact G|].
  vm_compute in E. injection E as <-.
  vm_compute in G. injection G as <-.
  split; [reflexivity|].
  intros r Hr Hin. exact (proj1 (Hall r Hr Hin)).
Defined.

(** C10 on the workbook that has the four sheets with headers only. *)
Lemma C10_witness :
  missing_sheets (sheet_names (file (Demo.pipeline Demo.headers_only))) = [] ∧
  build_db (Demo.pipeline Demo.headers_only)
  = (Raise (ValueError "NaTType does not support strftime"),
     Demo.state_of Demo.headers_only) ∧
  ∃ e p', build_db (Demo.pipeline Demo.headers_only) = (Raise e, p').
Proof.
  split; [reflexivity|]. split; [vm_compute; reflexivity|].
  refine (proj1 (C10_empty_workbook_raises (Demo.pipeline Demo.headers_only) eq_refl _)).
  intros name Hn. unfold required_sheets in Hn.
  apply list_elem_of_In in Hn. simpl in Hn.
  destruct Hn as [<-|[<-|[<-|[<-|[]]]]];
    (eexists; split; [reflexivity|]; unfold no_rows; simpl; repeat constructor).
Defined.


(** What the reader makes of identifiers written as text: a column in
    which every text reads as a number is loaded as numbers, and a column
    with one text that does not is loaded as it is. *)
Example infer_numeric_texts :
  Excel.infer [VStr "00123"; VStr "007"]
  = mkSeries int64 [VInt 123; VInt 7 : value Demo.decimal].
Proof. reflexivity. Qed.

Example infer_mixed_texts :
  Excel.infer [VStr "00123"; VStr "A1"]
  = mkSeries object_ [VStr "00123"; VStr "A1" : value Demo.decimal].
Proof. reflexivity. Qed.

(** C4 as stated fails on [Demo.leading_zeros]: its four sheets hold the
    agent identifiers as the text cells "00123" and "007"; the table
    [build_db] returns has the agentmis values "123" and "7", and neither
    text of the sheets. *)
Lemma C4_counterexample :
  ¬ (∀ name sheet label cells x t p',
       (name, sheet) ∈ Demo.leading_zeros ->
       (label, cells) ∈ sheet ->
       normalize_label label = Ok (VStr "agentmis") ->
       VStr x ∈ cells ->
       build_db (Demo.pipeline Demo.leading_zeros) = (Ok t, p') ->
       VStr x ∈ table_agents t).
Proof.
  intros Hall.
  assert (Hin : (VStr "00123" : value Demo.decimal)
                ∈ table_agents (Demo.table_of Demo.leading_zeros)).
  { refine (Hall "CHO" _ (VStr "agentmis") [VStr "00123"; VStr "007"] "00123" _ _
              _ _ eq_refl _ leading_zeros_run).
    - by left.
    - by right; left.
    - by left. }
  apply list_elem_of_In in Hin. vm_compute in Hin.
  destruct Hin as [Hin|[Hin|[]]]; discriminate Hin.
Qed.

(** C4 as amended, on [Demo.workbook]: every agentmis of the table is the
    text of a loaded value. *)
Lemma C4_witness :
  build_db (Demo.pipeline Demo.workbook) = (Ok Demo.expected, Demo.state_of Demo.workbook) ∧
  ∀ r, r ∈ rows Demo.expected ->
    ∃ name raw label loaded v,
      name ∈ required_sheets ∧
      read_excel (file (Demo.pipeline Demo.workbook)) name = Ok raw ∧
      (label, loaded) ∈ df_columns raw ∧
      normalize_label label = Ok (VStr "agentmis") ∧
      v ∈ s_values loaded ∧
      r.1.2 = VStr (str_value (s_dtype loaded) v).
Proof.
  split; [exact demo_run|].
  exact (proj2 (proj2 (C4_agentmis_is_text_of_loaded_value _ _ _ demo_run))).
Defined.

(** C5 as stated fails on [Demo.workbook]: the call does not evaluate to
    a pair of a table and a statistics record. *)
Lemma C5_counterexample :
  ¬ (∃ t st, call_build_db Demo.workbook = Ok (PyPair (PyFrame t) (PyDict st))).
Proof.
  intros (t & st & Hcall). unfold call_build_db in Hcall.
  change (init Demo.workbook) with (Demo.pipeline Demo.workbook) in Hcall.
  rewrite demo_run in Hcall. discriminate Hcall.
Qed.

(** C5 as amended, on [Demo.workbook]. *)
Lemma C5_witness :
  build_db (init Demo.workbook) = (Ok Demo.expected, Demo.state_of Demo.workbook) ∧
  call_build_db Demo.workbook = Ok (PyFrame Demo.expected) ∧
  base (Demo.state_of Demo.workbook) = Some Demo.expected.
Proof.
  split; [exact demo_run|].
  destruct (C5_table_returned_stats_recorded Demo.workbook _ _ demo_run) as (Hc & Hb & _).
  split; [exact Hc | exact Hb].
Defined.

(** * Further properties of the pipeline *)

Section Aggregators.
Context {F File : Type} `{Scalars F} `{Pandas F File}.

#[local] Abbreviation Value := (value F).
#[local] Abbreviation Row := (key F * list (value F))%type.

Ltac inv_cols H :=
  repeat match type of H with
  | Forall2 _ (_ :: _) _ =>
      let c := fresh "c" in let Hc := fresh "Hc" in let Hf := fresh "Hf" in
      let Hfun := fresh "Hfun" in
      apply Forall2_cons_inv_l in H as (c & ? & [Hc Hfun] & Hf & ->); rename Hf into H
  | Forall2 _ [] _ => apply Forall2_nil_inv_l in H as ->
  end.

Lemma filter_length_le {A} (P : A -> Prop) `{∀ x, Decision (P x)} (l : list A) :
  (length (filter P l) ≤ length l)%nat.
Proof.
  induction l as [|x l IH]; simpl; [done|].
  rewrite filter_cons. destruct (decide (P x)); simpl; lia.
Qed.

Lemma filter_length_mono {A} (P Q : A -> Prop)
    `{∀ x, Decision (P x)} `{∀ x, Decision (Q x)} (l : list A) :
  (∀ x, P x -> Q x) -> (length (filter P l) ≤ length (filter Q l))%nat.
Proof.
  intros HPQ. induction l as [|x l IH]; simpl; [done|].
  rewrite !filter_cons. destruct (decide (P x)) as [Hp|Hp], (decide (Q x)) as [Hq|Hq];
    simpl; try lia. destruct Hq. by apply HPQ.
Qed.

Lemma filter_length_disjoint {A} (P Q R : A -> Prop)
    `{∀ x, Decision (P x)} `{∀ x, Decision (Q x)} `{∀ x, Decision (R x)} (l : list A) :
  (∀ x, P x -> R x) -> (∀ x, Q x -> R x) -> (∀ x, P x -> Q x -> False) ->
  (length (filter P l) + length (filter Q l) ≤ length (filter R l))%nat.
Proof.
  intros HP HQ HPQ. induction l as [|x l IH]; simpl; [done|].
  rewrite !filter_cons.
  destruct (decide (P x)) as [Hp|Hp], (decide (Q x)) as [Hq|Hq], (decide (R x)) as [Hr|Hr];
    simpl; try lia; exfalso; eauto.
Qed.

Lemma count_eq_text (target : string) (s : Series F) :
  count_eq target s = Ok (VInt (Z.of_nat (count_text target s))).
Proof.
  unfold count_eq, sum_bool, str_lower, count_text, text_in. rewrite map_map.
  by rewrite (count_true_filter (fun v => Py.lower (str_value (s_dtype s) v) = target)).
Qed.

(** The text of a missing value is neither "pass" nor "fail". *)
Lemma missing_text_eval (s : Series F) :
  text_in s VNaN ≠ "pass" ∧ text_in s VNaN ≠ "fail".
Proof. unfold text_in. by destruct (s_dtype s). Qed.


(** The row of the Evaluation aggregate for a group. *)
Lemma che_metrics (d4 : DataFrame F) (a4 : Table F) (ks : list (key F)) (k : key F) :
  groupby_agg d4 che_spec = Ok a4 -> keys_of d4 = Ok ks -> k ∈ group_keys ks ->
  ∃ final rc1 rc2 rc bc cc,
    getitem d4 "final" = Ok final ∧ getitem d4 "rc1" = Ok rc1 ∧
    getitem d4 "rc2" = Ok rc2 ∧ getitem d4 "rc" = Ok rc ∧
    getitem d4 "bc" = Ok bc ∧ getitem d4 "cc" = Ok cc ∧
    metrics_at a4 k =
      [ VInt (Z.of_nat (count_notna (group ks k final)));
        VInt (Z.of_nat (count_text "pass" (group ks k final)));
        VInt (Z.of_nat (count_text "fail" (group ks k final)));
        VInt (Z.of_nat (count_text "fail" (group ks k rc1)));
        VInt (Z.of_nat (count_text "fail" (group ks k rc2)));
        VInt (Z.of_nat (count_text "fail" (group ks k rc)));
        VInt (Z.of_nat (count_text "fail" (group ks k bc)));
        VInt (Z.of_nat (count_text "fail" (group ks k cc))) ].
Proof.
  intros Hg Hk Hin.
  destruct (metrics_at_group _ _ _ _ _ Hg Hk Hin) as (cols & Hcols & Hfor).
  unfold che_spec in Hcols. inv_cols Hcols.
  destruct c as [s1 f1], c0 as [s2 f2], c1 as [s3 f3], c2 as [s4 f4], c3 as [s5 f5],
    c4 as [s6 f6], c5 as [s7 f7], c6 as [s8 f8].
  simpl in *. subst.
  assert (s2 = s1) by congruence. assert (s3 = s1) by congruence. subst s2 s3.
  exists s1, s4, s5, s6, s7, s8. repeat (split; [done|]).
  unfold count_fail in Hfor. rewrite !count_eq_text in Hfor.
  unfold series_count in Hfor. by injection Hfor as <-.
Qed.

(** X1.  In every group of the Evaluation sheet the final table holds: in
    evaluated_count the number of final results that are not missing; in
    pass_eval_count and fail_eval_count the number of final results whose
    lower-case text is "pass" and "fail"; and in rc1_fail, rc2_fail, rc_fail,
    bc_fail and cc_fail the number of cells of the columns rc1, rc2, rc, bc
    and cc whose lower-case text is "fail". *)
Theorem che_counts (p p' : Pipeline) (t : Table F) :
  build_db p = (Ok t, p') ->
  ∃ d4 ks final rc1 rc2 rc bc cc,
    read_excel (file p) "CHE" ≫= standardize = Ok d4 ∧
    keys_of d4 = Ok ks ∧
    getitem d4 "final" = Ok final ∧ getitem d4 "rc1" = Ok rc1 ∧
    getitem d4 "rc2" = Ok rc2 ∧ getitem d4 "rc" = Ok rc ∧
    getitem d4 "bc" = Ok bc ∧ getitem d4 "cc" = Ok cc ∧
    ∀ r, r ∈ rows t -> r.1 ∈ group_keys ks ->
      let count n := Some (VInt (Z.of_nat n) : Value) in
      cell t r "evaluated_count" = count (count_notna (group ks r.1 final)) ∧
      cell t r "pass_eval_count" = count (count_text "pass" (group ks r.1 final)) ∧
      cell t r "fail_eval_count" = count (count_text "fail" (group ks r.1 final)) ∧
      cell t r "rc1_fail" = count (count_text "fail" (group ks r.1 rc1)) ∧
      cell t r "rc2_fail" = count (count_text "fail" (group ks r.1 rc2)) ∧
      cell t r "rc_fail" = count (count_text "fail" (group ks r.1 rc)) ∧
      cell t r "bc_fail" = count (count_text "fail" (group ks r.1 bc)) ∧
      cell t r "cc_fail" = count (count_text "fail" (group ks r.1 cc)).
Proof.
  intros Hb.
  apply build_db_table in Hb
    as (d1 & d2 & d3 & d4 & k1 & k2 & k3 & k4 & a1 & a2 & a3 & a4 & start & stop &
        Hm & E1 & E2 & E3 & E4 & K1 & K2 & K3 & K4 & A1 & A2 & A3 & A4 & Hs & He & -> & Hp).
  destruct (groupby_agg_Ok _ _ _ A4) as (ks' & cols & Hk' & Hcols & _).
  rewrite K4 in Hk'. injection Hk' as <-.
  unfold che_spec in Hcols. inv_cols Hcols.
  destruct c as [s1 f1], c0 as [s2 f2], c1 as [s3 f3], c2 as [s4 f4], c3 as [s5 f5],
    c4 as [s6 f6], c5 as [s7 f7], c6 as [s8 f8].
  simpl in Hc, Hc0, Hc1, Hc2, Hc3, Hc4, Hc5, Hc6.
  exists d4, k4, s1, s4, s5, s6, s7, s8. repeat (split; [done|]).
  intros r Hr Hin.
  destruct (final_cells _ _ _ _ _ _ _ _ _ A1 A2 A3 A4 r Hr) as (_ & _ & _ & C4).
  destruct (che_metrics _ _ _ _ A4 K4 Hin)
    as (x1 & x4 & x5 & x6 & x7 & x8 & G1 & G4 & G5 & G6 & G7 & G8 & Hmet).
  assert (x1 = s1) by congruence. assert (x4 = s4) by congruence.
  assert (x5 = s5) by congruence. assert (x6 = s6) by congruence.
  assert (x7 = s7) by congruence. assert (x8 = s8) by congruence. subst.
  cbn zeta.
  rewrite (C4 0%nat "evaluated_count" eq_refl), (C4 1%nat "pass_eval_count" eq_refl),
    (C4 2%nat "fail_eval_count" eq_refl), (C4 3%nat "rc1_fail" eq_refl),
    (C4 4%nat "rc2_fail" eq_refl), (C4 5%nat "rc_fail" eq_refl),
    (C4 6%nat "bc_fail" eq_refl), (C4 7%nat "cc_fail" eq_refl), Hmet.
  repeat split.
Qed.

(** A final result counts as passed or as failed, never as both, and only
    when it is not missing: in every series the number of "pass" texts
    plus the number of "fail" texts is at most the number of values that
    are not missing, which is at most the number of rows. *)
Lemma pass_fail_le_evaluated (s : Series F) :
  (count_text "pass" s + count_text "fail" s ≤ count_notna s)%nat ∧
  (count_notna s ≤ size s)%nat.
Proof.
  unfold count_text, count_notna, size. split; [|apply filter_length_le].
  apply filter_length_disjoint.
  - intros v Hv. destruct v; try done. by destruct (missing_text_eval s).
  - intros v Hv. destruct v; try done. by destruct (missing_text_eval s) as [_ ?].
  - intros v Hp Hf. rewrite Hp in Hf. discriminate Hf.
Qed.

(** X2.  In every row of the final table that belongs to a group of the
    Evaluation sheet, pass_eval_count + fail_eval_count is at most
    evaluated_count, and evaluated_count is at most the number of rows of the
    group. *)
Theorem che_bounds (p p' : Pipeline) (t : Table F) :
  build_db p = (Ok t, p') ->
  ∃ d4 ks final,
    read_excel (file p) "CHE" ≫= standardize = Ok d4 ∧
    keys_of d4 = Ok ks ∧
    getitem d4 "final" = Ok final ∧
    ∀ r, r ∈ rows t -> r.1 ∈ group_keys ks ->
      ∃ evaluated passed failed : nat,
        cell t r "evaluated_count" = Some (VInt (Z.of_nat evaluated)) ∧
        cell t r "pass_eval_count" = Some (VInt (Z.of_nat passed)) ∧
        cell t r "fail_eval_count" = Some (VInt (Z.of_nat failed)) ∧
        (passed + failed ≤ evaluated)%nat ∧
        (evaluated ≤ size (group ks r.1 final))%nat.
Proof.
  intros Hb.
  apply build_db_table in Hb
    as (d1 & d2 & d3 & d4 & k1 & k2 & k3 & k4 & a1 & a2 & a3 & a4 & start & stop &
        Hm & E1 & E2 & E3 & E4 & K1 & K2 & K3 & K4 & A1 & A2 & A3 & A4 & Hs & He & -> & Hp).
  destruct (groupby_agg_Ok _ _ _ A4) as (ks' & cols & Hk' & Hcols & _).
  rewrite K4 in Hk'. injection Hk' as <-.
  unfold che_spec in Hcols. inv_cols Hcols. destruct c as [final f1]. simpl in Hc.
  exists d4, k4, final. repeat (split; [done|]).
  intros r Hr Hin.
  destruct (final_cells _ _ _ _ _ _ _ _ _ A1 A2 A3 A4 r Hr) as (_ & _ & _ & C4).
  destruct (che_metrics _ _ _ _ A4 K4 Hin)
    as (x1 & x4 & x5 & x6 & x7 & x8 & G1 & _ & _ & _ & _ & _ & Hmet).
  assert (x1 = final) by congruence. subst x1.
  rewrite (C4 0%nat "evaluated_count" eq_refl), (C4 1%nat "pass_eval_count" eq_refl),
    (C4 2%nat "fail_eval_count" eq_refl), Hmet.
  cbn [lookup list_lookup fmap option_fmap option_map fillna0].
  do 3 eexists. repeat (split; [reflexivity|]).
  apply pass_fail_le_evaluated.
Qed.


(** X4.  Every absent row is a scheduled row: in every row of the final table
    that belongs to a group of the Attendance sheet, absent is at most
    scheduled, and scheduled is at most the number of rows of the group. *)
Theorem absent_le_scheduled (p p' : Pipeline) (t : Table F) :
  build_db p = (Ok t, p') ->
  ∃ d1 ks status,
    read_excel (file p) "CHO" ≫= standardize = Ok d1 ∧
    keys_of d1 = Ok ks ∧
    getitem d1 "status" = Ok status ∧
    ∀ r, r ∈ rows t -> r.1 ∈ group_keys ks ->
      ∃ absent scheduled : nat,
        cell t r "absent" = Some (VInt (Z.of_nat absent)) ∧
        cell t r "scheduled" = Some (VInt (Z.of_nat scheduled)) ∧
        absent = count_text "no show" (group ks r.1 status) ∧
        (absent ≤ scheduled)%nat ∧
        (scheduled ≤ size (group ks r.1 status))%nat.
Proof.
  intros Hb.
  apply build_db_table in Hb
    as (d1 & d2 & d3 & d4 & k1 & k2 & k3 & k4 & a1 & a2 & a3 & a4 & start & stop &
        Hm & E1 & E2 & E3 & E4 & K1 & K2 & K3 & K4 & A1 & A2 & A3 & A4 & Hs & He & -> & Hp).
  destruct (groupby_agg_Ok _ _ _ A1) as (ks' & cols & Hk' & Hcols & _).
  rewrite K1 in Hk'. injection Hk' as <-.
  unfold cho_spec in Hcols. inv_cols Hcols. destruct c as [status f1]. simpl in Hc.
  exists d1, k1, status. repeat (split; [done|]).
  intros r Hr Hin.
  destruct (final_cells _ _ _ _ _ _ _ _ _ A1 A2 A3 A4 r Hr) as (C1 & _).
  destruct (cho_metrics _ _ _ _ A1 K1 Hin) as (status' & Hst & Hmet).
  assert (status' = status) by congruence. subst status'.
  rewrite (C1 0%nat "absent" eq_refl), (C1 1%nat "scheduled" eq_refl), Hmet.
  cbn [lookup list_lookup fmap option_fmap option_map fillna0].
  unfold sum_bool, str_lower. rewrite !map_map. cbv beta.
  set (g := group k1 r.1 status).
  rewrite (count_true_filter (fun v => Py.lower (str_value (s_dtype g) v) = "no show")).
  rewrite (count_true_filter_not (fun v => Py.lower (str_value (s_dtype g) v) ∈ ["off"])).
  do 2 eexists. split; [reflexivity|]. split; [reflexivity|]. split; [reflexivity|].
  split; [|apply filter_length_le].
  apply filter_length_mono. intros v Hv Hoff.
  apply list_elem_of_singleton in Hoff. rewrite Hv in Hoff. discriminate Hoff.
Qed.

(** A score that counts as satisfied or as dissatisfied is a score that
    is not missing. *)
Lemma isin_notna (ns : list Z) (v : Value) : isin ns v = true -> notna v = true.
Proof. destruct v; try done. unfold isin. simpl. by induction ns. Qed.

Lemma value_eqb_notna (n : Z) (v : Value) : value_eqb v n = true -> notna v = true.
Proof. by destruct v. Qed.

(** X5.  In every row of the final table that belongs to a group of the
    Satisfaction sheet, surveyed_count is the number of scores of the group
    that are not missing; csat_count and dsat_count are each at most
    surveyed_count, and surveyed_count is at most the number of rows of the
    group. *)
Theorem surveyed_bounds (p p' : Pipeline) (t : Table F) :
  build_db p = (Ok t, p') ->
  ∃ d3 ks score,
    read_excel (file p) "CHD" ≫= standardize = Ok d3 ∧
    keys_of d3 = Ok ks ∧
    getitem d3 "score" = Ok score ∧
    ∀ r, r ∈ rows t -> r.1 ∈ group_keys ks ->
      ∃ surveyed satisfied dissatisfied : nat,
        cell t r "surveyed_count" = Some (VInt (Z.of_nat surveyed)) ∧
        cell t r "csat_count" = Some (VInt (Z.of_nat satisfied)) ∧
        cell t r "dsat_count" = Some (VInt (Z.of_nat dissatisfied)) ∧
        surveyed = count_notna (group ks r.1 score) ∧
        (satisfied ≤ surveyed)%nat ∧ (dissatisfied ≤ surveyed)%nat ∧
        (surveyed ≤ size (group ks r.1 score))%nat.
Proof.
  intros Hb.
  apply build_db_table in Hb
    as (d1 & d2 & d3 & d4 & k1 & k2 & k3 & k4 & a1 & a2 & a3 & a4 & start & stop &
        Hm & E1 & E2 & E3 & E4 & K1 & K2 & K3 & K4 & A1 & A2 & A3 & A4 & Hs & He & -> & Hp).
  destruct (groupby_agg_Ok _ _ _ A3) as (ks' & cols & Hk' & Hcols & _).
  rewrite K3 in Hk'. injection Hk' as <-.
  unfold chd_spec in Hcols. inv_cols Hcols. destruct c as [score f1]. simpl in Hc.
  exists d3, k3, score. repeat (split; [done|]).
  intros r Hr Hin.
  destruct (final_cells _ _ _ _ _ _ _ _ _ A1 A2 A3 A4 r Hr) as (_ & _ & C3 & _).
  destruct (chd_metrics _ _ _ _ A3 K3 Hin)
    as (score' & sloved & v4 & v5 & Hsc & Hsl & Hv4 & Hv5 & Hmet).
  assert (score' = score) by congruence. subst score'.
  rewrite (C3 0%nat "surveyed_count" eq_refl), (C3 3%nat "csat_count" eq_refl),
    (C3 4%nat "dsat_count" eq_refl), Hmet.
  cbn [lookup list_lookup fmap option_fmap option_map fillna0].
  unfold csat, dsat in Hv4, Hv5. unfold count_notna, size.
  destruct (is_numeric_dtype (s_dtype (group k3 r.1 score)));
    injection Hv4 as <-; injection Hv5 as <-.
  - do 3 eexists. repeat (split; [reflexivity|]).
    split; [apply filter_length_mono; intros v; apply (isin_notna [4; 5])|].
    split; [apply filter_length_mono; intros v; apply value_eqb_notna|].
    apply filter_length_le.
  - exists (length (filter (fun v => notna v = true) (s_values (group k3 r.1 score)))),
      0%nat, 0%nat.
    repeat (split; [reflexivity|]). split; [lia|]. split; [lia|]. apply filter_length_le.
Qed.

End Aggregators.


Section Steps.
Context {F File : Type} `{Scalars F} `{Pandas F File}.

#[local] Abbreviation Value := (value F).
#[local] Abbreviation Row := (key F * list (value F))%type.

(** X6.  [count_fail] counts the cells whose lower-case text is "fail": a
    missing cell is never counted, the count is at most the number of cells
    that are not missing, and the count of two series laid end to end is the
    sum of their counts. *)
Theorem count_fail_counts (d : dtype) (l1 l2 : list Value) :
  count_fail (mkSeries d (l1 ++ l2))
  = Ok (VInt (Z.of_nat (count_text "fail" (mkSeries d l1)
                        + count_text "fail" (mkSeries d l2)))) ∧
  count_fail (mkSeries d (VNaN :: l1)) = count_fail (mkSeries d l1) ∧
  (count_text "fail" (mkSeries d l1) ≤ count_notna (mkSeries d l1))%nat.
Proof.
  unfold count_fail. rewrite !count_eq_text. unfold count_text, count_notna, text_in.
  cbn [s_dtype s_values]. repeat split.
  - by rewrite filter_app, length_app.
  - rewrite filter_cons. destruct (decide _) as [Hf|Hf]; [|done].
    exfalso. by destruct d.
  - apply filter_length_mono. intros v Hv. destruct v; try done. by destruct d.
Qed.

(** X7.  [validate_sheets] returns [True] exactly when each of CHO, CHT, CHD
    and CHE is the name of a sheet of the workbook, letter for letter; other
    sheets and the order of the sheets do not matter.  In both outcomes it
    leaves the pipeline object as it was. *)
Theorem validate_sheets_iff (p : Pipeline) :
  (validate_sheets p = (Ok true, p) ↔
   ∀ s, s ∈ required_sheets -> s ∈ sheet_names (file p)) ∧
  snd (validate_sheets p) = p.
Proof.
  unfold validate_sheets.
  destruct (missing_sheets (sheet_names (file p))) as [|m ms] eqn:Hm; simpl.
  - split; [|done]. split; [|done]. intros _ s Hs.
    destruct (decide (s ∈ sheet_names (file p))) as [|Hn]; [done|].
    assert (Hin : s ∈ missing_sheets (sheet_names (file p)))
      by by apply missing_sheets_elem.
    rewrite Hm in Hin. inversion Hin.
  - split; [|done]. split; [done|]. intros Hall. exfalso.
    assert (Hin : m ∈ missing_sheets (sheet_names (file p))) by (rewrite Hm; by left).
    apply missing_sheets_elem in Hin as [Hreq Hn]. by apply Hn, Hall.
Qed.

(** X8.  When [load_sheets] raises, it has recorded no statistic and has not
    touched the base table: the row counts are written only after all four
    sheets have loaded. *)
Theorem load_sheets_raise_keeps_stats (p p' : Pipeline) (e : exn) :
  load_sheets p = (Raise e, p') ->
  stats p' = stats p ∧ base p' = base p ∧ file p' = file p.
Proof.
  unfold load_sheets, mbind, M_bind, validate_sheets, load, set_cho, set_cht,
    set_chd, set_che, get_frame, set_stat.
  simpl.
  destruct (missing_sheets _) eqn:Hm; [|by intros [= _ <-]].
  destruct (read_excel (file p) "CHO" ≫= standardize) as [d1|]; [|by intros [= _ <-]].
  simpl.
  destruct (read_excel (file p) "CHT" ≫= standardize) as [d2|]; [|by intros [= _ <-]].
  simpl.
  destruct (read_excel (file p) "CHD" ≫= standardize) as [d3|]; [|by intros [= _ <-]].
  simpl.
  destruct (read_excel (file p) "CHE" ≫= standardize) as [d4|]; [|by intros [= _ <-]].
  simpl. intros Hx. discriminate Hx.
Qed.

(** *** [standardize] *)

Lemma getitem_unique (df : DataFrame F) (c : string) (s : Series F) (q : Value * Series F) :
  getitem df c = Ok s -> q ∈ df_columns df -> has_label c q = true -> q.2 = s.
Proof.
  unfold getitem. intros Hg Hq Hl.
  assert (Hin : q ∈ filter (fun q => has_label c q = true) (df_columns df))
    by by apply list_elem_of_filter.
  destruct (filter _ (df_columns df)) as [|p0 [|p1 l]]; try done.
  injection Hg as <-. by apply list_elem_of_singleton in Hin as ->.
Qed.

(** What [df[c] = s'] does to the columns of a frame in which [c] names
    one column: that column gets [s'], the others stay. *)
Lemma setitem_columns (df : DataFrame F) (c : string) (s s' : Series F) :
  getitem df c = Ok s ->
  Forall2 (fun q q' : Value * Series F =>
             q'.1 = q.1 ∧
             (q.1 = VStr c -> q.2 = s ∧ q'.2 = s') ∧
             (q.1 ≠ VStr c -> q'.2 = q.2))
          (df_columns df) (df_columns (setitem df c s')).
Proof.
  intros Hg. pose proof (getitem_unique df c s) as Hu. specialize (fun q => Hu q Hg).
  unfold setitem. simpl. revert Hu. generalize (df_columns df). clear Hg.
  intros l. induction l as [|q l IH]; intros Hu; simpl; [constructor|].
  constructor.
  - destruct (has_label c q) eqn:Hl; simpl.
    + assert (Hq : q.1 = VStr c) by (by apply bool_decide_eq_true in Hl).
      split; [done|]. split; [|intros Hne; by destruct Hne].
      intros _. split; [|done]. apply Hu; [by left | done].
    + assert (Hq : q.1 ≠ VStr c) by (by apply bool_decide_eq_false in Hl).
      split; [done|]. split; [intros Heq; by destruct Hq | done].
  - apply IH. intros q' Hq'. apply Hu. by right.
Qed.

Lemma to_datetime_length (s s' : Series F) :
  to_datetime s = Ok s' -> length (s_values s') = length (s_values s) ∧ s_dtype s' = datetime64.
Proof.
  unfold to_datetime. intros Ht. apply bind_Ok in Ht as (vs & Hvs & Ht).
  injection Ht as <-. simpl. split; [|done]. by eapply for_each_length.
Qed.

Lemma to_datetime_value_shape (v v' : Value) :
  to_datetime_value v = Ok v' -> v' = VNaN ∨ ∃ t, v' = VTime t.
Proof.
  assert (Hns : ∀ n, timestamp_of_ns n = Ok v' -> v' = VNaN ∨ ∃ t, v' = VTime t).
  { intros n. unfold timestamp_of_ns.
    destruct (n =? Time.int64_min); [intros [= <-]; by left|].
    destruct (_ && _); [intros [= <-]; right; by eexists | done]. }
  destruct v; simpl; try (intros [= <-]; (by left) || (right; by eexists)); try apply Hns; try done.
  destruct (parse_datetime s) as [[t|]|]; [| |done]; intros [= <-];
    [right; by eexists | by left].
Qed.

(** Renaming the columns keeps every column and gives it its normalized
    label. *)
Lemma set_columns_columns (raw : DataFrame F) (labels : list Value) :
  for_each normalize_label (map fst (df_columns raw)) = Ok labels ->
  Forall2 (fun q q' : Value * Series F => normalize_label q.1 = Ok q'.1 ∧ q'.2 = q.2)
          (df_columns raw) (df_columns (set_columns raw labels)).
Proof.
  intros Hl. apply for_each_Ok in Hl. unfold set_columns. simpl.
  revert labels Hl. induction (df_columns raw) as [|q l IH]; intros labels Hl; simpl in *.
  - apply Forall2_nil_inv_l in Hl as ->. constructor.
  - apply Forall2_cons_inv_l in Hl as (y & ys & Hy & Hys & ->). simpl.
    constructor; [done | by apply IH].
Qed.

Lemma contains_false (df : DataFrame F) (c : string) (q : Value * Series F) :
  contains df c = false -> q ∈ df_columns df -> q.1 ≠ VStr c.
Proof.
  unfold contains. intros Hc Hq Heq.
  assert (Ht : existsb (has_label c) (df_columns df) = true).
  { apply existsb_exists. exists q.
    split; [by apply list_elem_of_In | by apply bool_decide_eq_true]. }
  congruence.
Qed.

(** The step [if c in df.columns: df[c] = f(df[c])]. *)
Lemma rewrite_column (df df' : DataFrame F) (c : string)
    (f : Series F -> result (Series F)) :
  (if contains df c then s ← getitem df c; s' ← f s; Ok (setitem df c s') else Ok df)
  = Ok df' ->
  Forall2 (fun q q' : Value * Series F =>
             q'.1 = q.1 ∧
             (q.1 = VStr c -> f q.2 = Ok q'.2) ∧
             (q.1 ≠ VStr c -> q'.2 = q.2))
          (df_columns df) (df_columns df').
Proof.
  destruct (contains df c) eqn:Hc.
  - intros Hs. apply bind_Ok in Hs as (s & Hg & Hs). apply bind_Ok in Hs as (s' & Hf & Hs).
    injection Hs as <-. eapply Forall2_impl; [apply (setitem_columns _ _ _ s' Hg)|].
    intros q q' (Hl & Hsame & Hother). split; [done|]. split; [|done].
    intros Hq. destruct (Hsame Hq) as [-> ->]. done.
  - intros [= <-]. apply Forall_Forall2_diag. apply Forall_forall. intros q Hq.
    split; [done|]. split; [|done]. intros Heq. by destruct (contains_false _ _ _ Hc Hq).
Qed.

Lemma Forall2_compose {A B C} (P : A -> B -> Prop) (Q : B -> C -> Prop)
    (l : list A) (k : list B) (m : list C) :
  Forall2 P l k -> Forall2 Q k m -> Forall2 (fun x z => ∃ y, P x y ∧ Q y z) l m.
Proof.
  intros HP HQ. eapply Forall2_trans; [|exact HP|exact HQ].
  intros x y z Hxy Hyz. by exists y.
Qed.

Lemma standardize_Forall2 (raw d : DataFrame F) :
  standardize raw = Ok d -> Forall2 standardized (df_columns raw) (df_columns d).
Proof.
  unfold standardize. intros Hs.
  apply bind_Ok in Hs as (labels & Hl & Hs). cbn zeta in Hs.
  apply bind_Ok in Hs as (df1 & H1' & Hs).
  apply bind_Ok in Hs as (df2 & H2' & Hs). injection Hs as <-.
  apply set_columns_columns in Hl.
  pose proof (rewrite_column _ _ _ to_datetime H1') as Hd.
  pose proof (rewrite_column _ _ _ (fun s => Ok (astype_str s)) H2') as Ha.
  clear H1' H2'.
  pose proof (Forall2_compose _ _ _ _ _ Hl (Forall2_compose _ _ _ _ _ Hd Ha)) as Hall.
  eapply Forall2_impl; [exact Hall|]. clear Hall Hl Hd Ha.
  intros q q2 (q0 & [Hn Hq0] & q1 & (L1 & D1 & O1) & (L2 & D2 & O2)).
  unfold standardized. rewrite L2, L1.
  assert (Hda : VStr "date" ≠ (VStr "agentmis" : Value)) by done.
  destruct (decide (q0.1 = VStr "date")) as [Hdate|Hdate].
  - assert (Hq2 : q2.2 = q1.2) by (apply O2; rewrite L1, Hdate; done).
    specialize (D1 Hdate). rewrite Hq0 in D1. rewrite Hq2.
    split; [done|]. split; [by apply to_datetime_length in D1 as [? _]|].
    split; [done|]. split; [|done]. intros Heq. rewrite Hdate in Heq. done.
  - specialize (O1 Hdate). rewrite Hq0 in O1.
    destruct (decide (q0.1 = VStr "agentmis")) as [Hag|Hag].
    + assert (Hq2 : q2.2 = astype_str q.2).
      { rewrite <- O1. assert (Hok : Ok (astype_str q1.2) = Ok q2.2)
          by (apply D2; by rewrite L1). by injection Hok. }
      rewrite Hq2. split; [done|]. split; [by unfold astype_str; simpl; rewrite length_map|].
      split; [done|]. split; [done|]. done.
    + assert (Hq2 : q2.2 = q.2) by (rewrite <- O1; apply O2; by rewrite L1).
      rewrite Hq2. repeat split; done.
Qed.

(** X9.  [standardize] keeps the columns of a frame: as many columns, in the
    same order, each with as many rows, under its label in lower case and
    stripped.  Only two columns change: date holds what [pd.to_datetime] gives
    for the loaded column, and agentmis the [str] text of the loaded cells.
    The frame keeps its number of rows. *)
Theorem standardize_keeps_columns (raw d : DataFrame F) :
  standardize raw = Ok d ->
  Forall2 standardized (df_columns raw) (df_columns d) ∧ len d = len raw.
Proof.
  intros Hs. apply standardize_Forall2 in Hs. split; [done|].
  unfold len. destruct Hs as [|q q' l l' (_ & Hlen & _) _]; [done|].
  by destruct q, q'.
Qed.

(** The column a standardized frame holds under a label comes from a
    column of the loaded frame. *)
Lemma standardized_column (raw d : DataFrame F) (c : string) (s : Series F) :
  standardize raw = Ok d -> getitem d c = Ok s ->
  ∃ q, q ∈ df_columns raw ∧ standardized q (VStr c, s).
Proof.
  intros Hs Hg. apply standardize_Forall2 in Hs.
  apply getitem_elem, list_elem_of_lookup in Hg as [i Hi].
  destruct (Forall2_lookup_r _ _ _ _ _ Hs Hi) as (q & Hq & Hst).
  exists q. split; [by eapply list_elem_of_lookup_2 | done].
Qed.

(** X10.  After [standardize] the date column is a datetime column, each of
    its cells a timestamp or missing, and the agentmis column is a column of
    texts, none of its cells missing. *)
Theorem standardize_key_types (raw d : DataFrame F) :
  standardize raw = Ok d ->
  (∀ s, getitem d "date" = Ok s ->
     s_dtype s = datetime64 ∧ ∀ v, v ∈ s_values s -> v = VNaN ∨ ∃ t, v = VTime t) ∧
  (∀ s, getitem d "agentmis" = Ok s ->
     s_dtype s = object_ ∧ ∀ v, v ∈ s_values s -> ∃ x, v = VStr x).
Proof.
  intros Hs.
  split; intros s Hg;
    destruct (standardized_column _ _ _ _ Hs Hg) as (q & _ & _ & _ & Hd & Ha & _);
    simpl in *.
  - specialize (Hd eq_refl). destruct (to_datetime_length _ _ Hd) as [_ Hty].
    split; [done|]. intros v Hv.
    unfold to_datetime in Hd. apply bind_Ok in Hd as (vs & Hvs & Hd). injection Hd as <-.
    simpl in Hv. apply for_each_Ok in Hvs. apply list_elem_of_lookup in Hv as [i Hi].
    destruct (Forall2_lookup_r _ _ _ _ _ Hvs Hi) as (v0 & _ & Hv0).
    by eapply to_datetime_value_shape.
  - rewrite (Ha eq_refl). split; [done|]. intros v Hv. simpl in Hv.
    apply list_elem_of_fmap in Hv as (v0 & -> & _). by eexists.
Qed.

(** *** [standardize] twice *)

Lemma lower_ascii_idemp (c : ascii) : Py.lower_ascii (Py.lower_ascii c) = Py.lower_ascii c.
Proof. destruct c as [[] [] [] [] [] [] [] []]; reflexivity. Qed.

Lemma is_space_lower (c : ascii) : Py.is_space (Py.lower_ascii c) = Py.is_space c.
Proof. destruct c as [[] [] [] [] [] [] [] []]; reflexivity. Qed.

Lemma lower_idemp (s : string) : Py.lower (Py.lower s) = Py.lower s.
Proof. induction s as [|c s IH]; simpl; [done|]. by rewrite lower_ascii_idemp, IH. Qed.

Lemma rstrip_cons (c : ascii) (s : string) :
  Py.rstrip (String c s)
  = match Py.rstrip s with
    | EmptyString => if Py.is_space c then EmptyString else String c EmptyString
    | String a r => String c (String a r)
    end.
Proof. reflexivity. Qed.

Lemma lower_lstrip (s : string) : Py.lower (Py.lstrip s) = Py.lstrip (Py.lower s).
Proof.
  induction s as [|c s IH]; [done|].
  cbn [Py.lstrip Py.lower]. rewrite is_space_lower. by destruct (Py.is_space c).
Qed.

Lemma lower_rstrip (s : string) : Py.lower (Py.rstrip s) = Py.rstrip (Py.lower s).
Proof.
  induction s as [|c s IH]; [done|].
  cbn [Py.lower]. rewrite !rstrip_cons, <- IH, is_space_lower.
  destruct (Py.rstrip s); [by destruct (Py.is_space c) | done].
Qed.

Lemma rstrip_idemp (s : string) : Py.rstrip (Py.rstrip s) = Py.rstrip s.
Proof.
  induction s as [|c s IH]; [done|].
  rewrite rstrip_cons. destruct (Py.rstrip s) as [|a r] eqn:E.
  - destruct (Py.is_space c) eqn:Hc; [done|]. rewrite rstrip_cons. simpl. by rewrite Hc.
  - rewrite rstrip_cons, IH. done.
Qed.

Lemma lstrip_rstrip_lstrip (s : string) :
  Py.lstrip (Py.rstrip (Py.lstrip s)) = Py.rstrip (Py.lstrip s).
Proof.
  induction s as [|c s IH]; [done|].
  cbn [Py.lstrip]. destruct (Py.is_space c) eqn:Hc; [done|].
  rewrite rstrip_cons.
  destruct (Py.rstrip s); cbn [Py.lstrip]; rewrite ?Hc; cbn [Py.lstrip]; rewrite ?Hc; done.
Qed.

Lemma strip_idemp (s : string) : Py.strip (Py.strip s) = Py.strip s.
Proof. unfold Py.strip. by rewrite lstrip_rstrip_lstrip, rstrip_idemp. Qed.

Lemma lower_strip (s : string) : Py.lower (Py.strip s) = Py.strip (Py.lower s).
Proof. unfold Py.strip. by rewrite lower_rstrip, lower_lstrip. Qed.

(** A normalized label is its own normal form. *)
Lemma normalize_label_idemp (l l' : Value) :
  normalize_label l = Ok l' -> normalize_label l' = Ok l'.
Proof.
  destruct l; try done. intros [= <-]. simpl.
  by rewrite lower_strip, lower_idemp, strip_idemp.
Qed.

Lemma for_each_id {A} (f : A -> result A) (l : list A) :
  Forall (fun x => f x = Ok x) l -> for_each f l = Ok l.
Proof. induction 1 as [|x l Hx _ IH]; simpl; [done|]. by rewrite Hx, IH. Qed.

Lemma to_datetime_idemp (s s' : Series F) :
  to_datetime s = Ok s' -> to_datetime s' = Ok s'.
Proof.
  intros Ht. unfold to_datetime in Ht. apply bind_Ok in Ht as (vs & Hvs & Ht).
  injection Ht as <-. unfold to_datetime. simpl.
  rewrite for_each_id; [done|].
  apply for_each_Ok in Hvs. apply Forall_forall. intros v Hv.
  apply list_elem_of_lookup in Hv as [i Hi].
  destruct (Forall2_lookup_r _ _ _ _ _ Hvs Hi) as (v0 & _ & Hv0).
  by destruct (to_datetime_value_shape _ _ Hv0) as [->|[t ->]].
Qed.

Lemma astype_str_idemp (s : Series F) : astype_str (astype_str s) = astype_str s.
Proof. unfold astype_str. simpl. by rewrite map_map. Qed.

Lemma setitem_same (df : DataFrame F) (c : string) (s : Series F) :
  getitem df c = Ok s -> setitem df c s = df.
Proof.
  intros Hg. pose proof (getitem_unique df c s) as Hu. specialize (fun q => Hu q Hg).
  unfold setitem. destruct df as [cols]. simpl in *. f_equal.
  rewrite <- (map_id cols) at 2. apply map_ext_in. intros q Hq.
  destruct (has_label c q) eqn:Hl; [|done].
  rewrite <- (Hu q); [by destruct q | by apply list_elem_of_In | done].
Qed.

Lemma contains_setitem (df : DataFrame F) (c c' : string) (s' : Series F) :
  contains (setitem df c' s') c = contains df c.
Proof.
  unfold contains, setitem. simpl. induction (df_columns df) as [|q l IH]; [done|].
  simpl. by rewrite has_label_setitem, IH.
Qed.

(** What the step [if c in df.columns: df[c] = f(df[c])] leaves under the
    label [c] and under the other labels. *)
Lemma rewrite_column_getitem (df df' : DataFrame F) (c : string)
    (f : Series F -> result (Series F)) :
  (if contains df c then s ← getitem df c; s' ← f s; Ok (setitem df c s') else Ok df)
  = Ok df' ->
  (∀ c', contains df' c' = contains df c') ∧
  (contains df c = true -> ∃ s s', f s = Ok s' ∧ getitem df' c = Ok s') ∧
  (∀ c', c' ≠ c -> getitem df' c' = getitem df c').
Proof.
  destruct (contains df c) eqn:Hc.
  - intros Hs. apply bind_Ok in Hs as (s & Hg & Hs). apply bind_Ok in Hs as (s' & Hf & Hs).
    injection Hs as <-. split; [intros c'; apply contains_setitem|].
    split; [intros _; exists s, s'; split; [done | by eapply getitem_setitem_same]|].
    intros c' Hne. by apply getitem_setitem_other.
  - intros [= <-]. split; [done|]. split; [done|]. done.
Qed.

(** X11.  [standardize] changes nothing in a frame it has standardized. *)
Theorem standardize_idempotent (raw d : DataFrame F) :
  standardize raw = Ok d -> standardize d = Ok d.
Proof.
  intros Hs. pose proof (standardize_Forall2 _ _ Hs) as Hall.
  unfold standardize in Hs.
  apply bind_Ok in Hs as (labels & Hl & Hs). cbn zeta in Hs.
  apply bind_Ok in Hs as (df1 & H1' & Hs).
  apply bind_Ok in Hs as (df2 & H2' & Hs). injection Hs as <-.
  destruct (rewrite_column_getitem _ _ _ to_datetime H1') as (C1 & D1 & O1).
  destruct (rewrite_column_getitem _ _ _ (fun s => Ok (astype_str s)) H2') as (C2 & D2 & O2).
  clear H1' H2' Hl.
  assert (Hdate : contains df2 "date" = true ->
            ∃ s, getitem df2 "date" = Ok s ∧ to_datetime s = Ok s).
  { intros Hc. rewrite C2, C1 in Hc. destruct (D1 Hc) as (s & s' & Ht & Hg').
    exists s'. rewrite O2 by done. split; [done | by eapply to_datetime_idemp]. }
  assert (Hagent : contains df2 "agentmis" = true ->
            ∃ s, getitem df2 "agentmis" = Ok s ∧ astype_str s = s).
  { intros Hc. rewrite C2 in Hc. destruct (D2 Hc) as (s & s' & Ht & Hg').
    exists s'. split; [done|]. injection Ht as <-. apply astype_str_idemp. }
  clear C1 D1 O1 C2 D2 O2.
  unfold standardize.
  rewrite (for_each_id normalize_label (map fst (df_columns df2))).
  2:{ apply Forall_forall. intros l Hin. apply list_elem_of_fmap in Hin as (q' & -> & Hq').
      apply list_elem_of_lookup in Hq' as [i Hi].
      destruct (Forall2_lookup_r _ _ _ _ _ Hall Hi) as (q & _ & Hn & _).
      by eapply normalize_label_idemp. }
  cbn zeta. simpl.
  assert (Hset : set_columns df2 (map fst (df_columns df2)) = df2).
  { unfold set_columns. destruct df2 as [cols]. simpl. f_equal. apply zip_fst_snd. }
  rewrite Hset.
  destruct (contains df2 "date") eqn:Hcd.
  - destruct (Hdate eq_refl) as (s & Hg & Ht). rewrite Hg. simpl. rewrite Ht. simpl.
    rewrite (setitem_same _ _ _ Hg).
    destruct (contains df2 "agentmis") eqn:Hca; [|done].
    destruct (Hagent eq_refl) as (a & Hga & Ha). rewrite Hga. simpl.
    by rewrite Ha, (setitem_same _ _ _ Hga).
  - simpl. destruct (contains df2 "agentmis") eqn:Hca; [|done].
    destruct (Hagent eq_refl) as (a & Hga & Ha). rewrite Hga. simpl.
    by rewrite Ha, (setitem_same _ _ _ Hga).
Qed.

End Steps.


Section Flow.
Context {F File : Type} `{Scalars F} `{Pandas F File}.

#[local] Abbreviation Value := (value F).
#[local] Abbreviation Row := (key F * list (value F))%type.

(** *** Rows without a date *)

(** A key that belongs to no group of a sheet gets missing values from
    that sheet's aggregate, which the final [fillna] turns into 0. *)
Lemma ungrouped_cells (t : Table F) (df : DataFrame F) (spec : list named_agg)
    (agg : Table F) (ks : list (key F)) (k : key F) (r : Row) :
  groupby_agg df spec = Ok agg -> keys_of df = Ok ks -> k ∉ group_keys ks ->
  (∀ i c, spec_names spec !! i = Some c -> cell t r c = fillna0 <$> metrics_at agg k !! i) ->
  ∀ c, c ∈ spec_names spec -> cell t r c = Some (VInt 0).
Proof.
  intros Hg Hk Hin Hcell c Hc.
  apply list_elem_of_lookup in Hc as [i Hi].
  rewrite (Hcell i c Hi), (metrics_at_absent _ _ _ _ _ Hg Hk Hin).
  apply lookup_lt_Some in Hi. unfold spec_names in Hi. rewrite length_map in Hi.
  by rewrite lookup_replicate_2.
Qed.

Lemma undated_ungrouped (ks : list (key F)) (k : key F) :
  k.1 = VNaN -> k ∉ group_keys ks.
Proof.
  intros Hk Hin. apply group_keys_elem in Hin as (_ & Hn & _).
  rewrite Hk in Hn. discriminate Hn.
Qed.

(** X12.  A row of the final table whose date is missing holds 0 in every
    metric column: the source rows without a date give the table a row, and
    [groupby] leaves them out of every count and sum. *)
Theorem undated_rows_hold_zeros (p p' : Pipeline) (t : Table F) :
  build_db p = (Ok t, p') ->
  ∀ r, r ∈ rows t -> r.1.1 = VNaN ->
    ∀ c, c ∈ all_metric_cols -> cell t r c = Some (VInt 0).
Proof.
  intros Hb r Hr Hdate c Hc.
  apply build_db_table in Hb
    as (d1 & d2 & d3 & d4 & k1 & k2 & k3 & k4 & a1 & a2 & a3 & a4 & start & stop &
        Hm & E1 & E2 & E3 & E4 & K1 & K2 & K3 & K4 & A1 & A2 & A3 & A4 & Hs & He & -> & Hp).
  destruct (final_cells _ _ _ _ _ _ _ _ _ A1 A2 A3 A4 r Hr) as (C1 & C2 & C3 & C4).
  change all_metric_cols
    with (spec_names (@cho_spec F H) ++ spec_names (@cht_spec F File H0)
          ++ spec_names (@chd_spec F H) ++ spec_names (@che_spec F H)) in Hc.
  rewrite !elem_of_app in Hc. destruct Hc as [Hc|[Hc|[Hc|Hc]]].
  - exact (ungrouped_cells _ _ _ _ _ _ r A1 K1 (undated_ungrouped k1 _ Hdate) C1 c Hc).
  - exact (ungrouped_cells _ _ _ _ _ _ r A2 K2 (undated_ungrouped k2 _ Hdate) C2 c Hc).
  - exact (ungrouped_cells _ _ _ _ _ _ r A3 K3 (undated_ungrouped k3 _ Hdate) C3 c Hc).
  - exact (ungrouped_cells _ _ _ _ _ _ r A4 K4 (undated_ungrouped k4 _ Hdate) C4 c Hc).
Qed.

(** *** When [build_db] returns *)

(** What a successful aggregation went through: every source column is
    there, and every reducer gave a value on every group. *)
Lemma groupby_agg_columns (df : DataFrame F) (spec : list named_agg) (agg : Table F)
    (ks : list (key F)) :
  groupby_agg df spec = Ok agg -> keys_of df = Ok ks ->
  ∀ a : named_agg, a ∈ spec ->
    ∃ s, getitem df a.1.2 = Ok s ∧
         ∀ k, k ∈ group_keys ks -> ∃ v, a.2 (group ks k s) = Ok v.
Proof.
  intros Hg Hk a Ha.
  apply groupby_agg_Ok in Hg as (ks' & cols & Hk' & Hcols & _ & Hrows).
  rewrite Hk in Hk'. injection Hk' as <-.
  apply list_elem_of_lookup in Ha as [i Hi].
  destruct (Forall2_lookup_l _ _ _ _ _ Hcols Hi) as (c & Hc & Hget & Hfun).
  exists c.1. split; [done|]. intros k Hin.
  apply list_elem_of_lookup in Hin as [j Hj].
  destruct (Forall2_lookup_l _ _ _ _ _ Hrows Hj) as (r & Hr & _ & Hfor).
  apply for_each_Ok in Hfor.
  destruct (Forall2_lookup_l _ _ _ _ _ Hfor Hc) as (v & _ & Hv).
  exists v. by rewrite <- Hfun.
Qed.

(** A date range needs a date: when the least date of a column has a
    [strftime], some cell of the column is a timestamp. *)
Lemma strftime_min_dated (vs : list Value) (s : string) :
  strftime (series_min vs) = Ok s -> ∃ t, VTime t ∈ vs.
Proof.
  unfold series_min. destruct (timestamps vs) as [|t0 ts] eqn:Ht; [done|]. intros _.
  assert (Hin : t0 ∈ timestamps vs) by (rewrite Ht; by left).
  unfold timestamps in Hin. apply list_elem_of_omap in Hin as (v & Hv & Hvt).
  exists t0. by destruct v; simplify_eq.
Qed.

Lemma no_missing_sheets (available : list string) :
  missing_sheets available = [] ↔ ∀ s, s ∈ required_sheets -> s ∈ available.
Proof.
  split.
  - intros Hm s Hs. destruct (decide (s ∈ available)) as [|Hn]; [done|].
    assert (Hin : s ∈ missing_sheets available) by by apply missing_sheets_elem.
    rewrite Hm in Hin. inversion Hin.
  - intros Hall. destruct (missing_sheets available) as [|m ms] eqn:Hm; [done|].
    assert (Hin : m ∈ missing_sheets available) by (rewrite Hm; by left).
    apply missing_sheets_elem in Hin as [Hreq Hn]. destruct Hn. by apply Hall.
Qed.

(** X13.  [build_db] returns a table exactly when: the workbook has the four
    sheets; each of them loads and standardizes; each has one date and one
    agentmis column; CHO has a status column, CHT the columns ans_vol, aht and
    art with a ['sum'] on every group, CHD the columns score and sloved, CHE
    the columns final, rc1, rc2, rc, bc and cc; and some row of some sheet has
    a date. *)
Theorem build_db_returns_iff (p : Pipeline) :
  (∃ t p', build_db p = (Ok t, p')) ↔
  (∀ s, s ∈ required_sheets -> s ∈ sheet_names (file p)) ∧
  ∃ d1 d2 d3 d4 k1 k2 k3 k4,
    read_excel (file p) "CHO" ≫= standardize = Ok d1 ∧
    read_excel (file p) "CHT" ≫= standardize = Ok d2 ∧
    read_excel (file p) "CHD" ≫= standardize = Ok d3 ∧
    read_excel (file p) "CHE" ≫= standardize = Ok d4 ∧
    keys_of d1 = Ok k1 ∧ keys_of d2 = Ok k2 ∧ keys_of d3 = Ok k3 ∧ keys_of d4 = Ok k4 ∧
    (∃ s, getitem d1 "status" = Ok s) ∧
    (∀ c, c ∈ ["ans_vol"; "aht"; "art"] ->
       ∃ s, getitem d2 c = Ok s ∧
            ∀ k, k ∈ group_keys k2 -> ∃ v, series_sum (group k2 k s) = Ok v) ∧
    (∀ c, c ∈ ["score"; "sloved"] -> ∃ s, getitem d3 c = Ok s) ∧
    (∀ c, c ∈ ["final"; "rc1"; "rc2"; "rc"; "bc"; "cc"] -> ∃ s, getitem d4 c = Ok s) ∧
    (∃ k t, k ∈ k1 ++ k2 ++ k3 ++ k4 ∧ k.1 = VTime t).
Proof.
  split.
  - intros (t & p' & Hb).
    apply build_db_table in Hb
      as (d1 & d2 & d3 & d4 & k1 & k2 & k3 & k4 & a1 & a2 & a3 & a4 & start & stop &
          Hm & E1 & E2 & E3 & E4 & K1 & K2 & K3 & K4 & A1 & A2 & A3 & A4 & Hs & He & _ & _).
    split; [by apply no_missing_sheets|].
    exists d1, d2, d3, d4, k1, k2, k3, k4. repeat (split; [done|]).
    pose proof (groupby_agg_columns _ _ _ _ A1 K1) as G1.
    pose proof (groupby_agg_columns _ _ _ _ A2 K2) as G2.
    pose proof (groupby_agg_columns _ _ _ _ A3 K3) as G3.
    pose proof (groupby_agg_columns _ _ _ _ A4 K4) as G4.
    split; [|split; [|split; [|split]]].
    + destruct (G1 ("absent", "status", count_eq "no show")) as (s & Hg & _); [by left|].
      by exists s.
    + intros c Hc. apply list_elem_of_In in Hc. simpl in Hc.
      destruct Hc as [<-|[<-|[<-|[]]]].
      * apply (G2 ("ans_vol", "ans_vol", series_sum)). in_list.
      * apply (G2 ("aht_min", "aht", series_sum)). in_list.
      * apply (G2 ("art_min", "art", series_sum)). in_list.
    + intros c Hc. apply list_elem_of_In in Hc. simpl in Hc.
      destruct Hc as [<-|[<-|[]]].
      * destruct (G3 ("surveyed_count", "score", series_count)) as (s & Hg & _); [in_list|].
        by exists s.
      * destruct (G3 ("solved_count", "sloved", count_eq "yes")) as (s & Hg & _); [in_list|].
        by exists s.
    + intros c Hc. apply list_elem_of_In in Hc. simpl in Hc.
      destruct Hc as [<-|[<-|[<-|[<-|[<-|[<-|[]]]]]]].
      * destruct (G4 ("evaluated_count", "final", series_count)) as (s & Hg & _); [in_list|].
        by exists s.
      * destruct (G4 ("rc1_fail", "rc1", count_fail)) as (s & Hg & _); [in_list|].
        by exists s.
      * destruct (G4 ("rc2_fail", "rc2", count_fail)) as (s & Hg & _); [in_list|].
        by exists s.
      * destruct (G4 ("rc_fail", "rc", count_fail)) as (s & Hg & _); [in_list|].
        by exists s.
      * destruct (G4 ("bc_fail", "bc", count_fail)) as (s & Hg & _); [in_list|].
        by exists s.
      * destruct (G4 ("cc_fail", "cc", count_fail)) as (s & Hg & _); [in_list|].
        by exists s.
    + apply strftime_min_dated in Hs as [tm Htm].
      unfold table_dates, base_table in Htm. simpl in Htm. rewrite map_map in Htm.
      apply list_elem_of_fmap in Htm as (k & Hk & Hin). simpl in Hk.
      rewrite drop_duplicates_elem in Hin. exists k, tm. split; [exact Hin | by symmetry].
  - intros (Hall & d1 & d2 & d3 & d4 & k1 & k2 & k3 & k4 &
            E1 & E2 & E3 & E4 & K1 & K2 & K3 & K4 & C1 & C2 & C3 & C4 & Hdated).
    apply no_missing_sheets in Hall.
    exact (build_db_returns p d1 d2 d3 d4 k1 k2 k3 k4
             Hall E1 E2 E3 E4 K1 K2 K3 K4 C1 C2 C3 C4 Hdated).
Qed.

(** *** Running [build_db] again *)

(** Recording the statistics a second time changes nothing. *)
Lemma stats_again (b : Table F) (start stop : string) (d1 d2 d3 d4 : DataFrame F)
    (st : gmap string Value) :
  base_stats b start stop
    (loaded_stats d1 d2 d3 d4 (base_stats b start stop (loaded_stats d1 d2 d3 d4 st)))
  = base_stats b start stop (loaded_stats d1 d2 d3 d4 st).
Proof.
  apply map_eq. intros i. unfold base_stats, loaded_stats.
  rewrite !lookup_insert. repeat case_decide; done.
Qed.

(** X14.  A second call of [build_db] on the same object returns the same
    table and leaves the object as the first call left it: every attribute the
    method reads it has written before, from the file. *)
Theorem build_db_again (p p' : Pipeline) (t : Table F) :
  build_db p = (Ok t, p') -> build_db p' = (Ok t, p').
Proof.
  intros Hb.
  apply build_db_Ok in Hb
    as (d1 & d2 & d3 & d4 & k1 & k2 & k3 & k4 & a1 & a2 & a3 & a4 & start & stop &
        Hm & E1 & E2 & E3 & E4 & K1 & K2 & K3 & K4 & A1 & A2 & A3 & A4 & Hs & He & Ht & ->).
  unfold build_db.
  match goal with
  | |- _ ?q = _ => rewrite (M_bind_run _ _ _ _ _ (load_sheets_run q _ _ _ _ Hm E1 E2 E3 E4))
  end.
  cbn [file base stats].
  rewrite (M_bind_run _ _ _ _ _ (build_base_run _ _ _ _ _ _ _ _ _ _ _ _ _ K1 K2 K3 K4 Hs He)).
  rewrite (M_bind_run _ _ _ _ _ (aggregate_cho_run _ _ _ _ _ _ _ _ A1)).
  rewrite (M_bind_run _ _ _ _ _ (aggregate_cht_run _ _ _ _ _ _ _ _ A2)).
  rewrite (M_bind_run _ _ _ _ _ (aggregate_chd_run _ _ _ _ _ _ _ _ A3)).
  rewrite (M_bind_run _ _ _ _ _ (aggregate_che_run _ _ _ _ _ _ _ _ A4)).
  unfold mbind, M_bind, mret, M_ret, get_frame, set_base. simpl.
  fold (merged (k1 ++ k2 ++ k3 ++ k4) a1 a2 a3 a4).
  rewrite stats_again, <- Ht. reflexivity.
Qed.

(** *** What [build_db] reads *)

Lemma reads_bind {A B} (R R' R'' : Pipeline -> Pipeline -> Prop)
    (m : @M F File A) (k : A -> @M F File B) :
  reads R R' m -> (∀ a, reads R' R'' (k a)) -> reads R R'' (m ≫= k).
Proof.
  intros Hm Hk p1 p2 HR. specialize (Hm p1 p2 HR). unfold mbind, M_bind.
  destruct (m p1) as [[a1|e1] q1], (m p2) as [[a2|e2] q2]; try done.
  destruct Hm as [<- HR']. exact (Hk a1 q1 q2 HR').
Qed.

(** [load_sheets] reads the file only, and writes the four sheets. *)
Lemma load_sheets_reads : reads same_file same_sheets load_sheets.
Proof.
  intros [f c1 c2 c3 c4 b st] [f' c1' c2' c3' c4' b' st'] Hf.
  unfold same_file in Hf. simpl in Hf. subst f'.
  unfold load_sheets, mbind, M_bind, validate_sheets, load, set_cho, set_cht,
    set_chd, set_che, get_frame, set_stat.
  simpl.
  destruct (missing_sheets _); simpl; [|done].
  destruct (read_excel f "CHO" ≫= standardize) as [d1|]; simpl; simpl; [|done].
  destruct (read_excel f "CHT" ≫= standardize) as [d2|]; simpl; simpl; [|done].
  destruct (read_excel f "CHD" ≫= standardize) as [d3|]; simpl; simpl; [|done].
  destruct (read_excel f "CHE" ≫= standardize) as [d4|]; simpl; simpl; [|done].
  split; [done|]. repeat split.
Qed.

(** [build_base] reads the four sheets, and writes the base table. *)
Lemma build_base_reads : reads same_sheets same_tables (build_base : @M F File unit).
Proof.
  intros [f c1 c2 c3 c4 b st] [f' c1' c2' c3' c4' b' st'] (Hf & E1 & E2 & E3 & E4).
  simpl in *. subst.
  unfold build_base, mbind, M_bind, get_frame, lift, set_base, set_stat. simpl.
  destruct c1' as [d1|]; simpl; simpl; [|done]. destruct (keys_of d1) as [k1|]; simpl; [|done].
  destruct c2' as [d2|]; simpl; simpl; [|done]. destruct (keys_of d2) as [k2|]; simpl; [|done].
  destruct c3' as [d3|]; simpl; simpl; [|done]. destruct (keys_of d3) as [k3|]; simpl; [|done].
  destruct c4' as [d4|]; simpl; simpl; [|done]. destruct (keys_of d4) as [k4|]; simpl; [|done].
  simpl.
  destruct (strftime (series_min _)) as [start|]; simpl; [|done].
  destruct (strftime (series_max _)) as [stop|]; simpl; [|done].
  simpl. split; [done|]. repeat split.
Qed.

Ltac aggregate_reads :=
  let Hf := fresh in let E1 := fresh in let E2 := fresh in let E3 := fresh in
  let E4 := fresh in let Eb := fresh in
  intros [f c1 c2 c3 c4 b st] [f' c1' c2' c3' c4' b' st']
    [(Hf & E1 & E2 & E3 & E4) Eb];
  simpl in *; subst;
  unfold aggregate_cho, aggregate_cht, aggregate_chd, aggregate_che,
    merge_into_base, mbind, M_bind, get_frame, lift, set_base; simpl;
  repeat match goal with
         | |- context [match ?x with _ => _ end] =>
             is_var x; destruct x; simpl; try done
         | |- context [groupby_agg ?d ?s] =>
             destruct (groupby_agg d s); simpl; try done
         end.

(** Each aggregator reads its sheet and the base table, and writes the
    base table. *)
Lemma aggregate_cho_reads : reads same_tables same_tables (aggregate_cho : @M F File unit).
Proof. aggregate_reads. Qed.

Lemma aggregate_cht_reads : reads same_tables same_tables (aggregate_cht : @M F File unit).
Proof. aggregate_reads. Qed.

Lemma aggregate_chd_reads : reads same_tables same_tables (aggregate_chd : @M F File unit).
Proof. aggregate_reads. Qed.

Lemma aggregate_che_reads : reads same_tables same_tables (aggregate_che : @M F File unit).
Proof. aggregate_reads. Qed.

Lemma build_db_reads : reads same_file same_tables build_db.
Proof.
  unfold build_db.
  apply (reads_bind _ same_sheets); [exact load_sheets_reads | intros _].
  apply (reads_bind _ same_tables); [exact build_base_reads | intros _].
  apply (reads_bind _ same_tables); [exact aggregate_cho_reads | intros _].
  apply (reads_bind _ same_tables); [exact aggregate_cht_reads | intros _].
  apply (reads_bind _ same_tables); [exact aggregate_chd_reads | intros _].
  apply (reads_bind _ same_tables); [exact aggregate_che_reads | intros _].
  intros [f c1 c2 c3 c4 b st] [f' c1' c2' c3' c4' b' st']
    [(Hf & E1 & E2 & E3 & E4) Eb].
  simpl in *. subst.
  unfold mbind, M_bind, mret, M_ret, get_frame, set_base. simpl.
  destruct b' as [b|]; [|done]. simpl. split; [done|]. repeat split.
Qed.

(** X15.  The outcome of [build_db] depends on the file alone: on two pipeline
    objects over the same file, whatever their other attributes hold, it
    returns the same table or raises the same exception; and when it returns,
    it leaves the same four sheets and the same base table in both. *)
Theorem build_db_depends_on_file_only (p1 p2 : Pipeline) :
  file p1 = file p2 ->
  fst (build_db p1) = fst (build_db p2) ∧
  ∀ t, fst (build_db p1) = Ok t ->
    same_tables (snd (build_db p1)) (snd (build_db p2)).
Proof.
  intros Hf. pose proof (build_db_reads p1 p2 Hf) as Hr.
  destruct (build_db p1) as [[t1|e1] q1], (build_db p2) as [[t2|e2] q2]; try done; simpl.
  - destruct Hr as [<- Hq]. split; [done|]. by intros _ _.
  - subst e2. split; [done|]. by intros t Ht.
Qed.

(** *** The aggregators on any base table *)

(** Merging an aggregate into a table keeps the rows of the table one for
    one and appends one cell per named aggregation to each. *)
Lemma merge_appends (b agg : Table F) (df : DataFrame F) (spec : list named_agg) :
  groupby_agg df spec = Ok agg ->
  metric_cols (merge_left b agg) = metric_cols b ++ spec_names spec ∧
  Forall2 (fun r r' : Row =>
             r'.1 = r.1 ∧ ∃ ms, r'.2 = r.2 ++ ms ∧ length ms = length (spec_names spec))
          (rows b) (rows (merge_left b agg)).
Proof.
  intros Hg. split.
  - rewrite merge_left_cols. f_equal.
    by apply groupby_agg_Ok in Hg as (_ & _ & _ & _ & -> & _).
  - rewrite (merge_left_rows _ _ (groupby_agg_NoDup _ _ _ Hg)).
    apply Forall2_fmap_r, Forall_Forall2_diag, Forall_forall. intros r _. simpl.
    split; [done|]. eexists. split; [done|].
    unfold spec_names. by rewrite length_map, (metrics_at_length _ _ _ _ Hg).
Qed.

(** X16.  Each aggregator keeps the rows of the base table it finds: as many
    rows, in the same order, with the same keys and the same cells, and after
    them the cells of its own columns.  It changes nothing else in the object.
    The base table may hold any rows and any columns, as long as its keys are
    dates and texts, as the keys of the sheets are (pandas refuses to merge on
    key columns of different kinds), and it does not yet have the aggregator's
    columns (pandas would rename them). *)
Theorem aggregators_append_columns (m : @M F File unit) (names : list string)
    (p p' : Pipeline) (b : Table F) :
  (m, names) ∈ [ (aggregate_cho, ["absent"; "scheduled"]);
                 (aggregate_cht, ["ans_vol"; "aht_min"; "art_min"]);
                 (aggregate_chd, ["surveyed_count"; "solved_count"; "not_solved_count";
                                  "csat_count"; "dsat_count"]);
                 (aggregate_che, ["evaluated_count"; "pass_eval_count"; "fail_eval_count";
                                  "rc1_fail"; "rc2_fail"; "rc_fail"; "bc_fail"; "cc_fail"]) ] ->
  base p = Some b ->
  keyed b ->
  (∀ c, c ∈ names -> c ∉ metric_cols b) ->
  m p = (Ok (), p') ->
  ∃ b',
    base p' = Some b' ∧
    metric_cols b' = metric_cols b ++ names ∧
    Forall2 (fun r r' : Row =>
               r'.1 = r.1 ∧ ∃ ms, r'.2 = r.2 ++ ms ∧ length ms = length names)
            (rows b) (rows b') ∧
    file p' = file p ∧ cho p' = cho p ∧ cht p' = cht p ∧ chd p' = chd p ∧
    che p' = che p ∧ stats p' = stats p.
Proof.
  intros Hm Hbase _ _ Hrun. destruct p as [f c1 c2 c3 c4 b0 st].
  simpl in Hbase. subst b0.
  apply list_elem_of_In in Hm. simpl in Hm.
  destruct Hm as [Hm|[Hm|[Hm|[Hm|[]]]]]; injection Hm as <- <-;
    revert Hrun;
    unfold aggregate_cho, aggregate_cht, aggregate_chd, aggregate_che,
      merge_into_base, mbind, M_bind, get_frame, lift, set_base; simpl.
  - destruct c1 as [d|]; simpl; [|done].
    destruct (groupby_agg d cho_spec) as [agg|] eqn:Hg; simpl; [|done].
    intros [= <-]. simpl.
    exists (merge_left b agg). split; [done|].
    destruct (merge_appends b agg _ _ Hg) as [Hc Hr]. by repeat split.
  - destruct c2 as [d|]; simpl; [|done].
    destruct (groupby_agg d cht_spec) as [agg|] eqn:Hg; simpl; [|done].
    intros [= <-]. simpl.
    exists (merge_left b agg). split; [done|].
    destruct (merge_appends b agg _ _ Hg) as [Hc Hr]. by repeat split.
  - destruct c3 as [d|]; simpl; [|done].
    destruct (groupby_agg d chd_spec) as [agg|] eqn:Hg; simpl; [|done].
    intros [= <-]. simpl.
    exists (merge_left b agg). split; [done|].
    destruct (merge_appends b agg _ _ Hg) as [Hc Hr]. by repeat split.
  - destruct c4 as [d|]; simpl; [|done].
    destruct (groupby_agg d che_spec) as [agg|] eqn:Hg; simpl; [|done].
    intros [= <-]. simpl.
    exists (merge_left b agg). split; [done|].
    destruct (merge_appends b agg _ _ Hg) as [Hc Hr]. by repeat split.
Qed.

(** *** Headers that are not text *)

Lemma for_each_Raise_inv {A B} (f : A -> result B) (l : list A) (e : exn) :
  for_each f l = Raise e -> ∃ x, x ∈ l ∧ f x = Raise e.
Proof.
  induction l as [|x l IH]; simpl; [done|].
  destruct (f x) as [y|e1] eqn:Hx.
  - destruct (for_each f l) as [ys|e2]; [done|]. intros [= <-].
    destruct IH as (x' & Hin & Hx'); [done|]. exists x'. split; [by right | done].
  - intros [= <-]. exists x. split; [by left | done].
Qed.

Lemma to_datetime_no_attribute_error (s : Series F) (msg : string) :
  to_datetime s ≠ Raise (AttributeError msg).
Proof.
  unfold to_datetime. intros Ht.
  destruct (for_each to_datetime_value (s_values s)) as [vs|e] eqn:Hf; [done|].
  simpl in Ht. injection Ht as ->.
  apply for_each_Raise_inv in Hf as (v & _ & Hv).
  assert (Hns : ∀ n, timestamp_of_ns n ≠ (Raise (AttributeError msg) : result Value)).
  { intros n. unfold timestamp_of_ns.
    destruct (n =? Time.int64_min); [done|]. by destruct (_ && _). }
  destruct v; simpl in Hv; try done.
  - by apply Hns in Hv.
  - by apply Hns in Hv.
  - by destruct (parse_datetime s0) as [[t|]|].
Qed.

Lemma getitem_no_attribute_error (df : DataFrame F) (c msg : string) :
  getitem df c ≠ Raise (AttributeError msg).
Proof. unfold getitem. by destruct (filter _ _) as [|q [|q' l]]. Qed.

(** X17.  [standardize] raises an [AttributeError] exactly when some column
    label is not a text (a header cell that holds a number or a date): such a
    label has no [lower]. *)
Theorem standardize_attribute_error (raw : DataFrame F) :
  (∃ msg, standardize raw = Raise (AttributeError msg)) ↔
  ∃ q, q ∈ df_columns raw ∧ ∀ s, q.1 ≠ VStr s.
Proof.
  unfold standardize. split.
  - intros [msg Hs].
    destruct (for_each normalize_label (map fst (df_columns raw))) as [labels|e] eqn:Hl.
    + exfalso. simpl in Hs.
      generalize dependent (set_columns raw labels). intros df0 Hs.
      destruct (contains df0 "date").
      * destruct (getitem df0 "date") as [s|e] eqn:Hg; simpl in Hs;
          [|injection Hs as ->; by apply getitem_no_attribute_error in Hg].
        destruct (to_datetime s) as [s'|e] eqn:Ht; simpl in Hs;
          [|injection Hs as ->; by apply to_datetime_no_attribute_error in Ht].
        destruct (contains (setitem df0 "date" s') "agentmis"); [|done].
        destruct (getitem (setitem df0 "date" s') "agentmis") as [a|e] eqn:Ha;
          simpl in Hs; [done|].
        injection Hs as ->. by apply getitem_no_attribute_error in Ha.
      * simpl in Hs. destruct (contains df0 "agentmis"); [|done].
        destruct (getitem df0 "agentmis") as [a|e] eqn:Ha; simpl in Hs; [done|].
        injection Hs as ->. by apply getitem_no_attribute_error in Ha.
    + apply for_each_Raise_inv in Hl as (l & Hin & Hn).
      apply list_elem_of_fmap in Hin as (q & -> & Hq).
      exists q. split; [done|]. intros s Heq. rewrite Heq in Hn. discriminate Hn.
  - intros (q & Hq & Hn).
    assert (Hr : normalize_label q.1
                 = Raise (AttributeError "object has no attribute 'lower'")).
    { destruct q.1 as [| | |s| |] eqn:Hq1; try done. by destruct (Hn s). }
    destruct (for_each normalize_label (map fst (df_columns raw))) as [labels|e] eqn:Hl.
    + exfalso. apply for_each_Ok in Hl.
      apply list_elem_of_lookup in Hq as [i Hi].
      assert (Hi1 : map fst (df_columns raw) !! i = Some q.1)
        by (by rewrite list_lookup_fmap, Hi).
      destruct (Forall2_lookup_l _ _ _ _ _ Hl Hi1) as (y & _ & Hy). congruence.
    + apply for_each_Raise_inv in Hl as (l & _ & Hn').
      destruct l; simpl in Hn'; try done; injection Hn' as <-; by eexists.
Qed.

(** *** The two [except] clauses of the page *)

(** X18.  A workbook in which no row has a date is reported as a validation
    error: the four sheets are there, they load, and each has its date and
    agentmis columns, but every date is missing (or there is no row at all),
    so that [build_base] raises the [ValueError] of [NaT.strftime], which the
    page catches in its [except ValueError] clause. *)
Theorem undated_workbook_alert (f : File) (d1 d2 d3 d4 : DataFrame F)
    (k1 k2 k3 k4 : list (key F)) :
  (∀ s, s ∈ required_sheets -> s ∈ sheet_names f) ->
  read_excel f "CHO" ≫= standardize = Ok d1 ->
  read_excel f "CHT" ≫= standardize = Ok d2 ->
  read_excel f "CHD" ≫= standardize = Ok d3 ->
  read_excel f "CHE" ≫= standardize = Ok d4 ->
  keys_of d1 = Ok k1 -> keys_of d2 = Ok k2 -> keys_of d3 = Ok k3 -> keys_of d4 = Ok k4 ->
  (∀ k, k ∈ k1 ++ k2 ++ k3 ++ k4 -> ∀ t, k.1 ≠ VTime t) ->
  page_alert f
  = Some (ValidationError (ValueError "NaTType does not support strftime")).
Proof.
  intros Hall E1 E2 E3 E4 K1 K2 K3 K4 Hnone.
  apply no_missing_sheets in Hall.
  unfold page_alert, build_db.
  rewrite (M_bind_run _ _ _ _ _ (load_sheets_run (init f) _ _ _ _ Hall E1 E2 E3 E4)).
  assert (Hts : timestamps (table_dates (base_table (k1 ++ k2 ++ k3 ++ k4))) = []).
  { destruct (timestamps _) as [|t0 ts] eqn:Ht; [done|]. exfalso.
    assert (Hin : t0 ∈ timestamps (table_dates (base_table (k1 ++ k2 ++ k3 ++ k4))))
      by (rewrite Ht; by left).
    unfold timestamps in Hin. apply list_elem_of_omap in Hin as (v & Hv & Hvt).
    unfold table_dates, base_table in Hv. simpl in Hv. rewrite map_map in Hv.
    apply list_elem_of_fmap in Hv as (k & -> & Hk). simpl in Hvt.
    rewrite drop_duplicates_elem in Hk.
    destruct k.1 eqn:Hk1; try done. by destruct (Hnone k Hk t). }
  unfold build_base, mbind, M_bind, get_frame, lift, set_base, set_stat. simpl.
  rewrite K1, K2, K3, K4. simpl. unfold series_min. rewrite Hts. reflexivity.
Qed.

Lemma getitem_missing (df : DataFrame F) (c : string) :
  contains df c = false -> getitem df c = Raise (KeyError c).
Proof.
  intros Hc. unfold getitem.
  destruct (filter _ (df_columns df)) as [|q l] eqn:Hf; [done|]. exfalso.
  assert (Hq : q ∈ filter (fun p => has_label c p = true) (df_columns df))
    by (rewrite Hf; by left).
  apply list_elem_of_filter in Hq as [Hl Hq]. apply bool_decide_eq_true in Hl.
  by destruct (contains_false _ _ _ Hc Hq).
Qed.

(** A sheet without one of the two key columns has no keys: asking for
    them raises a [KeyError]. *)
Lemma keys_of_missing (df : DataFrame F) (c : string) :
  c ∈ ["date"; "agentmis"] -> contains df c = false ->
  (∀ c', c' ∈ ["date"; "agentmis"] -> contains df c' = true -> ∃ s, getitem df c' = Ok s) ->
  ∃ msg, keys_of df = Raise (KeyError msg).
Proof.
  intros Hc Hno Hone. unfold keys_of.
  apply list_elem_of_In in Hc. simpl in Hc. destruct Hc as [<-|[<-|[]]].
  - rewrite (getitem_missing _ _ Hno). by eexists.
  - destruct (contains df "date") eqn:Hd.
    + destruct (Hone "date") as [s ->]; [in_list|done|]. simpl.
      rewrite (getitem_missing _ _ Hno). by eexists.
    + rewrite (getitem_missing _ _ Hd). by eexists.
Qed.

(** X19.  A workbook in which a sheet has no date column or no agentmis
    column is reported as a processing error: when the four sheets are
    there and load, and the first sheet without keys (in the order CHO, CHT,
    CHD, CHE) lacks one of the two columns, [build_base] raises a [KeyError],
    which the page catches in its [except Exception] clause. *)
Theorem missing_key_column_alert (f : File) (d1 d2 d3 d4 d : DataFrame F)
    (pre post : list (DataFrame F)) (c : string) :
  (∀ s, s ∈ required_sheets -> s ∈ sheet_names f) ->
  read_excel f "CHO" ≫= standardize = Ok d1 ->
  read_excel f "CHT" ≫= standardize = Ok d2 ->
  read_excel f "CHD" ≫= standardize = Ok d3 ->
  read_excel f "CHE" ≫= standardize = Ok d4 ->
  [d1; d2; d3; d4] = pre ++ d :: post ->
  (∀ d', d' ∈ pre -> ∃ ks, keys_of d' = Ok ks) ->
  c ∈ ["date"; "agentmis"] -> contains d c = false ->
  (∀ c', c' ∈ ["date"; "agentmis"] -> contains d c' = true -> ∃ s, getitem d c' = Ok s) ->
  ∃ msg, page_alert f = Some (ProcessingError (KeyError msg)).
Proof.
  intros Hall E1 E2 E3 E4 Hsplit Hpre Hc Hno Hone.
  apply no_missing_sheets in Hall.
  destruct (keys_of_missing d c Hc Hno Hone) as [msg Hk]. exists msg.
  unfold page_alert, build_db.
  rewrite (M_bind_run _ _ _ _ _ (load_sheets_run (init f) _ _ _ _ Hall E1 E2 E3 E4)).
  unfold build_base, mbind, M_bind, get_frame, lift, set_base, set_stat. simpl.
  destruct pre as [|x1 [|x2 [|x3 [|x4 pre]]]]; simpl in Hsplit.
  - injection Hsplit as -> _. by rewrite Hk.
  - injection Hsplit as <- -> _.
    destruct (Hpre d1) as [k1 ->]; [by left|]. simpl. by rewrite Hk.
  - injection Hsplit as <- <- -> _.
    destruct (Hpre d1) as [k1 ->]; [by left|].
    destruct (Hpre d2) as [k2 ->]; [by right; left|]. simpl. by rewrite Hk.
  - injection Hsplit as <- <- <- -> _.
    destruct (Hpre d1) as [k1 ->]; [by left|].
    destruct (Hpre d2) as [k2 ->]; [by right; left|].
    destruct (Hpre d3) as [k3 ->]; [by right; right; left|]. simpl. by rewrite Hk.
  - exfalso. injection Hsplit as _ _ _ _ Hnil. by destruct pre.
Qed.

(** *** The recorded statistics *)

Lemma drop_duplicates_from_length {A} `{EqDecision A} (seen l : list A) :
  (length (drop_duplicates_from seen l) ≤ length l)%nat.
Proof.
  revert seen. induction l as [|x l IH]; intros seen; simpl; [done|].
  destruct (decide (x ∈ seen)); simpl; [specialize (IH seen) | specialize (IH (x :: seen))];
    lia.
Qed.

Lemma drop_duplicates_length {A} `{EqDecision A} (l : list A) :
  (length (drop_duplicates l) ≤ length l)%nat.
Proof. apply drop_duplicates_from_length. Qed.

(** [standardize] keeps a frame rectangular. *)
Lemma standardize_rectangular (raw d : DataFrame F) :
  standardize raw = Ok d -> rectangular raw -> rectangular d.
Proof.
  intros Hs Hraw. pose proof (standardize_Forall2 _ _ Hs) as Hall.
  assert (Hlen : len d = len raw).
  { unfold len. destruct Hall as [|q q' l l' (_ & Hlen & _) _]; [done|]. by destruct q, q'. }
  intros c Hc. apply list_elem_of_lookup in Hc as [i Hi].
  destruct (Forall2_lookup_r _ _ _ _ _ Hall Hi) as (q & Hq & _ & Hl & _).
  rewrite Hl, Hlen. apply Hraw. by eapply list_elem_of_lookup_2.
Qed.

(** A rectangular frame has at most as many keys as rows. *)
Lemma keys_of_length (d : DataFrame F) (ks : list (key F)) :
  keys_of d = Ok ks -> rectangular d -> (length ks ≤ len d)%nat.
Proof.
  unfold keys_of. intros Hk Hd.
  apply bind_Ok in Hk as (dt & Hdt & Hk). apply bind_Ok in Hk as (ag & Hag & Hk).
  injection Hk as <-. rewrite length_zip_with.
  apply getitem_elem in Hdt. specialize (Hd _ Hdt). simpl in Hd. lia.
Qed.

(** The agent of a key of a standardized sheet is a text. *)
Lemma keys_of_agent (raw d : DataFrame F) (ks : list (key F)) (k : key F) :
  standardize raw = Ok d -> keys_of d = Ok ks -> k ∈ ks -> ∃ x, k.2 = VStr x.
Proof.
  intros Hs Hk Hin. unfold keys_of in Hk.
  apply bind_Ok in Hk as (dt & Hdt & Hk). apply bind_Ok in Hk as (ag & Hag & Hk).
  injection Hk as <-. destruct k as [kd ka]. apply elem_of_zip_r in Hin. simpl.
  destruct (standardized_column _ _ _ _ Hs Hag) as (q & _ & _ & _ & _ & Ha & _).
  simpl in Ha. rewrite (Ha eq_refl) in Hin. simpl in Hin.
  apply list_elem_of_fmap in Hin as (v0 & -> & _). by eexists.
Qed.

Lemma loaded_standardized (f : File) (name : string) (d : DataFrame F) :
  read_excel f name ≫= standardize = Ok d ->
  ∃ raw, read_excel f name = Ok raw ∧ standardize raw = Ok d.
Proof. intros Hd. apply bind_Ok in Hd as (raw & Hr & Hs). by exists raw. Qed.

Ltac lookup_stat :=
  unfold base_stats, loaded_stats;
  repeat (rewrite lookup_insert_eq || rewrite lookup_insert_ne by done).

(** X20.  The figures of the summary are consistent: after a successful run on
    rectangular sheets there is at least one agent, there are at most as many
    agents as records, and at most as many records as the four sheets have
    rows together; the number of records is the number of rows of the table.
    *)
Theorem stats_bounds (p p' : Pipeline) (t : Table F) :
  build_db p = (Ok t, p') ->
  (∀ name raw, name ∈ required_sheets ->
     read_excel (file p) name = Ok raw -> rectangular raw) ->
  ∃ agents records n1 n2 n3 n4 : nat,
    stats p' !! "unique_agents" = Some (VInt (Z.of_nat agents)) ∧
    stats p' !! "total_records" = Some (VInt (Z.of_nat records)) ∧
    stats p' !! "cho_rows" = Some (VInt (Z.of_nat n1)) ∧
    stats p' !! "cht_rows" = Some (VInt (Z.of_nat n2)) ∧
    stats p' !! "chd_rows" = Some (VInt (Z.of_nat n3)) ∧
    stats p' !! "che_rows" = Some (VInt (Z.of_nat n4)) ∧
    records = length (rows t) ∧
    (1 ≤ agents)%nat ∧ (agents ≤ records)%nat ∧ (records ≤ n1 + n2 + n3 + n4)%nat.
Proof.
  intros Hb Hrect.
  apply build_db_table in Hb
    as (d1 & d2 & d3 & d4 & k1 & k2 & k3 & k4 & a1 & a2 & a3 & a4 & start & stop &
        Hm & E1 & E2 & E3 & E4 & K1 & K2 & K3 & K4 & A1 & A2 & A3 & A4 & Hs & He & -> & ->).
  set (ks := k1 ++ k2 ++ k3 ++ k4) in *.
  exists (nunique (table_agents (base_table ks))), (length (rows (base_table ks))),
    (len d1), (len d2), (len d3), (len d4).
  cbn [stats rows].
  split; [by lookup_stat|]. split; [by lookup_stat|]. split; [by lookup_stat|].
  split; [by lookup_stat|]. split; [by lookup_stat|]. split; [by lookup_stat|].
  unfold base_table, table_agents, nunique. cbn [rows]. rewrite !length_map, map_map.
  cbn [fst snd].
  split; [done|].
  assert (Hload : ∀ name d kd, name ∈ required_sheets ->
            read_excel (file p) name ≫= standardize = Ok d -> keys_of d = Ok kd ->
            (length kd ≤ len d)%nat ∧ ∀ k, k ∈ kd -> ∃ x, k.2 = VStr x).
  { intros name d kd Hn Hd Hk. apply loaded_standardized in Hd as (raw & Hr & Hst).
    split; [|intros k Hin; by eapply keys_of_agent].
    apply keys_of_length; [done|]. eapply standardize_rectangular; [done|]. by eapply Hrect. }
  destruct (Hload "CHO" d1 k1) as [L1 T1]; [in_list|done|done|].
  destruct (Hload "CHT" d2 k2) as [L2 T2]; [in_list|done|done|].
  destruct (Hload "CHD" d3 k3) as [L3 T3]; [in_list|done|done|].
  destruct (Hload "CHE" d4 k4) as [L4 T4]; [in_list|done|done|].
  assert (Htext : ∀ k, k ∈ ks -> ∃ x, k.2 = VStr x).
  { intros k Hk. unfold ks in Hk. rewrite !elem_of_app in Hk.
    destruct Hk as [Hk|[Hk|[Hk|Hk]]]; eauto. }
  split; [|split].
  - apply strftime_min_dated in Hs as [tm Htm].
    unfold table_dates, base_table in Htm. cbn [rows] in Htm. rewrite map_map in Htm.
    apply list_elem_of_fmap in Htm as (k & _ & Hin).
    pose proof Hin as Hin'. rewrite drop_duplicates_elem in Hin'.
    destruct (Htext k Hin') as [x Hx].
    assert (Hx' : VStr x ∈ drop_duplicates
                    (filter (fun v : Value => notna v = true)
                            (map (fun k : key F => k.2) (drop_duplicates ks)))).
    { apply drop_duplicates_elem, list_elem_of_filter. split; [done|].
      apply list_elem_of_fmap. exists k. by split. }
    destruct (drop_duplicates (filter _ _)); [inversion Hx' | simpl; lia].
  - etransitivity; [apply drop_duplicates_length|].
    etransitivity; [apply filter_length_le|]. by rewrite length_map.
  - etransitivity; [apply drop_duplicates_length|].
    unfold ks. rewrite !length_app. lia.
Qed.

End Flow.


(** ** The further properties on concrete workbooks *)

Lemma undated_run :
  build_db (Demo.pipeline Cases.undated)
  = (Ok (Demo.table_of Cases.undated), Demo.state_of Cases.undated).
Proof. vm_compute. reflexivity. Qed.

(** The row without a date is in the table, after the dated rows. *)
Example undated_row :
  map fst (rows (Demo.table_of Cases.undated))
  = [ (Demo.day 2024 1 1, VStr "A1"); (VNaN, VStr "A9"); (Demo.day 2024 1 2, VStr "A2");
      (Demo.day 2024 1 3, VStr "7") ].
Proof. vm_compute. reflexivity. Qed.

Lemma cho_standardizes : standardize Cases.cho_loaded = Ok Cases.cho_standard.
Proof. vm_compute. reflexivity. Qed.

(** The Evaluation counts on [Demo.workbook]. *)
Lemma che_counts_witness :
  build_db (Demo.pipeline Demo.workbook) = (Ok Demo.expected, Demo.state_of Demo.workbook) ∧
  ∃ d4 ks final rc1 rc2 rc bc cc,
    read_excel (file (Demo.pipeline Demo.workbook)) "CHE" ≫= standardize = Ok d4 ∧
    keys_of d4 = Ok ks ∧
    getitem d4 "final" = Ok final ∧ getitem d4 "rc1" = Ok rc1 ∧
    getitem d4 "rc2" = Ok rc2 ∧ getitem d4 "rc" = Ok rc ∧
    getitem d4 "bc" = Ok bc ∧ getitem d4 "cc" = Ok cc ∧
    ∀ r, r ∈ rows Demo.expected -> r.1 ∈ group_keys ks ->
      let count n := Some (VInt (Z.of_nat n) : value Demo.decimal) in
      cell Demo.expected r "evaluated_count" = count (count_notna (group ks r.1 final)) ∧
      cell Demo.expected r "pass_eval_count" = count (count_text "pass" (group ks r.1 final)) ∧
      cell Demo.expected r "fail_eval_count" = count (count_text "fail" (group ks r.1 final)) ∧
      cell Demo.expected r "rc1_fail" = count (count_text "fail" (group ks r.1 rc1)) ∧
      cell Demo.expected r "rc2_fail" = count (count_text "fail" (group ks r.1 rc2)) ∧
      cell Demo.expected r "rc_fail" = count (count_text "fail" (group ks r.1 rc)) ∧
      cell Demo.expected r "bc_fail" = count (count_text "fail" (group ks r.1 bc)) ∧
      cell Demo.expected r "cc_fail" = count (count_text "fail" (group ks r.1 cc)).
Proof. split; [exact demo_run|]. exact (che_counts _ _ _ demo_run). Defined.

(** The bounds of the Evaluation counts on [Demo.workbook]. *)
Lemma che_bounds_witness :
  build_db (Demo.pipeline Demo.workbook) = (Ok Demo.expected, Demo.state_of Demo.workbook) ∧
  ∃ d4 ks final,
    read_excel (file (Demo.pipeline Demo.workbook)) "CHE" ≫= standardize = Ok d4 ∧
    keys_of d4 = Ok ks ∧
    getitem d4 "final" = Ok final ∧
    ∀ r, r ∈ rows Demo.expected -> r.1 ∈ group_keys ks ->
      ∃ evaluated passed failed : nat,
        cell Demo.expected r "evaluated_count" = Some (VInt (Z.of_nat evaluated)) ∧
        cell Demo.expected r "pass_eval_count" = Some (VInt (Z.of_nat passed)) ∧
        cell Demo.expected r "fail_eval_count" = Some (VInt (Z.of_nat failed)) ∧
        (passed + failed ≤ evaluated)%nat ∧
        (evaluated ≤ size (group ks r.1 final))%nat.
Proof. split; [exact demo_run|]. exact (che_bounds _ _ _ demo_run). Defined.


(** Absent and scheduled on [Demo.workbook]. *)
Lemma absent_le_scheduled_witness :
  build_db (Demo.pipeline Demo.workbook) = (Ok Demo.expected, Demo.state_of Demo.workbook) ∧
  ∃ d1 ks status,
    read_excel (file (Demo.pipeline Demo.workbook)) "CHO" ≫= standardize = Ok d1 ∧
    keys_of d1 = Ok ks ∧
    getitem d1 "status" = Ok status ∧
    ∀ r, r ∈ rows Demo.expected -> r.1 ∈ group_keys ks ->
      ∃ absent scheduled : nat,
        cell Demo.expected r "absent" = Some (VInt (Z.of_nat absent)) ∧
        cell Demo.expected r "scheduled" = Some (VInt (Z.of_nat scheduled)) ∧
        absent = count_text "no show" (group ks r.1 status) ∧
        (absent ≤ scheduled)%nat ∧
        (scheduled ≤ size (group ks r.1 status))%nat.
Proof. split; [exact demo_run|]. exact (absent_le_scheduled _ _ _ demo_run). Defined.

(** The bounds of the Satisfaction counts on [Demo.workbook]. *)
Lemma surveyed_bounds_witness :
  build_db (Demo.pipeline Demo.workbook) = (Ok Demo.expected, Demo.state_of Demo.workbook) ∧
  ∃ d3 ks score,
    read_excel (file (Demo.pipeline Demo.workbook)) "CHD" ≫= standardize = Ok d3 ∧
    keys_of d3 = Ok ks ∧
    getitem d3 "score" = Ok score ∧
    ∀ r, r ∈ rows Demo.expected -> r.1 ∈ group_keys ks ->
      ∃ surveyed satisfied dissatisfied : nat,
        cell Demo.expected r "surveyed_count" = Some (VInt (Z.of_nat surveyed)) ∧
        cell Demo.expected r "csat_count" = Some (VInt (Z.of_nat satisfied)) ∧
        cell Demo.expected r "dsat_count" = Some (VInt (Z.of_nat dissatisfied)) ∧
        surveyed = count_notna (group ks r.1 score) ∧
        (satisfied ≤ surveyed)%nat ∧ (dissatisfied ≤ surveyed)%nat ∧
        (surveyed ≤ size (group ks r.1 score))%nat.
Proof. split; [exact demo_run|]. exact (surveyed_bounds _ _ _ demo_run). Defined.

(** The row of agent A9, which has no date, holds zeros, although its
    status is "No Show". *)
Lemma undated_rows_hold_zeros_witness :
  build_db (Demo.pipeline Cases.undated)
  = (Ok (Demo.table_of Cases.undated), Demo.state_of Cases.undated) ∧
  ∀ r, r ∈ rows (Demo.table_of Cases.undated) -> r.1.1 = VNaN ->
    ∀ c, c ∈ all_metric_cols -> cell (Demo.table_of Cases.undated) r c = Some (VInt 0).
Proof. split; [exact undated_run|]. exact (undated_rows_hold_zeros _ _ _ undated_run). Defined.

(** A second run on the object the first run left. *)
Lemma build_db_again_witness :
  build_db (Demo.pipeline Demo.workbook) = (Ok Demo.expected, Demo.state_of Demo.workbook) ∧
  build_db (Demo.state_of Demo.workbook) = (Ok Demo.expected, Demo.state_of Demo.workbook).
Proof. split; [exact demo_run|]. exact (build_db_again _ _ _ demo_run). Defined.

(** A fresh object and a used one over [Demo.workbook]. *)
Lemma build_db_depends_on_file_only_witness :
  file (Demo.pipeline Demo.workbook) = file (Demo.state_of Demo.workbook) ∧
  fst (build_db (Demo.pipeline Demo.workbook)) = fst (build_db (Demo.state_of Demo.workbook)).
Proof.
  assert (Hf : file (Demo.pipeline Demo.workbook) = file (Demo.state_of Demo.workbook))
    by (vm_compute; reflexivity).
  split; [exact Hf|]. exact (proj1 (build_db_depends_on_file_only _ _ Hf)).
Defined.

(** [load_sheets] on a workbook whose second sheet has a date that is no
    date: the first sheet is loaded, no statistic is recorded. *)
Lemma load_sheets_raise_keeps_stats_witness :
  ∃ e p',
    load_sheets (Demo.pipeline Demo.bad_date) = (Raise e, p') ∧
    stats p' = stats (Demo.pipeline Demo.bad_date) ∧
    base p' = base (Demo.pipeline Demo.bad_date) ∧
    file p' = file (Demo.pipeline Demo.bad_date).
Proof.
  destruct (load_sheets (Demo.pipeline Demo.bad_date)) as [[u|e] p'] eqn:Hl;
    [vm_compute in Hl; discriminate Hl|].
  exists e, p'. split; [reflexivity|].
  exact (load_sheets_raise_keeps_stats _ _ _ Hl).
Defined.

(** [standardize] on the Attendance sheet of [Demo.workbook]. *)
Lemma standardize_keeps_columns_witness :
  standardize Cases.cho_loaded = Ok Cases.cho_standard ∧
  Forall2 standardized (df_columns Cases.cho_loaded) (df_columns Cases.cho_standard) ∧
  len Cases.cho_standard = len Cases.cho_loaded.
Proof.
  split; [exact cho_standardizes|]. exact (standardize_keeps_columns _ _ cho_standardizes).
Defined.

Lemma standardize_key_types_witness :
  standardize Cases.cho_loaded = Ok Cases.cho_standard ∧
  (∀ s, getitem Cases.cho_standard "date" = Ok s ->
     s_dtype s = datetime64 ∧
     ∀ v, v ∈ s_values s -> v = VNaN ∨ ∃ t, v = VTime t) ∧
  (∀ s, getitem Cases.cho_standard "agentmis" = Ok s ->
     s_dtype s = object_ ∧ ∀ v, v ∈ s_values s -> ∃ x, v = VStr x).
Proof.
  split; [exact cho_standardizes|]. exact (standardize_key_types _ _ cho_standardizes).
Defined.

Lemma standardize_idempotent_witness :
  standardize Cases.cho_loaded = Ok Cases.cho_standard ∧
  standardize Cases.cho_standard = Ok Cases.cho_standard.
Proof.
  split; [exact cho_standardizes|]. exact (standardize_idempotent _ _ cho_standardizes).
Defined.

(** [aggregate_cho] on the object [build_base] left for [Demo.workbook]. *)
Lemma aggregators_append_columns_witness :
  (aggregate_cho, ["absent"; "scheduled"])
    ∈ [ (aggregate_cho, ["absent"; "scheduled"]);
        (aggregate_cht, ["ans_vol"; "aht_min"; "art_min"]);
        (aggregate_chd, ["surveyed_count"; "solved_count"; "not_solved_count";
                         "csat_count"; "dsat_count"]);
        (aggregate_che, ["evaluated_count"; "pass_eval_count"; "fail_eval_count";
                         "rc1_fail"; "rc2_fail"; "rc_fail"; "bc_fail"; "cc_fail"]) ] ∧
  base Cases.based = Some Cases.based_table ∧
  keyed Cases.based_table ∧
  (∀ c, c ∈ ["absent"; "scheduled"] -> c ∉ metric_cols Cases.based_table) ∧
  aggregate_cho Cases.based = (Ok (), Cases.after_cho) ∧
  ∃ b',
    base Cases.after_cho = Some b' ∧
    metric_cols b' = metric_cols Cases.based_table ++ ["absent"; "scheduled"] ∧
    length (rows b') = length (rows Cases.based_table).
Proof.
  assert (Hin : (aggregate_cho, ["absent"; "scheduled"])
    ∈ [ (@aggregate_cho Demo.decimal (@Excel.Workbook Demo.decimal) _, ["absent"; "scheduled"]);
        (aggregate_cht, ["ans_vol"; "aht_min"; "art_min"]);
        (aggregate_chd, ["surveyed_count"; "solved_count"; "not_solved_count";
                         "csat_count"; "dsat_count"]);
        (aggregate_che, ["evaluated_count"; "pass_eval_count"; "fail_eval_count";
                         "rc1_fail"; "rc2_fail"; "rc_fail"; "bc_fail"; "cc_fail"]) ])
    by (by left).
  assert (Hb : base Cases.based = Some Cases.based_table) by (vm_compute; reflexivity).
  assert (Hkeyed : keyed Cases.based_table).
  { intros r Hr. apply list_elem_of_In in Hr. vm_compute in Hr.
    repeat (destruct Hr as [<-|Hr]; [split; [right|]; by eexists|]). destruct Hr. }
  assert (Hnew : ∀ c, c ∈ ["absent"; "scheduled"] -> c ∉ metric_cols Cases.based_table).
  { intros c _ Hc. vm_compute in Hc. inversion Hc. }
  assert (Hrun : aggregate_cho Cases.based = (Ok (), Cases.after_cho))
    by (vm_compute; reflexivity).
  split; [exact Hin|]. split; [exact Hb|]. split; [exact Hkeyed|].
  split; [exact Hnew|]. split; [exact Hrun|].
  destruct (aggregators_append_columns _ _ _ _ _ Hin Hb Hkeyed Hnew Hrun)
    as (b' & Hb' & Hcols & Hrows & _).
  exists b'. split; [exact Hb'|]. split; [exact Hcols|].
  symmetry. exact (Forall2_length _ _ _ Hrows).
Defined.

(** The page on the workbook that has the four headers and no row. *)
Lemma undated_workbook_alert_witness :
  (∀ s, s ∈ required_sheets -> s ∈ sheet_names Demo.headers_only) ∧
  page_alert Demo.headers_only
  = Some (ValidationError (ValueError "NaTType does not support strftime")).
Proof.
  assert (Hall : ∀ s, s ∈ required_sheets -> s ∈ sheet_names Demo.headers_only).
  { intros s Hs. apply list_elem_of_In in Hs. simpl in Hs.
    destruct Hs as [<-|[<-|[<-|[<-|[]]]]]; in_list. }
  split; [exact Hall|].
  apply (undated_workbook_alert Demo.headers_only
           (Cases.standard Demo.headers_only "CHO") (Cases.standard Demo.headers_only "CHT")
           (Cases.standard Demo.headers_only "CHD") (Cases.standard Demo.headers_only "CHE")
           (Cases.keys Demo.headers_only "CHO") (Cases.keys Demo.headers_only "CHT")
           (Cases.keys Demo.headers_only "CHD") (Cases.keys Demo.headers_only "CHE"));
    try exact Hall; try (vm_compute; reflexivity).
  intros k Hk. vm_compute in Hk. inversion Hk.
Defined.

Lemma demo_rectangular (name : string) (raw : DataFrame Demo.decimal) :
  name ∈ required_sheets ->
  read_excel (file (Demo.pipeline Demo.workbook)) name = Ok raw -> rectangular raw.
Proof.
  intros Hn Hr. apply list_elem_of_In in Hn. simpl in Hn.
  destruct Hn as [<-|[<-|[<-|[<-|[]]]]]; vm_compute in Hr; injection Hr as <-;
    intros c Hc; apply list_elem_of_In in Hc; simpl in Hc;
    repeat (destruct Hc as [<-|Hc]; [reflexivity|]); destruct Hc.
Qed.

(** The figures of the summary for [Demo.workbook]. *)
Lemma stats_bounds_witness :
  build_db (Demo.pipeline Demo.workbook) = (Ok Demo.expected, Demo.state_of Demo.workbook) ∧
  (∀ name raw, name ∈ required_sheets ->
     read_excel (file (Demo.pipeline Demo.workbook)) name = Ok raw -> rectangular raw) ∧
  ∃ agents records n1 n2 n3 n4 : nat,
    stats (Demo.state_of Demo.workbook) !! "unique_agents" = Some (VInt (Z.of_nat agents)) ∧
    stats (Demo.state_of Demo.workbook) !! "total_records" = Some (VInt (Z.of_nat records)) ∧
    stats (Demo.state_of Demo.workbook) !! "cho_rows" = Some (VInt (Z.of_nat n1)) ∧
    stats (Demo.state_of Demo.workbook) !! "cht_rows" = Some (VInt (Z.of_nat n2)) ∧
    stats (Demo.state_of Demo.workbook) !! "chd_rows" = Some (VInt (Z.of_nat n3)) ∧
    stats (Demo.state_of Demo.workbook) !! "che_rows" = Some (VInt (Z.of_nat n4)) ∧
    records = length (rows Demo.expected) ∧
    (1 ≤ agents)%nat ∧ (agents ≤ records)%nat ∧ (records ≤ n1 + n2 + n3 + n4)%nat.
Proof.
  split; [exact demo_run|]. split; [exact demo_rectangular|].
  exact (stats_bounds _ _ _ demo_run demo_rectangular).
Defined.

(** The page on a workbook whose Call-handling sheet has no agentmis
    column. *)
Lemma missing_key_column_alert_witness :
  (∀ s, s ∈ required_sheets -> s ∈ sheet_names Cases.no_agent) ∧
  contains (Cases.standard Cases.no_agent "CHT") "agentmis" = false ∧
  ∃ msg, page_alert Cases.no_agent = Some (ProcessingError (KeyError msg)).
Proof.
  assert (Hall : ∀ s, s ∈ required_sheets -> s ∈ sheet_names Cases.no_agent).
  { intros s Hs. apply list_elem_of_In in Hs. simpl in Hs.
    destruct Hs as [<-|[<-|[<-|[<-|[]]]]]; in_list. }
  assert (Hno : contains (Cases.standard Cases.no_agent "CHT") "agentmis" = false)
    by (vm_compute; reflexivity).
  split; [exact Hall|]. split; [exact Hno|].
  apply (missing_key_column_alert Cases.no_agent
           (Cases.standard Cases.no_agent "CHO") (Cases.standard Cases.no_agent "CHT")
           (Cases.standard Cases.no_agent "CHD") (Cases.standard Cases.no_agent "CHE")
           (Cases.standard Cases.no_agent "CHT")
           [Cases.standard Cases.no_agent "CHO"]
           [Cases.standard Cases.no_agent "CHD"; Cases.standard Cases.no_agent "CHE"]
           "agentmis");
    try exact Hall; try exact Hno; try (vm_compute; reflexivity).
  - intros d' Hd'. apply list_elem_of_singleton in Hd'. subst d'.
    eexists. vm_compute. reflexivity.
  - in_list.
  - intros c' Hc' Hyes. apply list_elem_of_In in Hc'. simpl in Hc'.
    destruct Hc' as [<-|[<-|[]]]; [|rewrite Hno in Hyes; discriminate Hyes].
    eexists. vm_compute. reflexivity.
Defined.
